(** * crate.client.sqlalchemy.compiler

    A shallow embedding of [src/crate/client/sqlalchemy/compiler.py]: the
    dirty-tracking rewrite of UPDATE parameters ([rewrite_update]) and the
    hook that calls it ([crate_before_execute]), the DDL compiler
    ([CrateDDLCompiler.post_create_table], [get_column_specification]), the
    type compiler ([CrateTypeCompiler]), the expression compilers
    ([CrateCompiler.visit_getitem_binary], [visit_any]) and the INSERT /
    UPDATE text compilers ([CrateCompiler.visit_insert], [visit_update],
    [visit_update_14], [_get_crud_params], [_get_crud_params_14]).

    Python dictionaries are association lists in insertion order, Python
    sets are lists in their iteration order, exceptions are the [Raise]
    branch of a small error monad.  SQLAlchemy itself is not part of the
    repository: what the compiler calls from it enters as the fields of an
    interface record. *)

From Stdlib Require Import List String Ascii Bool ZArith Lia Arith.
From Stdlib Require Import DecimalString Sorting.Sorted Sorting.Permutation.
From Stdlib Require Import Structures.OrderedTypeEx Relations.Relation_Definitions.
From Stdlib Require Import Classes.RelationClasses.
Import ListNotations.

Local Open Scope list_scope.
Local Open Scope string_scope.

Set Implicit Arguments.

(* ------------------------------------------------------------------ *)
(** ** Exceptions *)

Inductive exn : Type :=
| IndexError
| NotImplementedError (msg : string)
| DeprecationWarning (msg : string)
| CompileError (msg : string)
| AttributeError
| TypeError
| UnboundLocalError
| Foreign (msg : string).

Inductive result (A : Type) : Type :=
| Return (a : A)
| Raise (e : exn).

Arguments Return {A} a.
Arguments Raise {A} e.

(** Code that assigns attributes of an object of type [S] and can raise *)
Definition M (S A : Type) : Type := S -> result (A * S).

Definition ret {S A : Type} (a : A) : M S A := fun s => Return (a, s).

Definition bind {S A B : Type} (m : M S A) (k : A -> M S B) : M S B :=
  fun s =>
    match m s with
    | Return (a, s') => k a s'
    | Raise e => Raise e
    end.

Definition raise {S A : Type} (e : exn) : M S A := fun _ => Raise e.

Definition get {S : Type} : M S S := fun s => Return (s, s).

Definition modify {S : Type} (f : S -> S) : M S unit :=
  fun s => Return (tt, f s).

Fixpoint mapM {S A B : Type} (f : A -> M S B) (l : list A) : M S (list B) :=
  match l with
  | [] => ret []
  | a :: l' =>
      bind (f a) (fun b => bind (mapM f l') (fun bs => ret (b :: bs)))
  end.

(** [bool(l)] for a list, a tuple, a dictionary or a set *)
Definition nonempty {A : Type} (l : list A) : bool :=
  match l with [] => false | _ :: _ => true end.

(* ------------------------------------------------------------------ *)
(** ** Python strings *)

Module Py.

(** [sep.join(ls)] *)
Definition join (sep : string) (ls : list string) : string :=
  String.concat sep ls.

(** [s.startswith(p)] *)
Definition startswith (s p : string) : bool := String.prefix p s.

(** [s[n:]] *)
Fixpoint slice_from (n : nat) (s : string) : string :=
  match n, s with
  | O, _ => s
  | S _, EmptyString => EmptyString
  | S n', String _ s' => slice_from n' s'
  end.

Definition upper_ascii (c : ascii) : ascii :=
  let n := nat_of_ascii c in
  if andb (97 <=? n)%nat (n <=? 122)%nat then ascii_of_nat (n - 32) else c.

(** [s.upper()], on ASCII text *)
Fixpoint upper (s : string) : string :=
  match s with
  | EmptyString => EmptyString
  | String c s' => String (upper_ascii c) (upper s')
  end.

(** [c in s] for a one-character [c] *)
Fixpoint contains_char (c : ascii) (s : string) : bool :=
  match s with
  | EmptyString => false
  | String c' s' => if Ascii.eqb c c' then true else contains_char c s'
  end.

(** [str(n)] for an [int] *)
Definition str_int (n : Z) : string := NilZero.string_of_int (Z.to_int n).

(** [sorted(ls)] on strings: insertion into an ordered list, with
    [String.leb], the order on code points. *)
Fixpoint insert_sorted (x : string) (ls : list string) : list string :=
  match ls with
  | [] => [x]
  | y :: ls' => if String.leb x y then x :: ls else y :: insert_sorted x ls'
  end.

Fixpoint sorted (ls : list string) : list string :=
  match ls with
  | [] => []
  | x :: ls' => insert_sorted x (sorted ls')
  end.

End Py.

(* ------------------------------------------------------------------ *)
(** ** Python dictionaries

    Insertion ordered: assigning to a key that is present replaces the
    value at its position, assigning to a new key appends.  [eqb] is the
    equality of the keys. *)

Section Dict.
Variables (K V : Type) (eqb : K -> K -> bool).

Fixpoint dict_get (k : K) (d : list (K * V)) : option V :=
  match d with
  | [] => None
  | (k', v) :: d' => if eqb k k' then Some v else dict_get k d'
  end.

(** [k in d] *)
Definition dict_mem (k : K) (d : list (K * V)) : bool :=
  match dict_get k d with Some _ => true | None => false end.

(** [d[k] = v] *)
Fixpoint dict_set (k : K) (v : V) (d : list (K * V)) : list (K * V) :=
  match d with
  | [] => [(k, v)]
  | (k', v') :: d' =>
      if eqb k k' then (k', v) :: d' else (k', v') :: dict_set k v d'
  end.

(** [dict(pairs)] *)
Definition dict_of (pairs : list (K * V)) : list (K * V) :=
  fold_left (fun d kv => dict_set (fst kv) (snd kv) d) pairs [].

End Dict.

(** Dictionaries with [str] keys *)
Definition dict (V : Type) : Type := list (string * V).

Definition dict_keys {V : Type} (d : dict V) : list string := map fst d.

Abbreviation str_get := (dict_get String.eqb).
Abbreviation str_set := (dict_set String.eqb).
Abbreviation str_of := (dict_of String.eqb).

(** [k in s] for a set of strings *)
Definition set_mem (k : string) (s : list string) : bool :=
  existsb (String.eqb k) s.

(** Values a parameter or an option can hold whose [str()] the compiler
    formats into text. *)
Inductive scalar : Type :=
| SNone
| SBool (b : bool)
| SInt (n : Z)
| SStr (s : string).

Definition py_str (v : scalar) : string :=
  match v with
  | SNone => "None"
  | SBool true => "True"
  | SBool false => "False"
  | SInt n => Py.str_int n
  | SStr s => s
  end.

(* ------------------------------------------------------------------ *)
(** ** CrateTypeCompiler *)

Module CrateTypeCompiler.

(** A type, by the [visit_] method it is dispatched to: the methods the
    compiler defines ([String_] for [visit_string], [Unicode] for
    [visit_unicode], [DateTime] for [visit_datetime], [Date] for
    [visit_date], the others under their own name), and [Generic] for
    every method it inherits from [GenericTypeCompiler]. *)
Inductive TypeEngine : Type :=
| String_
| Unicode
| TEXT
| DECIMAL
| BIGINT
| NUMERIC
| INTEGER
| SMALLINT
| DateTime
| Date
| ARRAY (item_type : TypeEngine) (dimensions : option Z)
| Generic (visit_name : string).

Section Process.
(** The visit methods of [GenericTypeCompiler] *)
Variable generic_visit : string -> result string.

(** [self.process(type_)], dispatching to the [visit_] methods; the case
    of [ARRAY] is [visit_ARRAY]. *)
Fixpoint process (type_ : TypeEngine) : result string :=
  match type_ with
  | String_ => Return "STRING"
  | Unicode => Return "STRING"
  | TEXT => Return "STRING"
  | DECIMAL => Return "DOUBLE"
  | BIGINT => Return "LONG"
  | NUMERIC => Return "LONG"
  | INTEGER => Return "INT"
  | SMALLINT => Return "SHORT"
  | DateTime => Return "TIMESTAMP"
  | Date => Return "TIMESTAMP"
  | ARRAY item_type dimensions =>
      if match dimensions with
         | Some d => (1 <? d)%Z
         | None => false
         end
      then Raise (NotImplementedError
                    "CrateDB doesn't support multidimensional arrays")
      else match process item_type with
           | Return item => Return ("ARRAY(" ++ item ++ ")")
           | Raise e => Raise e
           end
  | Generic visit_name => generic_visit visit_name
  end.

(** [visit_ARRAY(self, type_, **kw)] *)
Definition visit_ARRAY (item_type : TypeEngine) (dimensions : option Z)
  : result string :=
  process (ARRAY item_type dimensions).
End Process.

End CrateTypeCompiler.

(* ------------------------------------------------------------------ *)
(** ** CrateDDLCompiler *)

Module CrateDDLCompiler.

(** [__special_opts_tmpl]: the template of a key, filled with a value *)
Definition special_opts_tmpl (k : string) : option (string -> string) :=
  if String.eqb k "PARTITIONED_BY"
  then Some (fun v => " PARTITIONED BY (" ++ v ++ ")")
  else None.

(** [__clustered_opts_tmpl] *)
Definition clustered_opts_tmpl (k : string) : option (string -> string) :=
  if String.eqb k "NUMBER_OF_SHARDS"
  then Some (fun v => " INTO " ++ v ++ " SHARDS")
  else if String.eqb k "CLUSTERED_BY"
  then Some (fun v => " BY (" ++ v ++ ")")
  else None.

(** [defaultdict(str)]: a missing key reads as the empty string *)
Definition default_get (k : string) (d : dict string) : string :=
  match str_get k d with Some v => v | None => "" end.

(** [__clustered_opt_tmpl], [' CLUSTERED{CLUSTERED_BY}{NUMBER_OF_SHARDS}'],
    filled from the clustered options *)
Definition clustered_opt_tmpl (clustered_options : dict string) : string :=
  " CLUSTERED" ++ default_get "CLUSTERED_BY" clustered_options
               ++ default_get "NUMBER_OF_SHARDS" clustered_options.

(** The pairs [dict(...)] is called with for [opts]: the items of
    [table.kwargs] whose key starts with the name of the dialect and an
    underscore, under the rest of the key in upper case; and [opts], the
    dictionary of these pairs *)
Definition opts_items (dialect_name : string) (kwargs : dict scalar)
  : list (string * scalar) :=
  map (fun kv => (Py.upper (Py.slice_from (String.length dialect_name + 1)
                                          (fst kv)), snd kv))
      (filter (fun kv => Py.startswith (fst kv) (dialect_name ++ "_"))
              kwargs).

Definition opts (dialect_name : string) (kwargs : dict scalar) : dict scalar :=
  str_of (opts_items dialect_name kwargs).

(** The three variables of the loop over [opts.items()] *)
Record acc : Type := {
  special_options : string;
  clustered_options : dict string;
  table_opts : list string
}.

(** One turn of the loop *)
Definition step (a : acc) (kv : string * scalar) : acc :=
  let (k, v) := kv in
  match special_opts_tmpl k with
  | Some tmpl =>
      {| special_options := special_options a ++ tmpl (py_str v);
         clustered_options := clustered_options a;
         table_opts := table_opts a |}
  | None =>
      match clustered_opts_tmpl k with
      | Some tmpl =>
          {| special_options := special_options a;
             clustered_options :=
               str_set k (tmpl (py_str v)) (clustered_options a);
             table_opts := table_opts a |}
      | None =>
          {| special_options := special_options a;
             clustered_options := clustered_options a;
             table_opts := app (table_opts a) [k ++ " = " ++ py_str v] |}
      end
  end.

(** The loop, from the empty text, dictionary and list *)
Definition scan (o : dict scalar) : acc :=
  fold_left step o
    {| special_options := ""; clustered_options := []; table_opts := [] |}.

(** [post_create_table(self, table)], for the name of the dialect and
    [table.kwargs] *)
Definition post_create_table (dialect_name : string) (kwargs : dict scalar)
  : string :=
  let a := scan (opts dialect_name kwargs) in
  let special_options :=
    match clustered_options a with
    | [] => special_options a
    | _ :: _ => special_options a ++ clustered_opt_tmpl (clustered_options a)
    end in
  match table_opts a with
  | [] => special_options
  | _ :: _ =>
      special_options ++ " WITH (" ++ Py.join ", " (Py.sorted (table_opts a))
                      ++ ")"
  end.

End CrateDDLCompiler.


(* ------------------------------------------------------------------ *)
(** ** Bound values *)

(** Modelled from the spec: [MutableDict] of [crate.client.sqlalchemy.types]
    is imported by the compiler and not defined in it.  It is a [dict]
    that carries the two sets [_changed_keys] and [_deleted_keys]; the
    compiler reads [items()] and these two attributes only.  The document
    keys are strings. *)
#[warnings="-register-all"]
Inductive value : Type :=
| VScalar (s : scalar)
| VDict (items : list (string * value))
| VMutableDict (items : list (string * value))
               (_changed_keys _deleted_keys : list string).

Definition VNull : value := VScalar SNone.

(** [any(keys)]: some key is truthy, and a string is truthy when it is not
    empty. *)
Definition any (keys : list string) : bool :=
  existsb (fun k => negb (String.eqb k "")) keys.

(** ["{0}['{1}']".format(key, subkey)] *)
Definition path (key subkey : string) : string :=
  key ++ "['" ++ subkey ++ "']".

(* ------------------------------------------------------------------ *)
(** ** rewrite_update: the parameters *)

(** The two inner loops of [rewrite_update] over a changed document [val]
    bound to [key], writing into [newparams]. *)
Definition rewrite_document (key : string) (items : list (string * value))
  (_changed_keys _deleted_keys : list string) (newparams : dict value)
  : dict value :=
  let newparams :=
    fold_left
      (fun np (kv : string * value) =>
         let (subkey, subval) := kv in
         if set_mem subkey _changed_keys
         then str_set (path key subkey) subval np
         else np)
      items newparams in
  fold_left (fun np subkey => str_set (path key subkey) VNull np)
            _deleted_keys newparams.

(** One turn of the loop over [_params.items()] *)
Definition rewrite_item (newparams : dict value) (kv : string * value)
  : dict value :=
  let (key, val) := kv in
  match val with
  | VMutableDict items _changed_keys _deleted_keys =>
      if negb (any _changed_keys) && negb (any _deleted_keys)
      then str_set key val newparams
      else rewrite_document key items _changed_keys _deleted_keys newparams
  | _ => str_set key val newparams
  end.

(** The body of the loop over [_multiparams]: [newparams] for [_params] *)
Definition rewrite_params (_params : dict value) : dict value :=
  fold_left rewrite_item _params [].

(** [isinstance(val, MutableDict)] with a changed or a deleted key that
    [any] sees *)
Definition is_dirty (val : value) : bool :=
  match val with
  | VMutableDict _ c d => negb (negb (any c) && negb (any d))
  | _ => false
  end.

(* ------------------------------------------------------------------ *)
(** ** The SQLAlchemy objects the compiler reads *)

(** INSERT_SELECT_WITHOUT_PARENTHESES_MIN_VERSION *)
Definition INSERT_SELECT_WITHOUT_PARENTHESES_MIN_VERSION : list Z :=
  [1; 0; 1]%Z.

(** [a >= b] on tuples of integers *)
Fixpoint tuple_ge (a b : list Z) : bool :=
  match a, b with
  | _, [] => true
  | [], _ :: _ => false
  | x :: a', y :: b' =>
      if (x <? y)%Z then false
      else if (y <? x)%Z then true
      else tuple_ge a' b'
  end.

(** The attributes of [self.dialect] the compiler reads *)
Module Dialect.
Record t : Type := {
  name : string;
  server_version_info : list Z;
  supports_default_values : bool;
  supports_empty_insert : bool;
  supports_multivalues_insert : bool
}.
End Dialect.

(** A key of a statement's parameters: a string or a column object *)
Inductive PKey (Column : Type) : Type :=
| KStr (s : string)
| KCol (c : Column).

Arguments KStr {Column} s.
Arguments KCol {Column} c.

(** [stmt.parameters]: [None], one dictionary, or a list of them *)
Inductive Parameters (Column : Type) : Type :=
| PNone
| PDict (d : list (PKey Column * value))
| PList (l : list (list (PKey Column * value))).

Arguments PNone {Column}.
Arguments PDict {Column} d.
Arguments PList {Column} l.

(** The attributes of an [Insert] or [Update] statement the compiler reads.
    [_crate_specific] is the attribute [rewrite_update] sets: [None] when
    the statement does not have it. *)
Module Stmt.
Section Types.
Variables Table Column Clause : Type.
Record t : Type := {
  table : Table;
  parameters : Parameters Column;
  _has_multi_parameters : bool;
  _prefixes : list Clause;
  _hints : list ((Table * string) * string);
  _returning : list Column;
  select : option Clause;
  _select_names : list string;
  _extra_froms : list Table;
  _whereclause : option Clause;
  _where_criteria : list Clause;
  _crate_specific : option bool
}.

(** [clause._crate_specific = True] *)
Definition set_crate_specific (clause : t) : t :=
  {| table := table clause;
     parameters := parameters clause;
     _has_multi_parameters := _has_multi_parameters clause;
     _prefixes := _prefixes clause;
     _hints := _hints clause;
     _returning := _returning clause;
     select := select clause;
     _select_names := _select_names clause;
     _extra_froms := _extra_froms clause;
     _whereclause := _whereclause clause;
     _where_criteria := _where_criteria clause;
     _crate_specific := Some true |}.

(** [hasattr(stmt, '_crate_specific')] *)
Definition has_crate_specific (stmt : t) : bool :=
  match _crate_specific stmt with Some _ => true | None => false end.
End Types.
End Stmt.

(** SQLAlchemy 1.4's compile state of a statement *)
Module CompileState.
Section Types.
Variables Table Column Clause : Type.
Record t : Type := {
  statement : Stmt.t Table Column Clause;
  _extra_froms : list Table;
  _no_parameters : bool;
  _has_multi_parameters : bool;
  _multi_parameters : list (list (PKey Column * value));
  _ordered_values : list (PKey Column * value);
  _dict_parameters : option (list (PKey Column * value));
  isinsert : bool;
  isupdate : bool;
  is_multitable : bool
}.
End Types.
End CompileState.

(** [crud.REQUIRED] or a value *)
Inductive Slot : Type :=
| REQUIRED
| Bound (v : value).

(** The three getters of [crud._key_getters_for_crud_column] *)
Module Getters.
Section Types.
Variables Column ColKey : Type.
Record t : Type := {
  _column_as_key : PKey Column -> ColKey;
  _getattr_col_key : Column -> ColKey;
  _col_bind_name : Column -> string
}.
End Types.
End Getters.

(** The attributes of the compiler ([self]) that compilation assigns.
    [internals] is what SQLAlchemy keeps for itself (binds, CTEs, ...). *)
Module Compiler.
Section Types.
Variables Table Column Clause ColKey Internals : Type.
Record t : Type := {
  returning : list Column;
  postfetch : list Column;
  insert_prefetch : list Column;
  update_prefetch : list Column;
  isinsert : bool;
  isupdate : bool;
  stack : list (list Table * list Table * Stmt.t Table Column Clause);
  _insert_from_select : option Clause;
  compile_state : option (CompileState.t Table Column Clause);
  _key_getters_for_crud_column : option (Getters.t Column ColKey);
  internals : Internals
}.
End Types.
End Compiler.

(** What compilation only reads: the dialect, the class attributes of the
    compiler, [column_keys] and [for_executemany], and the two comparisons
    of [SA_VERSION] ([SA_VERSION], [SA_1_1] and [SA_1_4] are imported from
    [sa_version], which is not in the sources: the outcome of a comparison
    enters as a boolean). *)
Module Settings.
Record t : Type := {
  dialect : Dialect.t;
  SA_VERSION_ge_SA_1_1 : bool;
  SA_VERSION_ge_SA_1_4 : bool;
  column_keys : option (list string);
  returning_precedes_values : bool;
  render_table_with_column_in_update_from : bool;
  for_executemany : bool
}.
End Settings.

(** What [crud._get_crud_params] and [_get_crud_params_14] return: the
    entries of one row, or a list of rows for a statement with
    [_has_multi_parameters]. *)
Inductive Values (E : Type) : Type :=
| Row (row : list E)
| Rows (rows : list (list E)).

Arguments Row {E} row.
Arguments Rows {E} rows.

(** [bool(values)] *)
Definition values_nonempty {E : Type} (v : Values E) : bool :=
  match v with Row r => nonempty r | Rows rs => nonempty rs end.

(** ** SQLAlchemy

    What the compiler calls from SQLAlchemy: the methods it inherits from
    [SQLCompiler], the functions of [sqlalchemy.sql.crud] and the methods of
    the statement objects.  A call that can assign attributes of the
    compiler or register binds is in [M].  The fields keep the names of
    what they stand for, but for: [values], [clauseelement.values(d)];
    [base_visit_insert] and [base_visit_update], the [visit_insert] and
    [visit_update] of [super()]; [process_bindparam k v],
    [self.process(sa.sql.bindparam(k, v))]; [_compiler_dispatch c b],
    [c._compiler_dispatch(self, include_table=b)]; [ctes], [bool(self.ctes)];
    [columns], [table.columns]; [table_eqb] and [colkey_eqb], the equality
    of the keys of a dictionary; and the fields [crud_...], the functions
    [crud._...] as [_get_crud_params] of [CrateCompiler] calls them, where
    the fields without the prefix are the functions [_get_crud_params_14]
    imports. *)
Module SA.
Section Types.
Variables Table Column Clause ColKey Internals : Type.

Local Abbreviation stmt := (Stmt.t Table Column Clause).
Local Abbreviation cstate := (CompileState.t Table Column Clause).
Local Abbreviation compiler := (Compiler.t Table Column Clause ColKey Internals).
Local Abbreviation getters := (Getters.t Column ColKey).
Local Abbreviation pdict := (list (PKey Column * value)).
Local Abbreviation params := (list (ColKey * Slot)).
Local Abbreviation checks := (list (ColKey * Column)).
Local Abbreviation pairs := (list (Column * string)).
Local Abbreviation triples := (list (Column * string * string)).

Record t : Type := {
  (* statement and table objects *)
  values : stmt -> dict value -> result stmt;
  columns : Table -> list Column;
  table_eqb : Table -> Table -> bool;
  colkey_eqb : ColKey -> ColKey -> bool;
  _from_objects : Table -> list Table;
  _select_iterables : list Column -> list Column;
  _compile_state_factory : stmt -> M compiler cstate;
  (* the identifier preparer *)
  format_table : Table -> string;
  format_column : Column -> string;
  (* SQLCompiler *)
  base_visit_insert : stmt -> M compiler string;
  base_visit_update : stmt -> M compiler string;
  process : Clause -> M compiler string;
  process_bindparam : string -> value -> M compiler string;
  _compiler_dispatch : Column -> bool -> M compiler string;
  _generate_prefixes : stmt -> list Clause -> M compiler string;
  format_from_hint_text : string -> Table -> string -> bool -> string;
  _label_select_column : Column -> M compiler string;
  update_tables_clause : stmt -> Table -> list Table -> M compiler string;
  _setup_crud_hints :
    stmt -> string -> M compiler (list (Table * string) * string);
  update_from_clause :
    stmt -> Table -> list Table -> option (list (Table * string)) ->
    M compiler string;
  update_limit_clause : stmt -> M compiler (option string);
  _generate_delimited_and_list : list Clause -> M compiler string;
  ctes : compiler -> bool;
  _render_cte_clause : M compiler string;
  (* sqlalchemy.sql.crud, before 1.4 *)
  crud_get_crud_params : stmt -> M compiler (Values (Column * string));
  crud_create_bind_param : Column -> M compiler string;
  crud_key_getters_for_crud_column : option stmt -> M compiler getters;
  crud_get_stmt_parameters_params :
    params -> pdict -> getters -> pairs -> M compiler (params * pairs);
  crud_scan_cols :
    stmt -> params -> getters -> checks -> pairs ->
    M compiler (params * checks * pairs);
  crud_extend_values_for_multiparams :
    stmt -> pairs -> M compiler (list pairs);
  (* sqlalchemy.sql.crud, 1.4 *)
  _create_bind_param : Column -> M compiler string;
  _key_getters_for_crud_column : stmt -> cstate -> M compiler getters;
  _get_stmt_parameter_tuples_params :
    cstate -> params -> pdict -> getters -> triples ->
    M compiler (params * triples);
  _get_multitable_params :
    stmt -> cstate -> option pdict -> checks -> getters -> triples ->
    M compiler (checks * triples);
  _scan_insert_from_select_cols :
    stmt -> cstate -> params -> getters -> checks -> triples ->
    M compiler (params * checks * triples);
  _scan_cols :
    stmt -> cstate -> params -> getters -> checks -> triples ->
    M compiler (params * checks * triples);
  _extend_values_for_multiparams :
    stmt -> cstate -> triples -> M compiler (list triples)
}.
End Types.
End SA.

Declare Scope py_scope.
Delimit Scope py_scope with py.
Notation "x <- m ;; k" := (bind m (fun x => k))
  (at level 61, m at next level, right associativity) : py_scope.
Notation "' p <- m ;; k" := (bind m (fun p => k))
  (at level 61, p pattern, m at next level, right associativity) : py_scope.

(* ------------------------------------------------------------------ *)
(** ** rewrite_update and CrateCompiler *)

Section CrateCompiler.
Variables Table Column Clause ColKey Internals : Type.
Variable sa : SA.t Table Column Clause ColKey Internals.
Variable self : Settings.t.

Local Abbreviation stmt := (Stmt.t Table Column Clause).
Local Abbreviation cstate := (CompileState.t Table Column Clause).
Local Abbreviation compiler := (Compiler.t Table Column Clause ColKey Internals).
Local Abbreviation getters := (Getters.t Column ColKey).
Local Abbreviation pdict := (list (PKey Column * value)).

Local Open Scope py_scope.

(** [rewrite_update(clauseelement, multiparams, params)]; [multiparams] is
    a tuple whose first item is the list of parameter dictionaries. *)
Definition rewrite_update (clauseelement : stmt)
  (multiparams : list (list (dict value))) (params : dict value)
  : result (stmt * list (list (dict value)) * dict value) :=
  match multiparams with
  | [] => Raise IndexError
  | _multiparams :: _ =>
      if Nat.eqb (List.length _multiparams) 0
      then Return (clauseelement, multiparams, params)
      else
        let newmultiparams := map rewrite_params _multiparams in
        match newmultiparams with
        | [] => Raise IndexError
        | newparams0 :: _ =>
            match SA.values sa clauseelement newparams0 with
            | Raise e => Raise e
            | Return clause =>
                Return (Stmt.set_crate_specific clause,
                        [newmultiparams], params)
            end
        end
  end.

(** Assignments to attributes of the compiler *)
Definition set_returning (r : list Column) (c : compiler) : compiler :=
  {| Compiler.returning := r;
     Compiler.postfetch := Compiler.postfetch c;
     Compiler.insert_prefetch := Compiler.insert_prefetch c;
     Compiler.update_prefetch := Compiler.update_prefetch c;
     Compiler.isinsert := Compiler.isinsert c;
     Compiler.isupdate := Compiler.isupdate c;
     Compiler.stack := Compiler.stack c;
     Compiler._insert_from_select := Compiler._insert_from_select c;
     Compiler.compile_state := Compiler.compile_state c;
     Compiler._key_getters_for_crud_column :=
       Compiler._key_getters_for_crud_column c;
     Compiler.internals := Compiler.internals c |}.

Definition set_isinsert (b : bool) (c : compiler) : compiler :=
  {| Compiler.returning := Compiler.returning c;
     Compiler.postfetch := Compiler.postfetch c;
     Compiler.insert_prefetch := Compiler.insert_prefetch c;
     Compiler.update_prefetch := Compiler.update_prefetch c;
     Compiler.isinsert := b;
     Compiler.isupdate := Compiler.isupdate c;
     Compiler.stack := Compiler.stack c;
     Compiler._insert_from_select := Compiler._insert_from_select c;
     Compiler.compile_state := Compiler.compile_state c;
     Compiler._key_getters_for_crud_column :=
       Compiler._key_getters_for_crud_column c;
     Compiler.internals := Compiler.internals c |}.

Definition set_isupdate (b : bool) (c : compiler) : compiler :=
  {| Compiler.returning := Compiler.returning c;
     Compiler.postfetch := Compiler.postfetch c;
     Compiler.insert_prefetch := Compiler.insert_prefetch c;
     Compiler.update_prefetch := Compiler.update_prefetch c;
     Compiler.isinsert := Compiler.isinsert c;
     Compiler.isupdate := b;
     Compiler.stack := Compiler.stack c;
     Compiler._insert_from_select := Compiler._insert_from_select c;
     Compiler.compile_state := Compiler.compile_state c;
     Compiler._key_getters_for_crud_column :=
       Compiler._key_getters_for_crud_column c;
     Compiler.internals := Compiler.internals c |}.

Definition set_stack
  (st : list (list Table * list Table * stmt)) (c : compiler) : compiler :=
  {| Compiler.returning := Compiler.returning c;
     Compiler.postfetch := Compiler.postfetch c;
     Compiler.insert_prefetch := Compiler.insert_prefetch c;
     Compiler.update_prefetch := Compiler.update_prefetch c;
     Compiler.isinsert := Compiler.isinsert c;
     Compiler.isupdate := Compiler.isupdate c;
     Compiler.stack := st;
     Compiler._insert_from_select := Compiler._insert_from_select c;
     Compiler.compile_state := Compiler.compile_state c;
     Compiler._key_getters_for_crud_column :=
       Compiler._key_getters_for_crud_column c;
     Compiler.internals := Compiler.internals c |}.

Definition set_compile_state (cs : cstate) (c : compiler) : compiler :=
  {| Compiler.returning := Compiler.returning c;
     Compiler.postfetch := Compiler.postfetch c;
     Compiler.insert_prefetch := Compiler.insert_prefetch c;
     Compiler.update_prefetch := Compiler.update_prefetch c;
     Compiler.isinsert := Compiler.isinsert c;
     Compiler.isupdate := Compiler.isupdate c;
     Compiler.stack := Compiler.stack c;
     Compiler._insert_from_select := Compiler._insert_from_select c;
     Compiler.compile_state := Some cs;
     Compiler._key_getters_for_crud_column :=
       Compiler._key_getters_for_crud_column c;
     Compiler.internals := Compiler.internals c |}.

Definition set_key_getters (g : getters) (c : compiler) : compiler :=
  {| Compiler.returning := Compiler.returning c;
     Compiler.postfetch := Compiler.postfetch c;
     Compiler.insert_prefetch := Compiler.insert_prefetch c;
     Compiler.update_prefetch := Compiler.update_prefetch c;
     Compiler.isinsert := Compiler.isinsert c;
     Compiler.isupdate := Compiler.isupdate c;
     Compiler.stack := Compiler.stack c;
     Compiler._insert_from_select := Compiler._insert_from_select c;
     Compiler.compile_state := Compiler.compile_state c;
     Compiler._key_getters_for_crud_column := Some g;
     Compiler.internals := Compiler.internals c |}.

(** [compiler.postfetch = []], [compiler.insert_prefetch = []],
    [compiler.update_prefetch = []], [compiler.returning = []] *)
Definition reset_fetch (c : compiler) : compiler :=
  {| Compiler.returning := [];
     Compiler.postfetch := [];
     Compiler.insert_prefetch := [];
     Compiler.update_prefetch := [];
     Compiler.isinsert := Compiler.isinsert c;
     Compiler.isupdate := Compiler.isupdate c;
     Compiler.stack := Compiler.stack c;
     Compiler._insert_from_select := Compiler._insert_from_select c;
     Compiler.compile_state := Compiler.compile_state c;
     Compiler._key_getters_for_crud_column :=
       Compiler._key_getters_for_crud_column c;
     Compiler.internals := Compiler.internals c |}.

(** [self.stack.append(entry)] *)
Definition stack_append (entry : list Table * list Table * stmt)
  : M compiler unit :=
  modify (fun c => set_stack (app (Compiler.stack c) [entry]) c).

(** [self.stack.pop(-1)] *)
Definition stack_pop : M compiler unit :=
  c <- get ;;
  match Compiler.stack c with
  | [] => raise IndexError
  | _ :: _ => modify (set_stack (removelast (Compiler.stack c)))
  end.

(** [returning_clause(stmt, returning_cols)] *)
Definition returning_clause (_ : stmt) (returning_cols : list Column)
  : M compiler string :=
  columns <- mapM (SA._label_select_column sa)
                  (SA._select_iterables sa returning_cols) ;;
  ret ("RETURNING " ++ Py.join ", " columns).

(** The entries of a one-row result.  SQLAlchemy returns a list of rows
    exactly when the statement has [_has_multi_parameters]; on the other
    shape the indexing of the entries fails. *)
Definition one_row {E : Type} (v : Values E) : M compiler (list E) :=
  match v with
  | Row r => ret r
  | Rows _ => raise TypeError
  end.

Definition all_rows {E : Type} (v : Values E) : M compiler (list (list E)) :=
  match v with
  | Rows rs => ret rs
  | Row _ => raise TypeError
  end.

(** [crud_params[0]] of a multi-row result *)
Definition first_row {E : Type} (v : Values E) : M compiler (list E) :=
  match v with
  | Rows (r :: _) => ret r
  | Rows [] => raise IndexError
  | Row [] => raise IndexError
  | Row (_ :: _) => raise TypeError
  end.

(** The hints of [stmt._hints] for this dialect or for ['*'], by table *)
Definition dialect_hints_of (hints : list ((Table * string) * string))
  : list (Table * string) :=
  dict_of (SA.table_eqb sa)
    (map (fun h => (fst (fst h), snd h))
       (filter
          (fun h => String.eqb (snd (fst h)) "*"
                    || String.eqb (snd (fst h))
                                  (Dialect.name (Settings.dialect self)))
          hints)).

(** [visit_insert(self, insert_stmt, asfrom=False, **kw)] *)
Definition visit_insert (insert_stmt : stmt) : M compiler string :=
  let dialect := Settings.dialect self in
  if tuple_ge (Dialect.server_version_info dialect)
              INSERT_SELECT_WITHOUT_PARENTHESES_MIN_VERSION
  then SA.base_visit_insert sa insert_stmt
  else if Settings.SA_VERSION_ge_SA_1_4 self
  then raise (DeprecationWarning
     "CrateDB version < (1, 0, 1) not supported with SQLAlchemy 1.4")
  else
    _ <- stack_append ([], [], insert_stmt) ;;
    _ <- modify (set_isinsert true) ;;
    crud_params <- SA.crud_get_crud_params sa insert_stmt ;;
    if negb (values_nonempty crud_params)
       && negb (Dialect.supports_default_values dialect)
       && negb (Dialect.supports_empty_insert dialect)
    then raise (NotImplementedError
      ("The '" ++ Dialect.name dialect ++
       "' dialect with current database version settings does " ++
       "not support empty inserts."))
    else
    crud_params_single <-
      (if Stmt._has_multi_parameters insert_stmt
       then if negb (Dialect.supports_multivalues_insert dialect)
            then raise (NotImplementedError
              ("The '" ++ Dialect.name dialect ++
               "' dialect with current database " ++
               "version settings does not support " ++
               "in-place multirow inserts."))
            else first_row crud_params
       else one_row crud_params) ;;
    let supports_default_values := Dialect.supports_default_values dialect in
    let text := "INSERT " in
    text <-
      (if nonempty (Stmt._prefixes insert_stmt)
       then p <- SA._generate_prefixes sa insert_stmt
                   (Stmt._prefixes insert_stmt) ;;
            ret (text ++ p)
       else ret text) ;;
    let text := text ++ "INTO " in
    let table_text := SA.format_table sa (Stmt.table insert_stmt) in
    let table_text :=
      if nonempty (Stmt._hints insert_stmt)
      then
        let dialect_hints := dialect_hints_of (Stmt._hints insert_stmt) in
        match dict_get (SA.table_eqb sa) (Stmt.table insert_stmt)
                       dialect_hints with
        | Some hint_text =>
            SA.format_from_hint_text sa table_text (Stmt.table insert_stmt)
                                     hint_text true
        | None => table_text
        end
      else table_text in
    let text := text ++ table_text in
    let text :=
      if nonempty crud_params_single || negb supports_default_values
      then text ++ " (" ++
           Py.join ", " (map (fun c => SA.format_column sa (fst c))
                             crud_params_single) ++ ")"
      else text in
    c <- get ;;
    '(text, returning_clause_) <-
      (if nonempty (Compiler.returning c)
          || nonempty (Stmt._returning insert_stmt)
       then
         let r := if nonempty (Compiler.returning c)
                  then Compiler.returning c
                  else Stmt._returning insert_stmt in
         _ <- modify (set_returning r) ;;
         rc <- returning_clause insert_stmt r ;;
         ret (if Settings.returning_precedes_values self
              then text ++ " " ++ rc else text, Some rc)
       else ret (text, None)) ;;
    text <-
      (match Stmt.select insert_stmt with
       | Some _ =>
           c <- get ;;
           match Compiler._insert_from_select c with
           | Some sel =>
               body <- SA.process sa sel ;;
               ret (text ++ " (" ++ body ++ ")")
           | None => raise AttributeError
           end
       | None =>
           if negb (values_nonempty crud_params) && supports_default_values
           then ret (text ++ " DEFAULT VALUES")
           else if Stmt._has_multi_parameters insert_stmt
           then
             rows <- all_rows crud_params ;;
             ret (text ++ " VALUES " ++
                  Py.join ", "
                    (map (fun crud_param_set =>
                            "(" ++ Py.join ", " (map snd crud_param_set)
                                ++ ")")
                         rows))
           else
             row <- one_row crud_params ;;
             ret (text ++ " VALUES (" ++ Py.join ", " (map snd row) ++ ")")
       end) ;;
    c <- get ;;
    text <-
      (if nonempty (Compiler.returning c)
          && negb (Settings.returning_precedes_values self)
       then match returning_clause_ with
            | Some rc => ret (text ++ " " ++ rc)
            | None => raise UnboundLocalError
            end
       else ret text) ;;
    _ <- stack_pop ;;
    ret text.

(** [bool(stmt.parameters)] *)
Definition parameters_nonempty (p : Parameters Column) : bool :=
  match p with
  | PNone => false
  | PDict d => nonempty d
  | PList l => nonempty l
  end.

(** [stmt.parameters.items()] *)
Definition parameters_items (p : Parameters Column) : M compiler pdict :=
  match p with
  | PDict d => ret d
  | PNone => raise AttributeError
  | PList _ => raise AttributeError
  end.

(** [key in d] for a string [key] and a dictionary of statement parameters *)
Definition str_in_pdict (key : string) (d : pdict) : bool :=
  existsb (fun kv => match fst kv with
                     | KStr s => String.eqb key s
                     | KCol _ => false
                     end) d.

(** The items [(k, v)] of the parameters with
    [isinstance(k, str) and '[' in k], in the order of the dictionary *)
Definition path_items (d : pdict) : list (string * value) :=
  flat_map (fun kv => match fst kv with
                      | KStr k => if Py.contains_char "["%char k
                                  then [(k, snd kv)] else []
                      | KCol _ => []
                      end) d.

(** [k + ' = ' + self.process(sa.sql.bindparam(k, v))] *)
Definition path_clause (kv : string * value) : M compiler string :=
  b <- SA.process_bindparam sa (fst kv) (snd kv) ;;
  ret (fst kv ++ " = " ++ b).

(** [_get_crud_params(compiler, stmt, **kw)] of [CrateCompiler] *)
Definition _get_crud_params (stmt_ : stmt)
  : M compiler (Values (Column * string)) :=
  _ <- modify reset_fetch ;;
  match Settings.column_keys self, Stmt.parameters stmt_ with
  | None, PNone =>
      vs <- mapM (fun c => b <- SA.crud_create_bind_param sa c ;; ret (c, b))
                 (SA.columns sa (Stmt.table stmt_)) ;;
      ret (Row vs)
  | _, _ =>
      stmt_parameters <-
        (if Stmt._has_multi_parameters stmt_
         then match Stmt.parameters stmt_ with
              | PList (d :: _) => ret (Some d)
              | PList [] => raise IndexError
              | PNone => raise TypeError
              | PDict _ => raise TypeError
              end
         else match Stmt.parameters stmt_ with
              | PNone => ret None
              | PDict d => ret (Some d)
              | PList _ => raise TypeError
              end) ;;
      g <- SA.crud_key_getters_for_crud_column sa
             (if Settings.SA_VERSION_ge_SA_1_1 self
              then Some stmt_ else None) ;;
      let parameters :=
        match Settings.column_keys self with
        | None => []
        | Some keys =>
            dict_of (SA.colkey_eqb sa)
              (map (fun key => (Getters._column_as_key g (KStr key), REQUIRED))
                 (filter
                    (fun key =>
                       match stmt_parameters with
                       | None => true
                       | Some d => negb (nonempty d) || negb (str_in_pdict key d)
                       end)
                    keys))
        end in
      let values := [] in
      '(parameters, values) <-
        (match stmt_parameters with
         | Some d =>
             SA.crud_get_stmt_parameters_params sa parameters d g values
         | None => ret (parameters, values)
         end) ;;
      let check_columns := [] in
      '(_, _, values) <-
        SA.crud_scan_cols sa stmt_ parameters g check_columns values ;;
      if Stmt._has_multi_parameters stmt_
      then rows <- SA.crud_extend_values_for_multiparams sa stmt_ values ;;
           ret (Rows rows)
      else ret (Row values)
  end.

(** [extra_froms and self.render_table_with_column_in_update_from], as
    the truth value [_compiler_dispatch] reads *)
Definition include_table_of (extra_froms : list Table) : bool :=
  nonempty extra_froms
  && Settings.render_table_with_column_in_update_from self.

(** The body of [visit_update] after the test that delegates to
    [SQLCompiler.visit_update] *)
Definition visit_update_custom (update_stmt : stmt) : M compiler string :=
  _ <- modify (set_isupdate true) ;;
  let extra_froms := Stmt._extra_froms update_stmt in
  let text := "UPDATE " in
  text <-
    (if nonempty (Stmt._prefixes update_stmt)
     then p <- SA._generate_prefixes sa update_stmt
                 (Stmt._prefixes update_stmt) ;;
          ret (text ++ p)
     else ret text) ;;
  table_text <- SA.update_tables_clause sa update_stmt
                  (Stmt.table update_stmt) extra_froms ;;
  '(dialect_hints, table_text) <-
    (if nonempty (Stmt._hints update_stmt)
     then '(h, t) <- SA._setup_crud_hints sa update_stmt table_text ;;
          ret (Some h, t)
     else ret (None, table_text)) ;;
  crud_params <- _get_crud_params update_stmt ;;
  let text := text ++ table_text in
  let text := text ++ " SET " in
  let include_table := include_table_of extra_froms in
  crud_rows <- one_row crud_params ;;
  set_clauses <-
    mapM (fun kv : Column * string =>
            k <- SA._compiler_dispatch sa (fst kv) include_table ;;
            ret (k ++ " = " ++ snd kv))
         crud_rows ;;
  items <- parameters_items (Stmt.parameters update_stmt) ;;
  path_clauses <- mapM path_clause (path_items items) ;;
  let set_clauses := app set_clauses path_clauses in
  let text := text ++ Py.join ", " set_clauses in
  c <- get ;;
  text <-
    (if nonempty (Compiler.returning c)
        || nonempty (Stmt._returning update_stmt)
     then
       _ <- (if negb (nonempty (Compiler.returning c))
             then modify (set_returning (Stmt._returning update_stmt))
             else ret tt) ;;
       if Settings.returning_precedes_values self
       then c <- get ;;
            rc <- returning_clause update_stmt (Compiler.returning c) ;;
            ret (text ++ " " ++ rc)
       else ret text
     else ret text) ;;
  text <-
    (if nonempty extra_froms
     then
       extra_from_text <-
         SA.update_from_clause sa update_stmt (Stmt.table update_stmt)
                               extra_froms dialect_hints ;;
       if negb (String.eqb extra_from_text "")
       then ret (text ++ " " ++ extra_from_text)
       else ret text
     else ret text) ;;
  text <-
    (match Stmt._whereclause update_stmt with
     | Some w =>
         t <- SA.process sa w ;;
         if negb (String.eqb t "") then ret (text ++ " WHERE " ++ t)
         else ret text
     | None => ret text
     end) ;;
  limit_clause <- SA.update_limit_clause sa update_stmt ;;
  let text :=
    match limit_clause with
    | Some l => if negb (String.eqb l "") then text ++ " " ++ l else text
    | None => text
    end in
  c <- get ;;
  if nonempty (Compiler.returning c)
     && negb (Settings.returning_precedes_values self)
  then rc <- returning_clause update_stmt (Compiler.returning c) ;;
       ret (text ++ " " ++ rc)
  else ret text.

(** [_get_crud_params_14(compiler, stmt, compile_state, **kw)] *)
Definition _get_crud_params_14 (stmt_ : stmt) (compile_state : cstate)
  : M compiler (Values (Column * string * string)) :=
  _ <- modify reset_fetch ;;
  g <- SA._key_getters_for_crud_column sa stmt_ compile_state ;;
  _ <- modify (set_key_getters g) ;;
  match Settings.column_keys self, CompileState._no_parameters compile_state with
  | None, true =>
      vs <- mapM (fun c => b <- SA._create_bind_param sa c ;;
                           ret (c, SA.format_column sa c, b))
                 (SA.columns sa (Stmt.table stmt_)) ;;
      ret (Row vs)
  | _, _ =>
      '(spd, stmt_parameter_tuples) <-
        (if CompileState._has_multi_parameters compile_state
         then match CompileState._multi_parameters compile_state with
              | d :: _ => ret (Some d, Some d)
              | [] => raise IndexError
              end
         else if nonempty (CompileState._ordered_values compile_state)
         then ret (CompileState._dict_parameters compile_state,
                   Some (CompileState._ordered_values compile_state))
         else match CompileState._dict_parameters compile_state with
              | Some (kv :: d) => ret (Some (kv :: d), Some (kv :: d))
              | _ => ret (None, None)
              end) ;;
      parameters <-
        (match Settings.column_keys self with
         | None => ret []
         | Some keys =>
             if match stmt_parameter_tuples with
                | Some t => nonempty t
                | None => false
                end
             then
               match spd, keys with
               | Some d, _ =>
                   ret (dict_of (SA.colkey_eqb sa)
                          (map (fun key =>
                                  (Getters._column_as_key g (KStr key),
                                   REQUIRED))
                               (filter (fun key => negb (str_in_pdict key d))
                                       keys)))
               | None, [] => ret []
               | None, _ :: _ => raise TypeError
               end
             else
               ret (dict_of (SA.colkey_eqb sa)
                      (map (fun key =>
                              (Getters._column_as_key g (KStr key), REQUIRED))
                           keys))
         end) ;;
      let values := [] in
      '(parameters, values) <-
        (match stmt_parameter_tuples with
         | Some t =>
             SA._get_stmt_parameter_tuples_params sa compile_state
               parameters t g values
         | None => ret (parameters, values)
         end) ;;
      let check_columns := [] in
      '(check_columns, values) <-
        (if CompileState.isupdate compile_state
            && CompileState.is_multitable compile_state
         then SA._get_multitable_params sa stmt_ compile_state
                stmt_parameter_tuples check_columns g values
         else ret (check_columns, values)) ;;
      '(_, _, values) <-
        (if CompileState.isinsert compile_state
            && nonempty (Stmt._select_names stmt_)
         then SA._scan_insert_from_select_cols sa stmt_ compile_state
                parameters g check_columns values
         else SA._scan_cols sa stmt_ compile_state
                parameters g check_columns values) ;;
      if CompileState._has_multi_parameters compile_state
      then rows <- SA._extend_values_for_multiparams sa stmt_ compile_state
                     values ;;
           ret (Rows rows)
      else if negb (nonempty values) && Settings.for_executemany self
      then match SA.columns sa (Stmt.table stmt_) with
           | c0 :: _ => ret (Row [(c0, SA.format_column sa c0, "DEFAULT")])
           | [] => raise IndexError
           end
      else ret (Row values)
  end.

(** [f not in main_froms] *)
Definition table_in (f : Table) (l : list Table) : bool :=
  existsb (SA.table_eqb sa f) l.

(** [set(l)]: the items of [l] without repetition *)
Definition table_set (l : list Table) : list Table :=
  fold_left (fun acc f => if table_in f acc then acc else app acc [f]) l [].

(** [visit_update_14(self, update_stmt, **kw)] *)
Definition visit_update_14 (update_stmt : stmt) : M compiler string :=
  compile_state <- SA._compile_state_factory sa update_stmt ;;
  let update_stmt := CompileState.statement compile_state in
  c <- get ;;
  let toplevel := negb (nonempty (Compiler.stack c)) in
  _ <- (if toplevel
        then _ <- modify (set_isupdate true) ;;
             match Compiler.compile_state c with
             | None => modify (set_compile_state compile_state)
             | Some _ => ret tt
             end
        else ret tt) ;;
  let extra_froms := CompileState._extra_froms compile_state in
  let is_multitable := nonempty extra_froms in
  let main_froms := table_set (SA._from_objects sa (Stmt.table update_stmt)) in
  let render_extra_froms :=
    if is_multitable
    then filter (fun f => negb (table_in f main_froms)) extra_froms
    else [] in
  let correlate_froms :=
    if is_multitable
    then table_set (app main_froms extra_froms)
    else [Stmt.table update_stmt] in
  _ <- stack_append (correlate_froms, correlate_froms, update_stmt) ;;
  let text := "UPDATE " in
  text <-
    (if nonempty (Stmt._prefixes update_stmt)
     then p <- SA._generate_prefixes sa update_stmt
                 (Stmt._prefixes update_stmt) ;;
          ret (text ++ p)
     else ret text) ;;
  table_text <- SA.update_tables_clause sa update_stmt
                  (Stmt.table update_stmt) render_extra_froms ;;
  crud_params <- _get_crud_params_14 update_stmt compile_state ;;
  '(dialect_hints, table_text) <-
    (if nonempty (Stmt._hints update_stmt)
     then '(h, t) <- SA._setup_crud_hints sa update_stmt table_text ;;
          ret (Some h, t)
     else ret (None, table_text)) ;;
  let text := text ++ table_text in
  let text := text ++ " SET " in
  let include_table := include_table_of extra_froms in
  crud_rows <- one_row crud_params ;;
  set_clauses <-
    mapM (fun cev : Column * string * string =>
            key <- SA._compiler_dispatch sa (fst (fst cev)) include_table ;;
            ret (key ++ " = " ++ snd cev))
         crud_rows ;;
  items <-
    (match CompileState._dict_parameters compile_state with
     | Some d => ret d
     | None => raise AttributeError
     end) ;;
  path_clauses <- mapM path_clause (path_items items) ;;
  let set_clauses := app set_clauses path_clauses in
  let text := text ++ Py.join ", " set_clauses in
  c <- get ;;
  let returning_ :=
    if nonempty (Compiler.returning c) then Compiler.returning c
    else Stmt._returning update_stmt in
  text <-
    (if nonempty returning_ && Settings.returning_precedes_values self
     then rc <- returning_clause update_stmt returning_ ;;
          ret (text ++ " " ++ rc)
     else ret text) ;;
  text <-
    (if nonempty extra_froms
     then
       extra_from_text <-
         SA.update_from_clause sa update_stmt (Stmt.table update_stmt)
                               render_extra_froms dialect_hints ;;
       if negb (String.eqb extra_from_text "")
       then ret (text ++ " " ++ extra_from_text)
       else ret text
     else ret text) ;;
  text <-
    (if nonempty (Stmt._where_criteria update_stmt)
     then
       t <- SA._generate_delimited_and_list sa
              (Stmt._where_criteria update_stmt) ;;
       if negb (String.eqb t "") then ret (text ++ " WHERE " ++ t)
       else ret text
     else ret text) ;;
  limit_clause <- SA.update_limit_clause sa update_stmt ;;
  let text :=
    match limit_clause with
    | Some l => if negb (String.eqb l "") then text ++ " " ++ l else text
    | None => text
    end in
  c <- get ;;
  let returning_ :=
    if nonempty (Compiler.returning c) then Compiler.returning c
    else Stmt._returning update_stmt in
  text <-
    (if nonempty returning_ && negb (Settings.returning_precedes_values self)
     then rc <- returning_clause update_stmt returning_ ;;
          ret (text ++ " " ++ rc)
     else ret text) ;;
  c <- get ;;
  text <-
    (if SA.ctes sa c && toplevel
     then cte <- SA._render_cte_clause sa ;; ret (cte ++ text)
     else ret text) ;;
  _ <- stack_pop ;;
  ret text.

(** [visit_update(self, update_stmt, **kw)] *)
Definition visit_update (update_stmt : stmt) : M compiler string :=
  if Settings.SA_VERSION_ge_SA_1_4 self
  then visit_update_14 update_stmt
  else if negb (parameters_nonempty (Stmt.parameters update_stmt))
          && negb (Stmt.has_crate_specific update_stmt)
  then SA.base_visit_update sa update_stmt
  else visit_update_custom update_stmt.

End CrateCompiler.

(* ------------------------------------------------------------------ *)
(** ** A small SQLAlchemy

    An instance of the interface to run the compiler on: a table is its
    name and its column names, a column is its name, a clause is its text,
    every bind renders as [?] and its value is appended to the compiler's
    internals.  It stands for SQLAlchemy in the examples only; the theorems
    below are about every instance. *)
Module Mini.

Definition Table : Type := (string * list string)%type.
Definition Column : Type := string.
Definition Clause : Type := string.
Definition ColKey : Type := string.
Definition Internals : Type := list value.

Definition stmt : Type := Stmt.t Table Column Clause.
Definition cstate : Type := CompileState.t Table Column Clause.
Definition compiler : Type := Compiler.t Table Column Clause ColKey Internals.
Definition getters : Type := Getters.t Column ColKey.

Definition key_name (k : PKey Column) : string :=
  match k with KStr s => s | KCol c => c end.

Definition the_getters : getters :=
  {| Getters._column_as_key := key_name;
     Getters._getattr_col_key := fun c => c;
     Getters._col_bind_name := fun c => c |}.

(** [stmt.values(d)]: the parameters of the statement updated with [d] *)
Definition values (s : stmt) (d : dict value) : result stmt :=
  let merged (old : list (PKey Column * value)) :=
    fold_left
      (fun acc (kv : string * value) =>
         if existsb (fun e => String.eqb (key_name (fst e)) (fst kv)) acc
         then map (fun e => if String.eqb (key_name (fst e)) (fst kv)
                            then (fst e, snd kv) else e) acc
         else app acc [(KStr (fst kv), snd kv)])
      d old in
  match Stmt.parameters s with
  | PList _ => Raise (Foreign "ArgumentError")
  | p =>
      Return
        {| Stmt.table := Stmt.table s;
           Stmt.parameters :=
             PDict (merged match p with PDict old => old | _ => [] end);
           Stmt._has_multi_parameters := Stmt._has_multi_parameters s;
           Stmt._prefixes := Stmt._prefixes s;
           Stmt._hints := Stmt._hints s;
           Stmt._returning := Stmt._returning s;
           Stmt.select := Stmt.select s;
           Stmt._select_names := Stmt._select_names s;
           Stmt._extra_froms := Stmt._extra_froms s;
           Stmt._whereclause := Stmt._whereclause s;
           Stmt._where_criteria := Stmt._where_criteria s;
           Stmt._crate_specific := Stmt._crate_specific s |}
  end.

(** A bind: its value is registered, its text is [?] *)
Definition add_bind (v : value) : M compiler string :=
  fun c =>
    Return ("?",
      {| Compiler.returning := Compiler.returning c;
         Compiler.postfetch := Compiler.postfetch c;
         Compiler.insert_prefetch := Compiler.insert_prefetch c;
         Compiler.update_prefetch := Compiler.update_prefetch c;
         Compiler.isinsert := Compiler.isinsert c;
         Compiler.isupdate := Compiler.isupdate c;
         Compiler.stack := Compiler.stack c;
         Compiler._insert_from_select := Compiler._insert_from_select c;
         Compiler.compile_state := Compiler.compile_state c;
         Compiler._key_getters_for_crud_column :=
           Compiler._key_getters_for_crud_column c;
         Compiler.internals := app (Compiler.internals c) [v] |}).

Definition set_insert_from_select (sel : option Clause) : M compiler unit :=
  modify (fun c =>
      {| Compiler.returning := Compiler.returning c;
         Compiler.postfetch := Compiler.postfetch c;
         Compiler.insert_prefetch := Compiler.insert_prefetch c;
         Compiler.update_prefetch := Compiler.update_prefetch c;
         Compiler.isinsert := Compiler.isinsert c;
         Compiler.isupdate := Compiler.isupdate c;
         Compiler.stack := Compiler.stack c;
         Compiler._insert_from_select := sel;
         Compiler.compile_state := Compiler.compile_state c;
         Compiler._key_getters_for_crud_column :=
           Compiler._key_getters_for_crud_column c;
         Compiler.internals := Compiler.internals c |}).

(** The columns of the table that have a parameter, each with its bind *)
Definition bind_row (cols : list Column) (d : list (PKey Column * value))
  : M compiler (list (Column * string)) :=
  mapM (fun c =>
          match dict_get String.eqb c
                  (map (fun e => (key_name (fst e), snd e)) d) with
          | Some v => bind (add_bind v) (fun b => ret (c, b))
          | None => bind (add_bind VNull) (fun b => ret (c, b))
          end)
       (filter (fun c => existsb (fun e => String.eqb (key_name (fst e)) c) d)
               cols).

(** [crud._get_crud_params] for an INSERT *)
Definition crud_get_crud_params (s : stmt)
  : M compiler (Values (Column * string)) :=
  let cols := snd (Stmt.table s) in
  match Stmt.select s with
  | Some sel =>
      bind (set_insert_from_select (Some sel))
           (fun _ => ret (Row (map (fun n => (n, "")) (Stmt._select_names s))))
  | None =>
      match Stmt.parameters s with
      | PNone => ret (Row [])
      | PDict d => bind (bind_row cols d) (fun r => ret (Row r))
      | PList rows =>
          match rows with
          | [] => ret (Rows [])
          | d0 :: _ =>
              bind (mapM (fun d =>
                            mapM (fun c =>
                                    match dict_get String.eqb c
                                            (map (fun e => (key_name (fst e),
                                                            snd e)) d) with
                                    | Some v =>
                                        bind (add_bind v)
                                             (fun b => ret (c, b))
                                    | None =>
                                        bind (add_bind VNull)
                                             (fun b => ret (c, b))
                                    end)
                                 (filter
                                    (fun c =>
                                       existsb
                                         (fun e =>
                                            String.eqb (key_name (fst e)) c)
                                         d0)
                                    cols))
                         rows)
                   (fun rs => ret (Rows rs))
          end
      end
  end.

(** [parameters.setdefault(_column_as_key(k), v)] for every item *)
Definition setdefault_all (parameters : list (ColKey * Slot))
  (d : list (PKey Column * value)) : list (ColKey * Slot) :=
  fold_left
    (fun acc e =>
       if dict_mem String.eqb (key_name (fst e)) acc then acc
       else app acc [(key_name (fst e), Bound (snd e))])
    d parameters.

(** [_scan_cols]: every column of the table that has a parameter is
    consumed ([parameters.pop]) and gets its bind; the others are left in
    [parameters]. *)
Definition scan_pairs (s : stmt) (parameters : list (ColKey * Slot))
  (values : list (Column * string))
  : M compiler (list (ColKey * Slot) * list (ColKey * Column)
                * list (Column * string)) :=
  let cols := filter (fun c => dict_mem String.eqb c parameters)
                     (snd (Stmt.table s)) in
  bind (mapM (fun c =>
                match dict_get String.eqb c parameters with
                | Some (Bound v) => bind (add_bind v) (fun b => ret (c, b))
                | _ => bind (add_bind VNull) (fun b => ret (c, b))
                end) cols)
       (fun vs =>
          ret (filter (fun e => negb (existsb (String.eqb (fst e)) cols))
                      parameters,
               [], app values vs)).

Definition scan_triples (s : stmt) (parameters : list (ColKey * Slot))
  (values : list (Column * string * string))
  : M compiler (list (ColKey * Slot) * list (ColKey * Column)
                * list (Column * string * string)) :=
  bind (scan_pairs s parameters [])
       (fun r =>
          ret (fst (fst r), snd (fst r),
               app values (map (fun cv => (fst cv, fst cv, snd cv)) (snd r)))).

Definition compile_state_factory (s : stmt) : M compiler cstate :=
  ret {| CompileState.statement := s;
         CompileState._extra_froms := Stmt._extra_froms s;
         CompileState._no_parameters :=
           match Stmt.parameters s with PNone => true | _ => false end;
         CompileState._has_multi_parameters := Stmt._has_multi_parameters s;
         CompileState._multi_parameters :=
           match Stmt.parameters s with PList l => l | _ => [] end;
         CompileState._ordered_values := [];
         CompileState._dict_parameters :=
           match Stmt.parameters s with PDict d => Some d | _ => None end;
         CompileState.isinsert := false;
         CompileState.isupdate := true;
         CompileState.is_multitable := nonempty (Stmt._extra_froms s) |}.

Definition sa : SA.t Table Column Clause ColKey Internals :=
  {| SA.values := values;
     SA.columns := fun t => snd t;
     SA.table_eqb := fun a b => String.eqb (fst a) (fst b);
     SA.colkey_eqb := String.eqb;
     SA._from_objects := fun t => [t];
     SA._select_iterables := fun l => l;
     SA._compile_state_factory := compile_state_factory;
     SA.format_table := fun t => fst t;
     SA.format_column := fun c => c;
     SA.base_visit_insert := fun s =>
       match Stmt.select s with
       | Some sel =>
           ret ("INSERT INTO " ++ fst (Stmt.table s) ++ " (" ++
                Py.join ", " (Stmt._select_names s) ++ ") " ++ sel)
       | None => raise (Foreign "not an INSERT from SELECT")
       end;
     SA.base_visit_update := fun s =>
       ret ("UPDATE " ++ fst (Stmt.table s) ++ " SET ");
     SA.process := fun c => ret c;
     SA.process_bindparam := fun _ v => add_bind v;
     SA._compiler_dispatch := fun c include_table => ret c;
     SA._generate_prefixes := fun _ ps => ret (Py.join " " ps ++ " ");
     SA.format_from_hint_text := fun text _ _ _ => text;
     SA._label_select_column := fun c => ret c;
     SA.update_tables_clause := fun _ t _ => ret (fst t);
     SA._setup_crud_hints := fun _ text => ret ([], text);
     SA.update_from_clause := fun _ _ froms _ =>
       ret ("FROM " ++ Py.join ", " (map fst froms));
     SA.update_limit_clause := fun _ => ret None;
     SA._generate_delimited_and_list := fun cs => ret (Py.join " AND " cs);
     SA.ctes := fun _ => false;
     SA._render_cte_clause := ret "";
     SA.crud_get_crud_params := crud_get_crud_params;
     SA.crud_create_bind_param := fun _ => add_bind VNull;
     SA.crud_key_getters_for_crud_column := fun _ => ret the_getters;
     SA.crud_get_stmt_parameters_params := fun parameters d _ values =>
       ret (setdefault_all parameters d, values);
     SA.crud_scan_cols := fun s parameters _ _ values =>
       scan_pairs s parameters values;
     SA.crud_extend_values_for_multiparams := fun _ values => ret [values];
     SA._create_bind_param := fun _ => add_bind VNull;
     SA._key_getters_for_crud_column := fun _ _ => ret the_getters;
     SA._get_stmt_parameter_tuples_params := fun _ parameters d _ values =>
       ret (setdefault_all parameters d, values);
     SA._get_multitable_params := fun _ _ _ checks _ values =>
       ret (checks, values);
     SA._scan_insert_from_select_cols := fun s _ parameters _ _ values =>
       scan_triples s parameters values;
     SA._scan_cols := fun s _ parameters _ _ values =>
       scan_triples s parameters values;
     SA._extend_values_for_multiparams := fun _ _ values => ret [values] |}.

(** A fresh compiler *)
Definition compiler0 : compiler :=
  {| Compiler.returning := [];
     Compiler.postfetch := [];
     Compiler.insert_prefetch := [];
     Compiler.update_prefetch := [];
     Compiler.isinsert := false;
     Compiler.isupdate := false;
     Compiler.stack := [];
     Compiler._insert_from_select := None;
     Compiler.compile_state := None;
     Compiler._key_getters_for_crud_column := None;
     Compiler.internals := [] |}.

(** The Crate dialect talking to a server of the given version *)
Definition crate (version : list Z) : Dialect.t :=
  {| Dialect.name := "crate";
     Dialect.server_version_info := version;
     Dialect.supports_default_values := false;
     Dialect.supports_empty_insert := false;
     Dialect.supports_multivalues_insert := true |}.

Definition settings (version : list Z) (sa_1_4 : bool) : Settings.t :=
  {| Settings.dialect := crate version;
     Settings.SA_VERSION_ge_SA_1_1 := true;
     Settings.SA_VERSION_ge_SA_1_4 := sa_1_4;
     Settings.column_keys := None;
     Settings.returning_precedes_values := false;
     Settings.render_table_with_column_in_update_from := false;
     Settings.for_executemany := false |}.

(** A statement on [table] with [parameters] and nothing else *)
Definition statement (table : Table) (parameters : Parameters Column) : stmt :=
  {| Stmt.table := table;
     Stmt.parameters := parameters;
     Stmt._has_multi_parameters :=
       match parameters with PList _ => true | _ => false end;
     Stmt._prefixes := [];
     Stmt._hints := [];
     Stmt._returning := [];
     Stmt.select := None;
     Stmt._select_names := [];
     Stmt._extra_froms := [];
     Stmt._whereclause := None;
     Stmt._where_criteria := [];
     Stmt._crate_specific := None |}.

(** [insert(table).from_select(names, select)] *)
Definition insert_from_select (table : Table) (names : list string)
  (sel : Clause) : stmt :=
  {| Stmt.table := table;
     Stmt.parameters := PNone;
     Stmt._has_multi_parameters := false;
     Stmt._prefixes := [];
     Stmt._hints := [];
     Stmt._returning := [];
     Stmt.select := Some sel;
     Stmt._select_names := names;
     Stmt._extra_froms := [];
     Stmt._whereclause := None;
     Stmt._where_criteria := [];
     Stmt._crate_specific := None |}.

End Mini.

(* ------------------------------------------------------------------ *)
(** ** The assignments of the rewrite, as lists

    Used to state and prove what [rewrite_params] leaves in [newparams]. *)

(** The assignments [rewrite_document] makes, in order: one for every item
    of the document whose key is in the changed keys, then one for every
    deleted key. *)
Definition document_writes (key : string) (items : list (string * value))
  (_changed_keys _deleted_keys : list string) : list (string * value) :=
  app (map (fun e => (path key (fst e), snd e))
           (filter (fun e => set_mem (fst e) _changed_keys) items))
      (map (fun d => (path key d, VNull)) _deleted_keys).

(** The assignments one turn of the loop over [_params.items()] makes *)
Definition item_writes (kv : string * value) : list (string * value) :=
  match snd kv with
  | VMutableDict items c d =>
      if is_dirty (snd kv) then document_writes (fst kv) items c d else [kv]
  | _ => [kv]
  end.

(** A value that is not a [MutableDict], or a [MutableDict] whose changed
    and deleted key sets are both empty *)
Definition unmodified (val : value) : bool :=
  match val with
  | VMutableDict _ c d => negb (nonempty c) && negb (nonempty d)
  | _ => true
  end.

(* ------------------------------------------------------------------ *)
(** ** The clauses of post_create_table, read off the options

    The three parts of the text as the specification words them, each a
    function of the options [opts]: to be compared with what the loop of
    [post_create_table] accumulates. *)
Module DDLSpec.

(** The order [sorted] sorts by *)
Definition string_le (a b : string) : Prop := String.leb a b = true.

(** The partition clause, when the option is there *)
Definition special_clause (o : dict scalar) : string :=
  match str_get "PARTITIONED_BY" o with
  | Some v => " PARTITIONED BY (" ++ py_str v ++ ")"
  | None => ""
  end.

(** One clause for the clustered group, each of its two parts optional *)
Definition clustered_clause (o : dict scalar) : string :=
  match str_get "CLUSTERED_BY" o, str_get "NUMBER_OF_SHARDS" o with
  | None, None => ""
  | by_, shards =>
      " CLUSTERED"
      ++ match by_ with Some v => " BY (" ++ py_str v ++ ")" | None => "" end
      ++ match shards with
         | Some n => " INTO " ++ py_str n ++ " SHARDS"
         | None => ""
         end
  end.

Definition is_generic (k : string) : bool :=
  negb (String.eqb k "PARTITIONED_BY")
  && negb (String.eqb k "NUMBER_OF_SHARDS")
  && negb (String.eqb k "CLUSTERED_BY").

(** [key = value] for every other option, in the order of the options *)
Definition generic_entries (o : dict scalar) : list string :=
  map (fun kv => fst kv ++ " = " ++ py_str (snd kv))
      (filter (fun kv => is_generic (fst kv)) o).

(** The [WITH] block over the sorted entries, when there is one *)
Definition with_block (o : dict scalar) : string :=
  match generic_entries o with
  | [] => ""
  | _ :: _ => " WITH (" ++ Py.join ", " (Py.sorted (generic_entries o)) ++ ")"
  end.

(** The assignment to [clustered_options] one option makes, if any *)
Definition clustered_write (kv : string * scalar) : list (string * string) :=
  if String.eqb (fst kv) "PARTITIONED_BY" then []
  else match CrateDDLCompiler.clustered_opts_tmpl (fst kv) with
       | Some tmpl => [(fst kv, tmpl (py_str (snd kv)))]
       | None => []
       end.

End DDLSpec.

(** [text] is [base] with something appended *)
Definition extends (base text : string) : Prop :=
  exists tail, text = base ++ tail.

(* ------------------------------------------------------------------ *)
(** ** The two kinds of assignment of a SET clause *)

Section SetClauses.
Variables Table Column Clause ColKey Internals : Type.
Variable sa : SA.t Table Column Clause ColKey Internals.

(** [clause] is the assignment of the crud parameter entry [e]: the
    column as [_compiler_dispatch] renders it with [include_table], [=],
    and the bind text of the entry. *)
Definition column_clause (include_table : bool) (e : Column * string)
  (clause : string) : Prop :=
  exists k c1 c2,
    SA._compiler_dispatch sa (fst e) include_table c1 = Return (k, c2)
    /\ clause = k ++ " = " ++ snd e.

(** [clause] is the path assignment of the parameter [kv]: the key as it
    is, [=], and the bind expression of a bind parameter for it. *)
Definition path_assignment (kv : string * value) (clause : string) : Prop :=
  exists b c1 c2,
    SA.process_bindparam sa (fst kv) (snd kv) c1 = Return (b, c2)
    /\ clause = fst kv ++ " = " ++ b.

End SetClauses.

(* ------------------------------------------------------------------ *)
(** ** Exceptions out of sqlalchemy.sql.crud *)

Section CrudRaises.
Variables Table Column Clause ColKey Internals : Type.
Variable sa : SA.t Table Column Clause ColKey Internals.

(** Some call of a function of [sqlalchemy.sql.crud] raises [e]. *)
Inductive crud_raises (e : exn) : Prop :=
| raises_crud_create_bind_param col c :
    SA.crud_create_bind_param sa col c = Raise e -> crud_raises e
| raises_crud_key_getters s c :
    SA.crud_key_getters_for_crud_column sa s c = Raise e -> crud_raises e
| raises_crud_get_stmt_parameters_params p d g v c :
    SA.crud_get_stmt_parameters_params sa p d g v c = Raise e ->
    crud_raises e
| raises_crud_scan_cols s p g k v c :
    SA.crud_scan_cols sa s p g k v c = Raise e -> crud_raises e
| raises_crud_extend_values_for_multiparams s v c :
    SA.crud_extend_values_for_multiparams sa s v c = Raise e -> crud_raises e
| raises_create_bind_param col c :
    SA._create_bind_param sa col c = Raise e -> crud_raises e
| raises_key_getters s cs c :
    SA._key_getters_for_crud_column sa s cs c = Raise e -> crud_raises e
| raises_get_stmt_parameter_tuples_params cs p d g v c :
    SA._get_stmt_parameter_tuples_params sa cs p d g v c = Raise e ->
    crud_raises e
| raises_get_multitable_params s cs t k g v c :
    SA._get_multitable_params sa s cs t k g v c = Raise e -> crud_raises e
| raises_scan_insert_from_select_cols s cs p g k v c :
    SA._scan_insert_from_select_cols sa s cs p g k v c = Raise e ->
    crud_raises e
| raises_scan_cols s cs p g k v c :
    SA._scan_cols sa s cs p g k v c = Raise e -> crud_raises e
| raises_extend_values_for_multiparams s cs v c :
    SA._extend_values_for_multiparams sa s cs v c = Raise e -> crud_raises e.

(** The column names [sqlalchemy.sql.crud._get_crud_params] reports as
    unconsumed: the set [check] of the block that [_get_crud_params_14]
    keeps as a string literal under [# CrateDB amendment.],
    [set(parameters).intersection(_column_as_key(k) for k, v in
    stmt_parameter_tuples).difference(check_columns)], for what the scan of
    the columns has left in [parameters]. *)
Definition unconsumed (g : Getters.t Column ColKey)
  (parameters : list (ColKey * Slot))
  (stmt_parameter_tuples : list (PKey Column * value))
  (check_columns : list (ColKey * Column)) : list ColKey :=
  filter (fun k =>
            existsb (fun kv =>
                       SA.colkey_eqb sa k (Getters._column_as_key g (fst kv)))
                    stmt_parameter_tuples
            && negb (existsb (fun ck => SA.colkey_eqb sa k (fst ck))
                             check_columns))
         (map fst parameters).

End CrudRaises.

(* ------------------------------------------------------------------ *)
(** ** Sample statements and parameters *)

Module Ex.

Definition int (n : Z) : value := VScalar (SInt n).

(** The table [t(x, y, doc)] *)
Definition t : Mini.Table := ("t", ["x"; "y"; "doc"]).

(** The table [t(x)] *)
Definition t_x : Mini.Table := ("t", ["x"]).

(** A document with items [a] and [c], [a] changed and [b] deleted *)
Definition doc_ab : value :=
  VMutableDict [("a", int 1); ("c", int 3)] ["a"] ["b"].

(** A document whose changed key [a] is not one of its items *)
Definition doc_gone : value := VMutableDict [("x", int 1)] ["a"] ["b"].

(** A document that was not modified *)
Definition doc_clean : value := VMutableDict [("a", int 1)] [] [].

(** A document whose only item has the empty string as its key, and that
    key is in both the changed and the deleted keys *)
Definition doc_empty_key : value := VMutableDict [("", int 1)] [""] [""].

Definition params_ab : dict value := [("doc", doc_ab); ("x", int 5)].
Definition params_gone : dict value := [("doc", doc_gone)].
Definition params_clean : dict value := [("x", int 5); ("doc", doc_clean)].
Definition params_empty_key : dict value := [("doc", doc_empty_key)].

(** [update(t)] *)
Definition update0 : Mini.stmt := Mini.statement t PNone.

(** [update(t)] with the two path parameters of [doc_ab] and the marker *)
Definition update_ab : Mini.stmt :=
  Stmt.set_crate_specific
    (Mini.statement t
       (PDict [(KStr "doc['a']", int 1); (KStr "doc['b']", VNull)])).

(** [update(t).values(x=1, nosuch=2)]: [nosuch] is no column of [t] *)
Definition update_nosuch : Mini.stmt :=
  Mini.statement t (PDict [(KStr "x", int 1); (KStr "nosuch", int 2)]).

(** [insert(t).values([{x: 1, y: 2}, {x: 3, y: 4}])] *)
Definition insert_rows : Mini.stmt :=
  Mini.statement t
    (PList [[(KStr "x", int 1); (KStr "y", int 2)];
            [(KStr "x", int 3); (KStr "y", int 4)]]).

(** [insert(t).from_select(['x'], select)] *)
Definition insert_select : Mini.stmt :=
  Mini.insert_from_select t_x ["x"] "SELECT x FROM s".

(** A server below the threshold, one at it; SQLAlchemy before 1.4, and
    from 1.4 on *)
Definition old_server_sa13 : Settings.t := Mini.settings [0; 57; 0]%Z false.
Definition old_server_sa14 : Settings.t := Mini.settings [0; 57; 0]%Z true.
Definition new_server_sa13 : Settings.t := Mini.settings [1; 0; 1]%Z false.
Definition new_server_sa14 : Settings.t := Mini.settings [4; 3; 0]%Z true.

End Ex.
(* ------------------------------------------------------------------ *)
(** ** crate_before_execute *)

(** A result, as code that leaves the state alone *)
Definition lift {S A : Type} (r : result A) : M S A :=
  fun s => match r with Return a => Return (a, s) | Raise e => Raise e end.

(** [params] as the hook hands it back: the dictionary it was given or,
    from SQLAlchemy 1.4 on, the first item of the rewritten [multiparams],
    which is a list of dictionaries. *)
Inductive EventParams : Type :=
| ParamsDict (d : dict value)
| ParamsList (l : list (dict value)).

Section BeforeExecute.
Variables Table Column Clause ColKey Internals : Type.
Variable sa : SA.t Table Column Clause ColKey Internals.
Variable Other : Type.
Variable SA_VERSION_ge_SA_1_4 : bool.

(** What is executed: an [Update] statement
    ([isinstance(clauseelement, sa.sql.expression.Update)]), or one of the
    [Other] elements. *)
Inductive ClauseElement : Type :=
| Update (u : Stmt.t Table Column Clause)
| NotUpdate (o : Other).

(** [crate_before_execute(conn, clauseelement, multiparams, params)], for
    [type(conn.dialect).__name__]; [multiparams] has the shape
    [rewrite_update] reads, a tuple of lists of dictionaries.  The hook on
    positional parameters that are single dictionaries as well is
    [Positional.crate_before_execute] below. *)
Definition crate_before_execute (dialect_type_name : string)
  (clauseelement : ClauseElement) (multiparams : list (list (dict value)))
  (params : dict value)
  : result (ClauseElement * list (list (dict value)) * EventParams) :=
  let is_crate := String.eqb dialect_type_name "CrateDialect" in
  match is_crate, clauseelement with
  | true, Update u =>
      let multiparams1 :=
        if SA_VERSION_ge_SA_1_4 then [[params]] else multiparams in
      let params1 : dict value :=
        if SA_VERSION_ge_SA_1_4 then [] else params in
      match rewrite_update sa u multiparams1 params1 with
      | Raise e => Raise e
      | Return (clause, multiparams2, params2) =>
          if SA_VERSION_ge_SA_1_4
          then match multiparams2 with
               | [] => Raise IndexError
               | first :: _ => Return (Update clause, [], ParamsList first)
               end
          else Return (Update clause, multiparams2, ParamsDict params2)
      end
  | _, _ => Return (clauseelement, multiparams, ParamsDict params)
  end.

End BeforeExecute.

Arguments Update {Table Column Clause Other} u.
Arguments NotUpdate {Table Column Clause Other} o.

(** ** The positional parameters before SQLAlchemy 1.4

    Before SQLAlchemy 1.4 the hook gets [multiparams] as
    [Connection.execute] was called: the tuple of its positional
    arguments.  An item of it is a list of mappings, as in
    [execute(stmt, [{...}, {...}])], or one mapping, as in
    [execute(stmt, {...})].  [rewrite_update] takes [len] of the first
    item and runs [for _params in _multiparams] over it: over a mapping
    this loop runs over the keys, which are strings, and
    [_params.items()] raises [AttributeError] at the first of them. *)
Module Positional.

Inductive item : Type :=
| Mappings (l : list (dict value))
| Mapping (d : dict value).

(** [params] as the hook hands it back from SQLAlchemy 1.4 on: the first
    item of the rewritten [multiparams] *)
Definition as_params (first : item) : EventParams :=
  match first with
  | Mappings l => ParamsList l
  | Mapping d => ParamsDict d
  end.

Section Hook.
Variables Table Column Clause ColKey Internals : Type.
Variable sa : SA.t Table Column Clause ColKey Internals.
Variable Other : Type.
Variable SA_VERSION_ge_SA_1_4 : bool.

(** [rewrite_update(clauseelement, multiparams, params)], for a first
    item of [multiparams] of either shape *)
Definition rewrite_update (clauseelement : Stmt.t Table Column Clause)
  (multiparams : list item) (params : dict value)
  : result (Stmt.t Table Column Clause * list item * dict value) :=
  match multiparams with
  | [] => Raise IndexError
  | Mappings _multiparams :: _ =>
      if Nat.eqb (List.length _multiparams) 0
      then Return (clauseelement, multiparams, params)
      else
        let newmultiparams := map rewrite_params _multiparams in
        match newmultiparams with
        | [] => Raise IndexError
        | newparams0 :: _ =>
            match SA.values sa clauseelement newparams0 with
            | Raise e => Raise e
            | Return clause =>
                Return (Stmt.set_crate_specific clause,
                        [Mappings newmultiparams], params)
            end
        end
  | Mapping _multiparams :: _ =>
      if Nat.eqb (List.length _multiparams) 0
      then Return (clauseelement, multiparams, params)
      else Raise AttributeError
  end.

(** [crate_before_execute(conn, clauseelement, multiparams, params)], for
    [type(conn.dialect).__name__] and positional parameters of either
    shape *)
Definition crate_before_execute (dialect_type_name : string)
  (clauseelement : ClauseElement Table Column Clause Other)
  (multiparams : list item) (params : dict value)
  : result (ClauseElement Table Column Clause Other * list item
            * EventParams) :=
  let is_crate := String.eqb dialect_type_name "CrateDialect" in
  match is_crate, clauseelement with
  | true, Update u =>
      let multiparams1 :=
        if SA_VERSION_ge_SA_1_4 then [Mappings [params]] else multiparams in
      let params1 : dict value :=
        if SA_VERSION_ge_SA_1_4 then [] else params in
      match rewrite_update u multiparams1 params1 with
      | Raise e => Raise e
      | Return (clause, multiparams2, params2) =>
          if SA_VERSION_ge_SA_1_4
          then match multiparams2 with
               | [] => Raise IndexError
               | first :: _ => Return (Update clause, [], as_params first)
               end
          else Return (Update clause, multiparams2, ParamsDict params2)
      end
  | _, _ => Return (clauseelement, multiparams, ParamsDict params)
  end.

End Hook.
End Positional.

(* ------------------------------------------------------------------ *)
(** ** CrateDDLCompiler.get_column_specification *)

Section ColumnSpecification.
Variable Column : Type.
(** [self.preparer.format_column], [column.type] and
    [self.dialect.type_compiler.process] *)
Variable format_column : Column -> string.
Variable column_type : Column -> CrateTypeCompiler.TypeEngine.
Variable type_compiler_process : CrateTypeCompiler.TypeEngine -> result string.

(** [get_column_specification(self, column, **kwargs)] *)
Definition get_column_specification (column : Column) : result string :=
  let name := format_column column in
  match type_compiler_process (column_type column) with
  | Return type_text => Return (name ++ " " ++ type_text)
  | Raise e => Raise e
  end.

End ColumnSpecification.

(* ------------------------------------------------------------------ *)
(** ** CrateCompiler.visit_getitem_binary and visit_any *)

Section Expressions.
Variables Table Column Clause ColKey Internals : Type.
Variable sa : SA.t Table Column Clause ColKey Internals.
Variable Operator : Type.
(** [compiler.OPERATORS[operator]], with what the lookup raises for an
    operator that is not in the table *)
Variable OPERATORS : Operator -> result string.

Local Abbreviation compiler := (Compiler.t Table Column Clause ColKey Internals).

Local Open Scope py_scope.

(** An expression, by the method [self.process] dispatches it to:
    [GetItem] is a binary expression with the operator [getitem], whose
    right side is a bind parameter with the value [right_value]
    ([visit_getitem_binary]); [GetItemOther] is a binary expression with
    the operator [getitem] whose right side [right_] is no bind parameter
    (a column, a slice) and has no attribute [value]
    ([visit_getitem_binary] as well); [AnyOf] is an element with the
    visit name [any] ([visit_any]); [Leaf] is every other element,
    compiled by SQLAlchemy. *)
Inductive Element : Type :=
| Leaf (e : Clause)
| GetItem (left_ : Element) (right_value : scalar)
| GetItemOther (left_ : Element) (right_ : Clause)
| AnyOf (left_ : Element) (operator : Operator) (right_ : Element).

(** [self.process(element, **kw)]; the cases of [GetItem] and
    [GetItemOther] are the body of [visit_getitem_binary], the case of
    [AnyOf] is the body of [visit_any].  The arguments of [format] are
    evaluated from left to right: [binary.left] is compiled, then
    [binary.right.value] is read, which raises [AttributeError] when the
    right side has no such attribute; the right side is not compiled. *)
Fixpoint process_element (element : Element) : M compiler string :=
  match element with
  | Leaf e => SA.process sa e
  | GetItem left_ right_value =>
      l <- process_element left_ ;;
      ret (path l (py_str right_value))
  | GetItemOther left_ _ =>
      _ <- process_element left_ ;;
      raise AttributeError
  | AnyOf left_ operator right_ =>
      l <- process_element left_ ;;
      o <- lift (OPERATORS operator) ;;
      r <- process_element right_ ;;
      ret (l ++ o ++ "ANY (" ++ r ++ ")")
  end.

(** [visit_getitem_binary(self, binary, operator, **kw)], for
    [binary.left] and [binary.right.value], the value of the bind
    parameter on the right; for a right side without that attribute see
    [GetItemOther]. *)
Definition visit_getitem_binary (left_ : Element) (right_value : scalar)
  : M compiler string :=
  process_element (GetItem left_ right_value).

(** [visit_any(self, element, **kw)], for [element.left],
    [element.operator] and [element.right] *)
Definition visit_any (left_ : Element) (operator : Operator)
  (right_ : Element) : M compiler string :=
  process_element (AnyOf left_ operator right_).

(** [e[k1][k2]...] *)
Definition subscripts (e : Element) (keys : list scalar) : Element :=
  fold_left GetItem keys e.

(** The text of a chain of subscripts *)
Definition subscript_text (keys : list scalar) : string :=
  String.concat "" (map (fun k => "['" ++ py_str k ++ "']") keys).

(** The leaves of an expression that compiling it reaches, from left to
    right: the right side of a subscript is not one of them. *)
Fixpoint leaves (element : Element) : list Clause :=
  match element with
  | Leaf e => [e]
  | GetItem left_ _ => leaves left_
  | GetItemOther left_ _ => leaves left_
  | AnyOf left_ _ right_ => app (leaves left_) (leaves right_)
  end.

(** The operators of an expression, from left to right *)
Fixpoint operators (element : Element) : list Operator :=
  match element with
  | Leaf _ => []
  | GetItem left_ _ => operators left_
  | GetItemOther left_ _ => operators left_
  | AnyOf left_ operator right_ =>
      app (operators left_) (operator :: operators right_)
  end.

(** The right sides of the subscripts of an expression that are no bind
    parameters, from left to right *)
Fixpoint other_subscripts (element : Element) : list Clause :=
  match element with
  | Leaf _ => []
  | GetItem left_ _ => other_subscripts left_
  | GetItemOther left_ right_ => app (other_subscripts left_) [right_]
  | AnyOf left_ _ right_ =>
      app (other_subscripts left_) (other_subscripts right_)
  end.

End Expressions.

Arguments Leaf {Clause Operator} e.

(* ------------------------------------------------------------------ *)
(** ** Types, by their arrays *)

Module ArrayTypes.

(** Some array of the type, at any depth, has more than one dimension. *)
Fixpoint multidimensional (type_ : CrateTypeCompiler.TypeEngine) : bool :=
  match type_ with
  | CrateTypeCompiler.ARRAY item_type dimensions =>
      match dimensions with Some d => (1 <? d)%Z | None => false end
      || multidimensional item_type
  | _ => false
  end.

(** The type of the items of the innermost array *)
Fixpoint element_type (type_ : CrateTypeCompiler.TypeEngine)
  : CrateTypeCompiler.TypeEngine :=
  match type_ with
  | CrateTypeCompiler.ARRAY item_type _ => element_type item_type
  | _ => type_
  end.

(** How many arrays are nested *)
Fixpoint depth (type_ : CrateTypeCompiler.TypeEngine) : nat :=
  match type_ with
  | CrateTypeCompiler.ARRAY item_type _ => S (depth item_type)
  | _ => O
  end.

(** [base] inside [n] arrays *)
Fixpoint arrays (n : nat) (base : string) : string :=
  match n with
  | O => base
  | S n' => "ARRAY(" ++ arrays n' base ++ ")"
  end.

(** The type bottoms out in one of the ten types [CrateTypeCompiler] has
    a method of its own for. *)
Definition overridden (type_ : CrateTypeCompiler.TypeEngine) : bool :=
  match element_type type_ with
  | CrateTypeCompiler.Generic _ => false
  | _ => true
  end.

(** The names the methods of [CrateTypeCompiler] return *)
Definition names : list string :=
  ["STRING"; "DOUBLE"; "LONG"; "INT"; "SHORT"; "TIMESTAMP"].

End ArrayTypes.

(* ------------------------------------------------------------------ *)
(** ** Table options, by keyword *)

(** The keyword is an option of the dialect: [k.startswith('%s_' % name)] *)
Definition is_option (dialect_name k : string) : bool :=
  Py.startswith k (dialect_name ++ "_").

(** The option a keyword names: [k[len(name) + 1:].upper()] *)
Definition option_name (dialect_name k : string) : string :=
  Py.upper (Py.slice_from (String.length dialect_name + 1) k).

(* ------------------------------------------------------------------ *)
(** ** The optional clauses of a statement *)

(** [m] returns [a], from some state *)
Definition returns {S A : Type} (m : M S A) (a : A) : Prop :=
  exists s s', m s = Return (a, s').

(** [part] is nothing, or [sep] and a text [P] that is not empty *)
Definition optional_part (sep : string) (P : string -> Prop) (part : string)
  : Prop :=
  part = "" \/ exists t, t <> "" /\ P t /\ part = sep ++ t.

(** [part] is nothing, or a RETURNING clause after a space *)
Definition optional_returning (part : string) : Prop :=
  part = "" \/ exists columns, part = " RETURNING " ++ Py.join ", " columns.

(* ------------------------------------------------------------------ *)
(** ** The stack of the compiler *)

Section Stack.
Variables Table Column Clause ColKey Internals : Type.
Variable sa : SA.t Table Column Clause ColKey Internals.

Local Abbreviation compiler := (Compiler.t Table Column Clause ColKey Internals).

(** When [m] returns, [self.stack] is what it was. *)
Definition keeps_stack {A : Type} (m : M compiler A) : Prop :=
  forall c a c', m c = Return (a, c') -> Compiler.stack c' = Compiler.stack c.

(** When [m] returns, the last entry of the stack is gone. *)
Definition pops_stack {A : Type} (m : M compiler A) : Prop :=
  forall c a c', m c = Return (a, c') ->
                 Compiler.stack c' = removelast (Compiler.stack c).

(** Every call into SQLAlchemy that returns leaves the stack as it found
    it: what it pushes, it pops. *)
Record stack_discipline : Prop := {
  keeps_compile_state_factory :
    forall s, keeps_stack (SA._compile_state_factory sa s);
  keeps_base_visit_insert : forall s, keeps_stack (SA.base_visit_insert sa s);
  keeps_base_visit_update : forall s, keeps_stack (SA.base_visit_update sa s);
  keeps_process : forall e, keeps_stack (SA.process sa e);
  keeps_process_bindparam :
    forall k v, keeps_stack (SA.process_bindparam sa k v);
  keeps_compiler_dispatch :
    forall col b, keeps_stack (SA._compiler_dispatch sa col b);
  keeps_generate_prefixes :
    forall s p, keeps_stack (SA._generate_prefixes sa s p);
  keeps_label_select_column :
    forall col, keeps_stack (SA._label_select_column sa col);
  keeps_update_tables_clause :
    forall s t f, keeps_stack (SA.update_tables_clause sa s t f);
  keeps_setup_crud_hints :
    forall s t, keeps_stack (SA._setup_crud_hints sa s t);
  keeps_update_from_clause :
    forall s t f h, keeps_stack (SA.update_from_clause sa s t f h);
  keeps_update_limit_clause :
    forall s, keeps_stack (SA.update_limit_clause sa s);
  keeps_generate_delimited_and_list :
    forall l, keeps_stack (SA._generate_delimited_and_list sa l);
  keeps_render_cte_clause : keeps_stack (SA._render_cte_clause sa);
  keeps_crud_get_crud_params :
    forall s, keeps_stack (SA.crud_get_crud_params sa s);
  keeps_crud_create_bind_param :
    forall col, keeps_stack (SA.crud_create_bind_param sa col);
  keeps_crud_key_getters :
    forall s, keeps_stack (SA.crud_key_getters_for_crud_column sa s);
  keeps_crud_get_stmt_parameters_params :
    forall p d g v,
      keeps_stack (SA.crud_get_stmt_parameters_params sa p d g v);
  keeps_crud_scan_cols :
    forall s p g k v, keeps_stack (SA.crud_scan_cols sa s p g k v);
  keeps_crud_extend_values :
    forall s v, keeps_stack (SA.crud_extend_values_for_multiparams sa s v);
  keeps_create_bind_param :
    forall col, keeps_stack (SA._create_bind_param sa col);
  keeps_key_getters :
    forall s cs, keeps_stack (SA._key_getters_for_crud_column sa s cs);
  keeps_get_stmt_parameter_tuples_params :
    forall cs p d g v,
      keeps_stack (SA._get_stmt_parameter_tuples_params sa cs p d g v);
  keeps_get_multitable_params :
    forall s cs t k g v,
      keeps_stack (SA._get_multitable_params sa s cs t k g v);
  keeps_scan_insert_from_select_cols :
    forall s cs p g k v,
      keeps_stack (SA._scan_insert_from_select_cols sa s cs p g k v);
  keeps_scan_cols :
    forall s cs p g k v, keeps_stack (SA._scan_cols sa s cs p g k v);
  keeps_extend_values :
    forall s cs v,
      keeps_stack (SA._extend_values_for_multiparams sa s cs v)
}.

End Stack.

(* ------------------------------------------------------------------ *)
(** ** More sample statements *)

Module Ex2.

(** The operators of the sample expressions: [eq] and [gt] are in
    [compiler.OPERATORS], nothing else is. *)
Definition OPERATORS (operator : string) : result string :=
  if String.eqb operator "eq" then Return " = "
  else if String.eqb operator "gt" then Return " > "
  else Raise (Foreign "KeyError").

Definition element : Type := Element Mini.Clause string.

(** [doc['a']['b']] *)
Definition doc_a_b : element :=
  GetItem (GetItem (Leaf "doc") (SStr "a")) (SStr "b").

(** [x = ANY (doc['tags'])] *)
Definition x_any_tags : element :=
  AnyOf (Leaf "x") "eq" (GetItem (Leaf "doc") (SStr "tags")).

(** Two columns of a table: a name and a type each *)
Definition tags : string * CrateTypeCompiler.TypeEngine :=
  ("tags", CrateTypeCompiler.ARRAY
             (CrateTypeCompiler.ARRAY CrateTypeCompiler.String_ None)
             (Some 1%Z)).

Definition grid : string * CrateTypeCompiler.TypeEngine :=
  ("grid", CrateTypeCompiler.ARRAY CrateTypeCompiler.INTEGER (Some 2%Z)).

(** [insert(t)], nothing else *)
Definition insert0 : Mini.stmt := Mini.statement Ex.t PNone.

(** [insert(t).values(x=1, y=2)] *)
Definition insert_xy : Mini.stmt :=
  Mini.statement Ex.t (PDict [(KStr "x", Ex.int 1); (KStr "y", Ex.int 2)]).

(** A dialect like [Mini.crate] that supports [DEFAULT VALUES] *)
Definition with_default_values (version : list Z) : Dialect.t :=
  {| Dialect.name := "crate";
     Dialect.server_version_info := version;
     Dialect.supports_default_values := true;
     Dialect.supports_empty_insert := false;
     Dialect.supports_multivalues_insert := true |}.

(** A dialect like [Mini.crate] without multivalues inserts *)
Definition without_multivalues (version : list Z) : Dialect.t :=
  {| Dialect.name := "crate";
     Dialect.server_version_info := version;
     Dialect.supports_default_values := false;
     Dialect.supports_empty_insert := false;
     Dialect.supports_multivalues_insert := false |}.

(** [update(t).values({})]: a statement with an empty dictionary of
    parameters *)
Definition update_empty : Mini.stmt := Mini.statement Ex.t (PDict []).

(** The compile state SQLAlchemy 1.4 makes of [update_empty] *)
Definition update_empty_state : Mini.cstate :=
  {| CompileState.statement := update_empty;
     CompileState._extra_froms := [];
     CompileState._no_parameters := false;
     CompileState._has_multi_parameters := false;
     CompileState._multi_parameters := [];
     CompileState._ordered_values := [];
     CompileState._dict_parameters := Some [];
     CompileState.isinsert := false;
     CompileState.isupdate := true;
     CompileState.is_multitable := false |}.

(** The compile state of [Ex.update0], a statement without parameters *)
Definition update0_state : Mini.cstate :=
  {| CompileState.statement := Ex.update0;
     CompileState._extra_froms := [];
     CompileState._no_parameters := true;
     CompileState._has_multi_parameters := false;
     CompileState._multi_parameters := [];
     CompileState._ordered_values := [];
     CompileState._dict_parameters := None;
     CompileState.isinsert := false;
     CompileState.isupdate := true;
     CompileState.is_multitable := false |}.

(** Keywords of a table: two spellings of one option of the dialect, and
    a keyword of another dialect *)
Definition kwargs_twice : dict scalar :=
  [("crate_partitioned_by", SStr "day");
   ("mysql_engine", SStr "InnoDB");
   ("crate_PARTITIONED_BY", SStr "month")].

(** [update(t).values(x=1).where(y = 2)] *)
Definition update_where : Mini.stmt :=
  {| Stmt.table := Ex.t;
     Stmt.parameters := PDict [(KStr "x", Ex.int 1)];
     Stmt._has_multi_parameters := false;
     Stmt._prefixes := [];
     Stmt._hints := [];
     Stmt._returning := [];
     Stmt.select := None;
     Stmt._select_names := [];
     Stmt._extra_froms := [];
     Stmt._whereclause := Some "y = 2";
     Stmt._where_criteria := ["y = 2"];
     Stmt._crate_specific := None |}.

(** The compile state of [Ex.update_nosuch] *)
Definition update_nosuch_state : Mini.cstate :=
  {| CompileState.statement := Ex.update_nosuch;
     CompileState._extra_froms := [];
     CompileState._no_parameters := false;
     CompileState._has_multi_parameters := false;
     CompileState._multi_parameters := [];
     CompileState._ordered_values := [];
     CompileState._dict_parameters :=
       Some [(KStr "x", Ex.int 1); (KStr "nosuch", Ex.int 2)];
     CompileState.isinsert := false;
     CompileState.isupdate := true;
     CompileState.is_multitable := false |}.

(** The settings of a compiler of [dialect] before SQLAlchemy 1.4 *)
Definition settings_of (dialect : Dialect.t) (for_executemany : bool)
  : Settings.t :=
  {| Settings.dialect := dialect;
     Settings.SA_VERSION_ge_SA_1_1 := true;
     Settings.SA_VERSION_ge_SA_1_4 := false;
     Settings.column_keys := None;
     Settings.returning_precedes_values := false;
     Settings.render_table_with_column_in_update_from := false;
     Settings.for_executemany := for_executemany |}.

End Ex2.


(* ================================================================== *)
(** * Facts *)

(** ** Strings *)

Lemma append_assoc (a b c : string) : (a ++ b) ++ c = a ++ (b ++ c).
Proof. induction a as [|x a IH]; simpl; [reflexivity | now rewrite IH]. Qed.

Lemma append_nil_r (a : string) : a ++ "" = a.
Proof. induction a as [|x a IH]; simpl; [reflexivity | now rewrite IH]. Qed.

Lemma length_append (a b : string) :
  String.length (a ++ b) = String.length a + String.length b.
Proof. induction a as [|x a IH]; simpl; [reflexivity | now rewrite IH]. Qed.

Lemma append_inj_l (a b c : string) : a ++ b = a ++ c -> b = c.
Proof.
  induction a as [|x a IH]; simpl; intros H; [exact H|].
  injection H as H. now apply IH.
Qed.

Lemma append_inj_r (a b c : string) : a ++ c = b ++ c -> a = b.
Proof.
  revert b. induction a as [|x a IH]; intros [|y b] H; simpl in H.
  - reflexivity.
  - apply (f_equal String.length) in H. simpl in H.
    rewrite length_append in H. lia.
  - apply (f_equal String.length) in H. simpl in H.
    rewrite length_append in H. lia.
  - injection H as -> H. f_equal. now apply IH.
Qed.

Lemma contains_char_append (c : ascii) (a b : string) :
  Py.contains_char c (a ++ b) = Py.contains_char c a || Py.contains_char c b.
Proof.
  induction a as [|x a IH]; simpl; [reflexivity|].
  destruct (Ascii.eqb c x); [reflexivity | exact IH].
Qed.

Lemma prefix_append (a b : string) : String.prefix a (a ++ b) = true.
Proof.
  induction a as [|x a IH]; simpl.
  - now destruct b.
  - destruct (ascii_dec x x) as [_|n]; [exact IH | now elim n].
Qed.

Lemma contains_char_cons (c d : ascii) (b : string) :
  Py.contains_char c (String d b) = false ->
  c <> d /\ Py.contains_char c b = false.
Proof.
  cbn [Py.contains_char]. destruct (Ascii.eqb_spec c d) as [->|n].
  - discriminate.
  - now split.
Qed.

(** Two texts that start with a bracket-free name followed by a bracket
    start with the same name. *)
Lemma prefix_bracket (a b x y : string) :
  Py.contains_char "["%char a = false ->
  Py.contains_char "["%char b = false ->
  String.prefix (a ++ String "["%char x) (b ++ String "["%char y) = true ->
  a = b.
Proof.
  revert b. induction a as [|c a IH]; intros [|d b] Ha Hb H.
  - reflexivity.
  - apply contains_char_cons in Hb as [Hd _]. cbn [append String.prefix] in H.
    destruct (ascii_dec "["%char d) as [e|n]; [now elim Hd | discriminate].
  - apply contains_char_cons in Ha as [Hc _]. cbn [append String.prefix] in H.
    destruct (ascii_dec c "["%char) as [e|n]; [now elim Hc | discriminate].
  - apply contains_char_cons in Ha as [_ Ha].
    apply contains_char_cons in Hb as [_ Hb].
    cbn [append String.prefix] in H.
    destruct (ascii_dec c d) as [->|n]; [|discriminate].
    f_equal. now apply IH.
Qed.

Lemma prefix_no_bracket (a b x : string) :
  Py.contains_char "["%char b = false ->
  String.prefix (a ++ String "["%char x) b = false.
Proof.
  revert b. induction a as [|c a IH]; intros [|d b] Hb;
    cbn [append String.prefix]; try reflexivity.
  - apply contains_char_cons in Hb as [Hd _].
    destruct (ascii_dec "["%char d) as [e|n]; [now elim Hd | reflexivity].
  - apply contains_char_cons in Hb as [_ Hb].
    destruct (ascii_dec c d) as [->|n]; [|reflexivity].
    now apply IH.
Qed.

Lemma path_bracket (key subkey : string) :
  Py.contains_char "["%char (path key subkey) = true.
Proof.
  unfold path. rewrite contains_char_append. simpl. apply orb_true_r.
Qed.

Lemma path_inj (key a b : string) : path key a = path key b -> a = b.
Proof.
  unfold path. intros H. apply append_inj_l in H. apply append_inj_l in H.
  now apply append_inj_r in H.
Qed.

Lemma path_startswith (key subkey : string) :
  Py.startswith (path key subkey) (key ++ "['") = true.
Proof.
  unfold Py.startswith, path.
  replace (key ++ "['" ++ subkey ++ "']")
    with ((key ++ "['") ++ subkey ++ "']") by apply append_assoc.
  apply prefix_append.
Qed.

Lemma path_startswith_other (col key subkey : string) :
  Py.contains_char "["%char col = false ->
  Py.contains_char "["%char key = false ->
  Py.startswith (path key subkey) (col ++ "['") = true -> key = col.
Proof.
  unfold Py.startswith, path. intros Hc Hk H. symmetry.
  exact (prefix_bracket col key "'" ("'" ++ subkey ++ "']") Hc Hk H).
Qed.

(** ** Dictionaries *)

Section DictFacts.
Variables (K V : Type) (eqb : K -> K -> bool).
Hypothesis eqb_spec : forall x y, reflect (x = y) (eqb x y).

Lemma dict_get_set (k k' : K) (v : V) (d : list (K * V)) :
  dict_get eqb k (dict_set eqb k' v d)
  = if eqb k k' then Some v else dict_get eqb k d.
Proof.
  induction d as [|[k0 v0] d IH]; simpl.
  - reflexivity.
  - destruct (eqb_spec k' k0) as [->|n]; simpl.
    + destruct (eqb_spec k k0); reflexivity.
    + destruct (eqb_spec k k0) as [->|n0].
      * destruct (eqb_spec k0 k') as [e|_]; [now elim n | reflexivity].
      * exact IH.
Qed.

Lemma dict_get_none (k : K) (d : list (K * V)) :
  dict_get eqb k d = None <-> ~ In k (map fst d).
Proof.
  induction d as [|[k0 v0] d IH]; simpl.
  - tauto.
  - destruct (eqb_spec k k0) as [->|n].
    + split; [discriminate | intros H; elim H; now left].
    + rewrite IH. split; [intros H [e|i]; [now elim n | tauto] | tauto].
Qed.

Lemma dict_get_in (k : K) (v : V) (d : list (K * V)) :
  NoDup (map fst d) -> In (k, v) d -> dict_get eqb k d = Some v.
Proof.
  induction d as [|[k0 v0] d IH]; simpl; intros ND [].
  - injection H as -> ->. now destruct (eqb_spec k k).
  - inversion ND as [|? ? Hn ND']; subst.
    destruct (eqb_spec k k0) as [->|n].
    + elim Hn. now apply (in_map fst) in H.
    + now apply IH.
Qed.

Lemma dict_get_some_in (k : K) (v : V) (d : list (K * V)) :
  dict_get eqb k d = Some v -> In (k, v) d.
Proof.
  induction d as [|[k0 v0] d IH]; simpl; [discriminate|].
  destruct (eqb_spec k k0) as [->|n].
  - intros [= ->]. now left.
  - intros H. right. now apply IH.
Qed.

Lemma dict_set_fresh (k : K) (v : V) (d : list (K * V)) :
  ~ In k (map fst d) -> dict_set eqb k v d = (d ++ [(k, v)])%list.
Proof.
  induction d as [|[k0 v0] d IH]; simpl; intros H; [reflexivity|].
  destruct (eqb_spec k k0) as [->|n]; [elim H; now left|].
  f_equal. apply IH. tauto.
Qed.

(** Writing fresh, pairwise different keys appends them. *)
Lemma fold_set_fresh (l d : list (K * V)) :
  NoDup (map fst l) ->
  (forall k, In k (map fst l) -> ~ In k (map fst d)) ->
  fold_left (fun d kv => dict_set eqb (fst kv) (snd kv) d) l d
  = (d ++ l)%list.
Proof.
  revert d. induction l as [|[k v] l IH]; simpl; intros d ND F.
  - now rewrite app_nil_r.
  - inversion ND as [|? ? Hn ND']; subst.
    rewrite dict_set_fresh by (apply F; now left).
    rewrite IH; trivial.
    + now rewrite <- app_assoc.
    + intros k' Hk'. rewrite map_app, in_app_iff. simpl.
      intros [H|[<-|[]]]; [exact (F k' (or_intror Hk') H) | tauto].
Qed.

Lemma dict_of_nodup (l : list (K * V)) :
  NoDup (map fst l) -> dict_of eqb l = l.
Proof.
  intros ND. unfold dict_of. rewrite fold_set_fresh; trivial.
  intros k _ [].
Qed.

(** Selecting the entries of some keys commutes with assignment. *)
Lemma filter_dict_set (P : K -> bool) (k : K) (v : V) (d : list (K * V)) :
  filter (fun e => P (fst e)) (dict_set eqb k v d)
  = if P k then dict_set eqb k v (filter (fun e => P (fst e)) d)
    else filter (fun e => P (fst e)) d.
Proof.
  induction d as [|[k0 v0] d IH]; simpl.
  - destruct (P k); reflexivity.
  - destruct (eqb_spec k k0) as [->|n]; simpl.
    + destruct (P k0); simpl; [|reflexivity].
      now destruct (eqb_spec k0 k0).
    + rewrite IH. destruct (P k0) eqn:E0, (P k) eqn:E; simpl; trivial.
      now destruct (eqb_spec k k0).
Qed.

Lemma filter_fold_set (P : K -> bool) (l d : list (K * V)) :
  filter (fun e => P (fst e))
    (fold_left (fun d kv => dict_set eqb (fst kv) (snd kv) d) l d)
  = fold_left (fun d kv => dict_set eqb (fst kv) (snd kv) d)
      (filter (fun e => P (fst e)) l) (filter (fun e => P (fst e)) d).
Proof.
  revert d. induction l as [|[k v] l IH]; simpl; intros d; [reflexivity|].
  rewrite IH, filter_dict_set. now destruct (P k).
Qed.

(** Writes to keys other than [k] do not change what [k] reads. *)
Lemma dict_get_fold_other (k : K) (l d : list (K * V)) :
  ~ In k (map fst l) ->
  dict_get eqb k
    (fold_left (fun d kv => dict_set eqb (fst kv) (snd kv) d) l d)
  = dict_get eqb k d.
Proof.
  revert d. induction l as [|[k0 v0] l IH]; simpl; intros d H; [reflexivity|].
  rewrite IH by tauto. rewrite dict_get_set.
  destruct (eqb_spec k k0) as [->|n]; [elim H; now left | reflexivity].
Qed.

Lemma dict_set_keys_nodup (k : K) (v : V) (d : list (K * V)) :
  NoDup (map fst d) -> NoDup (map fst (dict_set eqb k v d)).
Proof.
  induction d as [|[k0 v0] d IH]; simpl; intros ND.
  - constructor; [intros [] | constructor].
  - inversion ND as [|? ? Hn ND']; subst.
    destruct (eqb_spec k k0) as [->|n]; simpl; [exact ND|].
    constructor; [|now apply IH].
    intros Hin. apply Hn. clear - Hin n eqb_spec.
    induction d as [|[k1 v1] d IH]; simpl in *.
    + destruct Hin as [e|[]]. now elim n.
    + destruct (eqb_spec k k1) as [->|n1]; simpl in *; [exact Hin|].
      destruct Hin as [e|i]; [now left | right; now apply IH].
Qed.

Lemma dict_of_keys_nodup (l : list (K * V)) : NoDup (map fst (dict_of eqb l)).
Proof.
  unfold dict_of.
  assert (G : forall d, NoDup (map fst d) ->
    NoDup (map fst (fold_left
      (fun d kv => dict_set eqb (fst kv) (snd kv) d) l d))).
  { induction l as [|[k v] l IH]; simpl; intros d ND; [exact ND|].
    apply IH. now apply dict_set_keys_nodup. }
  apply G. constructor.
Qed.

End DictFacts.

Arguments dict_get_set {K V eqb} eqb_spec.
Arguments dict_get_none {K V eqb} eqb_spec.
Arguments dict_get_in {K V eqb} eqb_spec.
Arguments dict_get_some_in {K V eqb} eqb_spec.
Arguments dict_set_fresh {K V eqb} eqb_spec.
Arguments fold_set_fresh {K V eqb} eqb_spec.
Arguments dict_of_nodup {K V eqb} eqb_spec.
Arguments filter_dict_set {K V eqb} eqb_spec.
Arguments filter_fold_set {K V eqb} eqb_spec.
Arguments dict_get_fold_other {K V eqb} eqb_spec.
Arguments dict_set_keys_nodup {K V eqb} eqb_spec.
Arguments dict_of_keys_nodup {K V eqb} eqb_spec.

(** ** rewrite_params as a sequence of assignments *)

Lemma rewrite_document_writes key items c d (np : dict value) :
  rewrite_document key items c d np
  = fold_left (fun np kv => str_set (fst kv) (snd kv) np)
              (document_writes key items c d) np.
Proof.
  unfold rewrite_document, document_writes. rewrite fold_left_app.
  assert (E1 : forall np,
    fold_left (fun np0 (kv : string * value) =>
                 let (subkey, subval) := kv in
                 if set_mem subkey c then str_set (path key subkey) subval np0
                 else np0) items np
    = fold_left (fun np0 kv => str_set (fst kv) (snd kv) np0)
        (map (fun e => (path key (fst e), snd e))
             (filter (fun e => set_mem (fst e) c) items)) np).
  { induction items as [|[k v] items IH]; intros np0; simpl; [reflexivity|].
    destruct (set_mem k c); simpl; apply IH. }
  rewrite E1. generalize (fold_left (fun np0 kv => str_set (fst kv) (snd kv) np0)
    (map (fun e => (path key (fst e), snd e))
         (filter (fun e => set_mem (fst e) c) items)) np).
  induction d as [|k d IH]; intros np0; simpl; [reflexivity | apply IH].
Qed.

Lemma rewrite_item_writes (np : dict value) (kv : string * value) :
  rewrite_item np kv
  = fold_left (fun np kv => str_set (fst kv) (snd kv) np) (item_writes kv) np.
Proof.
  destruct kv as [key val]. unfold rewrite_item, item_writes.
  destruct val as [s|items|items c d]; simpl; try reflexivity.
  destruct (negb (any c) && negb (any d)); simpl; [reflexivity|].
  apply rewrite_document_writes.
Qed.

Lemma rewrite_params_writes (_params : dict value) :
  rewrite_params _params = str_of (flat_map item_writes _params).
Proof.
  unfold rewrite_params, dict_of. generalize (@nil (string * value)).
  induction _params as [|kv ps IH]; intros np; simpl; [reflexivity|].
  rewrite fold_left_app, <- rewrite_item_writes. apply IH.
Qed.

Lemma item_writes_clean (kv : string * value) :
  is_dirty (snd kv) = false -> item_writes kv = [kv].
Proof.
  destruct kv as [key val]. unfold item_writes. simpl.
  destruct val; trivial. intros ->. reflexivity.
Qed.

(** A mapping without changed documents is copied as it is. *)
Lemma rewrite_params_clean (_params : dict value) :
  NoDup (dict_keys _params) ->
  (forall kv, In kv _params -> is_dirty (snd kv) = false) ->
  rewrite_params _params = _params.
Proof.
  intros ND H. rewrite rewrite_params_writes.
  assert (E : flat_map item_writes _params = _params).
  { clear ND. induction _params as [|kv ps IH]; simpl; [reflexivity|].
    rewrite item_writes_clean by (apply H; now left). simpl.
    f_equal. apply IH. intros kv' Hin. apply H. now right. }
  rewrite E. apply dict_of_nodup; [exact String.eqb_spec | exact ND].
Qed.

(** Two non-empty disjoint sets of keys: one of the keys is not the empty
    string, so [any] sees the document as changed. *)
Lemma disjoint_nonempty_dirty items (c d : list string) :
  c <> [] -> d <> [] -> (forall k, In k c -> ~ In k d) ->
  is_dirty (VMutableDict items c d) = true.
Proof.
  intros Hc Hd Hdis. simpl.
  destruct c as [|k c]; [now elim Hc|]. destruct d as [|k' d]; [now elim Hd|].
  unfold any. cbn [existsb].
  destruct (String.eqb_spec k "") as [->|n];
    destruct (String.eqb_spec k' "") as [->|n']; cbn [negb orb andb];
    trivial.
  - elim (Hdis "" (or_introl eq_refl)). now left.
  - now rewrite andb_false_r.
Qed.

Lemma document_writes_keys key items c d :
  map fst (document_writes key items c d)
  = app (map (path key)
             (map fst (filter (fun e => set_mem (fst e) c) items)))
        (map (path key) d).
Proof.
  unfold document_writes. rewrite map_app, !map_map. reflexivity.
Qed.

Lemma set_mem_in (k : string) (s : list string) :
  set_mem k s = true <-> In k s.
Proof.
  unfold set_mem. rewrite existsb_exists. split.
  - intros [x [Hx E]]. apply String.eqb_eq in E. now subst.
  - intros H. exists k. split; [exact H | apply String.eqb_refl].
Qed.

Lemma NoDup_map_fst_filter {A B : Type} (f : A * B -> bool) (l : list (A * B)) :
  NoDup (map fst l) -> NoDup (map fst (filter f l)).
Proof.
  induction l as [|e l IH]; simpl; intros ND; [constructor|].
  inversion ND as [|? ? Hn ND']; subst.
  destruct (f e); simpl; [|now apply IH].
  constructor; [|now apply IH].
  intros Hin. apply Hn. apply in_map_iff in Hin as [x [Ex Hx]].
  apply filter_In in Hx as [Hx _]. rewrite <- Ex. now apply in_map.
Qed.

Lemma NoDup_map_path key (l : list string) :
  NoDup l -> NoDup (map (path key) l).
Proof.
  induction 1 as [|x l Hn ND IH]; simpl; constructor; trivial.
  intros Hin. apply in_map_iff in Hin as [y [E Hy]].
  apply path_inj in E. now subst y.
Qed.

Lemma document_writes_nodup key items c d :
  NoDup (dict_keys items) -> NoDup d ->
  (forall k, In k c -> ~ In k d) ->
  NoDup (map fst (document_writes key items c d)).
Proof.
  intros NDi NDd Hdis. rewrite document_writes_keys, <- map_app.
  apply NoDup_map_path.
  { apply NoDup_app.
    + now apply NoDup_map_fst_filter.
    + exact NDd.
    + intros k Hk. apply in_map_iff in Hk as [[k' v] [E Hin]]. simpl in E.
      subst k'. apply filter_In in Hin as [_ Hm]. simpl in Hm.
      apply Hdis. now apply set_mem_in. }
Qed.

(** The entries whose key starts with [col['] *)
Lemma document_writes_startswith col items c d :
  filter (fun e => Py.startswith (fst e) (col ++ "['"))
         (document_writes col items c d)
  = document_writes col items c d.
Proof.
  apply forallb_filter_id. apply forallb_forall. intros [k v] Hin.
  apply (in_map fst) in Hin. rewrite document_writes_keys in Hin. simpl in *.
  rewrite <- map_app in Hin. apply in_map_iff in Hin as [x [<- _]].
  apply path_startswith.
Qed.

Lemma filter_none {A : Type} (f : A -> bool) (l : list A) :
  (forall x, In x l -> f x = false) -> filter f l = [].
Proof.
  induction l as [|x l IH]; simpl; intros H; [reflexivity|].
  rewrite (H x (or_introl eq_refl)). apply IH. intros y Hy. apply H. now right.
Qed.

Lemma item_writes_other col (kv : string * value) :
  Py.contains_char "["%char col = false ->
  Py.contains_char "["%char (fst kv) = false ->
  fst kv <> col ->
  filter (fun e => Py.startswith (fst e) (col ++ "['")) (item_writes kv) = [].
Proof.
  intros Hc Hk Hne. destruct kv as [key val]. simpl in *.
  assert (P0 : Py.startswith key (col ++ "['") = false).
  { unfold Py.startswith. now apply (prefix_no_bracket col key "'"). }
  unfold item_writes. simpl.
  destruct val as [s|items|items c d]; simpl; try (rewrite P0; reflexivity).
  destruct (negb (any c) && negb (any d)); simpl; [now rewrite P0|].
  apply filter_none.
  intros [k v] Hin. apply (in_map fst) in Hin.
  rewrite document_writes_keys, <- map_app in Hin.
  apply in_map_iff in Hin as [x [E _]]. simpl in *. subst k.
  destruct (Py.startswith (path key x) (col ++ "['")) eqn:E; trivial.
  elim Hne. now apply (path_startswith_other col key x).
Qed.

Lemma writes_other col (ps : dict value) :
  Py.contains_char "["%char col = false ->
  (forall key, In key (dict_keys ps) -> Py.contains_char "["%char key = false) ->
  ~ In col (dict_keys ps) ->
  filter (fun e => Py.startswith (fst e) (col ++ "['"))
         (flat_map item_writes ps) = [].
Proof.
  intros Hc Hk Hn. induction ps as [|kv ps IH]; simpl; [reflexivity|].
  rewrite filter_app, item_writes_other, IH; trivial.
  - intros key Hin. apply Hk. now right.
  - intros Hin. apply Hn. now right.
  - apply Hk. now left.
  - intros E. apply Hn. now left.
Qed.

(** The assignments to keys that start with [col[']: those of the
    document bound to [col]. *)
Lemma writes_of_document col items c d (ps : dict value) :
  NoDup (dict_keys ps) ->
  (forall key, In key (dict_keys ps) -> Py.contains_char "["%char key = false) ->
  In (col, VMutableDict items c d) ps ->
  is_dirty (VMutableDict items c d) = true ->
  filter (fun e => Py.startswith (fst e) (col ++ "['"))
         (flat_map item_writes ps)
  = document_writes col items c d.
Proof.
  intros ND Hk Hin Hd.
  assert (Hc : Py.contains_char "["%char col = false).
  { apply Hk. now apply (in_map fst) in Hin. }
  apply in_split in Hin as [p1 [p2 ->]].
  unfold dict_keys in *. rewrite map_app in ND, Hk. simpl in ND, Hk.
  pose proof (NoDup_remove_2 _ _ _ ND) as Hn.
  rewrite flat_map_app, filter_app. simpl. rewrite filter_app.
  rewrite (writes_other col p1), (writes_other col p2); trivial.
  - unfold item_writes at 1. cbn [snd fst]. rewrite Hd.
    rewrite document_writes_startswith. simpl. apply app_nil_r.
  - intros key Hin. apply Hk. rewrite in_app_iff. right. now right.
  - intros Hin. apply Hn. rewrite in_app_iff. now right.
  - intros key Hin. apply Hk. rewrite in_app_iff. now left.
  - intros Hin. apply Hn. rewrite in_app_iff. now left.
Qed.

(** No assignment is to [col] itself. *)
Lemma writes_not_col col items c d (ps : dict value) :
  NoDup (dict_keys ps) ->
  (forall key, In key (dict_keys ps) -> Py.contains_char "["%char key = false) ->
  In (col, VMutableDict items c d) ps ->
  is_dirty (VMutableDict items c d) = true ->
  ~ In col (map fst (flat_map item_writes ps)).
Proof.
  intros ND Hk Hin Hd.
  assert (Hc : Py.contains_char "["%char col = false).
  { apply Hk. now apply (in_map fst) in Hin. }
  intros H. apply in_map_iff in H as [[k v] [E H]]. simpl in E. subst k.
  apply in_flat_map in H as [[key val] [Hkv Hw]].
  assert (Hcases : item_writes (key, val) = [(key, val)]
                   \/ exists items' c' d', val = VMutableDict items' c' d'
                        /\ item_writes (key, val)
                           = document_writes key items' c' d').
  { unfold item_writes. simpl. destruct val as [s|i|i c' d']; auto.
    destruct (is_dirty (VMutableDict i c' d')); auto.
    right. now exists i, c', d'. }
  destruct Hcases as [E|[i [c' [d' [-> E]]]]]; rewrite E in Hw.
  - destruct Hw as [[= E1 E2]|[]]. subst key v.
    (* the binding of [col] is the changed document *)
    assert (E' : val = VMutableDict items c d).
    { pose proof (dict_get_in String.eqb_spec col val ps ND Hkv) as G1.
      pose proof (dict_get_in String.eqb_spec col _ ps ND Hin) as G2.
      congruence. }
    subst val. unfold item_writes in E. cbn [snd fst] in E.
    rewrite Hd in E.
    assert (L : In (col, VMutableDict items c d)
                   (document_writes col items c d)).
    { rewrite E. now left. }
    apply (in_map fst) in L. rewrite document_writes_keys, <- map_app in L.
    apply in_map_iff in L as [x [Ex _]]. simpl in Ex.
    pose proof (path_bracket col x) as B. rewrite Ex in B. congruence.
  - apply (in_map fst) in Hw. rewrite document_writes_keys, <- map_app in Hw.
    apply in_map_iff in Hw as [x [Ex _]]. simpl in Ex.
    pose proof (path_bracket key x) as B. rewrite Ex in B. congruence.
Qed.

Lemma unmodified_clean (val : value) :
  unmodified val = true -> is_dirty val = false.
Proof.
  destruct val as [s|i|i c d]; simpl; trivial.
  destruct c, d; simpl; trivial; discriminate.
Qed.

(* ================================================================== *)
(** * rewrite_update *)

Section RewriteUpdate.
Variables Table Column Clause ColKey Internals : Type.
Variable sa : SA.t Table Column Clause ColKey Internals.

Local Abbreviation stmt := (Stmt.t Table Column Clause).

(** With a first item that is not empty, [rewrite_update] returns the
    statement [values] builds from the first rewritten mapping, marked,
    and the rewritten mappings. *)
Lemma rewrite_update_returns (clauseelement clause : stmt)
  (_params : dict value) (_multiparams : list (dict value))
  (rest : list (list (dict value))) (params : dict value) :
  SA.values sa clauseelement (rewrite_params _params) = Return clause ->
  rewrite_update sa clauseelement ((_params :: _multiparams) :: rest) params
  = Return (Stmt.set_crate_specific clause,
            [map rewrite_params (_params :: _multiparams)], params).
Proof.
  intros H. unfold rewrite_update. simpl. now rewrite H.
Qed.

(** C1, as amended.  A parameter mapping [ps] of the statement (a
    dictionary whose keys are column names, none with a bracket) binds
    [col] to a document with disjoint changed and deleted key sets, of
    any sizes, that [any] sees as changed (one of the keys of the two
    sets is not the empty string); the deleted key set may be empty, and
    so may the changed one.  [rewrite_update] returns the rewritten
    mappings, and in the rewritten [ps] the column [col] is not bound any
    more, and the entries whose key starts with [col['] are exactly: one
    entry [col['k']] bound to the document's value of [k] for every item
    [k] of the document that is in the changed keys, in the order of the
    document, followed by one entry [col['d']] bound to null for every
    deleted key [d].  Items that are not in the changed keys, and changed
    keys that are not items of the document, have no entry. *)
Theorem rewrite_update_partial
  (clauseelement clause : stmt) (_params : dict value)
  (_multiparams : list (dict value)) (rest : list (list (dict value)))
  (params : dict value) (ps : dict value) (col : string)
  (items : list (string * value)) (_changed_keys _deleted_keys : list string) :
  SA.values sa clauseelement (rewrite_params _params) = Return clause ->
  In ps (_params :: _multiparams) ->
  NoDup (dict_keys ps) ->
  (forall key, In key (dict_keys ps) -> Py.contains_char "["%char key = false) ->
  str_get col ps = Some (VMutableDict items _changed_keys _deleted_keys) ->
  NoDup (dict_keys items) -> NoDup _deleted_keys ->
  is_dirty (VMutableDict items _changed_keys _deleted_keys) = true ->
  (forall k, In k _changed_keys -> ~ In k _deleted_keys) ->
  rewrite_update sa clauseelement ((_params :: _multiparams) :: rest) params
  = Return (Stmt.set_crate_specific clause,
            [map rewrite_params (_params :: _multiparams)], params)
  /\ str_get col (rewrite_params ps) = None
  /\ filter (fun e => Py.startswith (fst e) (col ++ "['"))
            (rewrite_params ps)
     = app (map (fun e => (path col (fst e), snd e))
                (filter (fun e => set_mem (fst e) _changed_keys) items))
           (map (fun d => (path col d, VNull)) _deleted_keys).
Proof.
  intros Hv Hin ND Hk Hget NDi NDd Hdirty Hdis.
  apply dict_get_some_in in Hget; [|exact String.eqb_spec].
  split; [now apply rewrite_update_returns|].
  rewrite rewrite_params_writes. split.
  - unfold dict_of. rewrite dict_get_fold_other; [reflexivity | exact String.eqb_spec |].
    now apply (writes_not_col col items _changed_keys _deleted_keys).
  - unfold dict_of.
    rewrite (filter_fold_set String.eqb_spec
               (fun k => Py.startswith k (col ++ "['"))).
    rewrite (writes_of_document col items _changed_keys _deleted_keys); trivial.
    simpl. apply (dict_of_nodup String.eqb_spec).
    now apply document_writes_nodup.
Qed.

(** C2, as amended.  When every value of every mapping is unmodified (not
    a [MutableDict], or one with empty changed and deleted key sets), the
    mappings come back as they are, in a one-item tuple; the statement
    that comes back is not [clauseelement] but [values] of it and the
    first mapping, with the marker [_crate_specific] set. *)
Theorem rewrite_update_unmodified
  (clauseelement clause : stmt) (_params : dict value)
  (_multiparams : list (dict value)) (rest : list (list (dict value)))
  (params : dict value) :
  (forall ps, In ps (_params :: _multiparams) ->
     NoDup (dict_keys ps)
     /\ forall kv, In kv ps -> unmodified (snd kv) = true) ->
  SA.values sa clauseelement _params = Return clause ->
  rewrite_update sa clauseelement ((_params :: _multiparams) :: rest) params
  = Return (Stmt.set_crate_specific clause, [_params :: _multiparams], params)
  /\ Stmt._crate_specific (Stmt.set_crate_specific clause) = Some true.
Proof.
  intros H Hv.
  assert (E : forall ps, In ps (_params :: _multiparams) ->
                         rewrite_params ps = ps).
  { intros ps Hin. destruct (H ps Hin) as [ND Hu].
    apply rewrite_params_clean; trivial.
    intros kv Hkv. apply unmodified_clean. now apply Hu. }
  split; [|reflexivity].
  rewrite (@rewrite_update_returns clauseelement clause).
  - assert (Em : map rewrite_params (_params :: _multiparams)
                 = _params :: _multiparams).
    { rewrite <- (map_id (_params :: _multiparams)) at 2.
      apply map_ext_in. exact E. }
    now rewrite Em.
  - rewrite E; [exact Hv | now left].
Qed.

End RewriteUpdate.

(* ================================================================== *)
(** * CrateTypeCompiler *)

(** C8.  An array type with more than one dimension raises
    [NotImplementedError] and returns no text; an array type without
    dimensions, or with exactly one, compiles to [ARRAY(<item>)] where
    [<item>] is what the item type compiles to. *)
Theorem visit_ARRAY_dimensions (generic_visit : string -> result string)
  (item_type : CrateTypeCompiler.TypeEngine) :
  (forall d : Z, (1 < d)%Z ->
     CrateTypeCompiler.visit_ARRAY generic_visit item_type (Some d)
     = Raise (NotImplementedError
                "CrateDB doesn't support multidimensional arrays"))
  /\ (forall (dimensions : option Z) (item : string),
        dimensions = None \/ dimensions = Some 1%Z ->
        CrateTypeCompiler.process generic_visit item_type = Return item ->
        CrateTypeCompiler.visit_ARRAY generic_visit item_type dimensions
        = Return ("ARRAY(" ++ item ++ ")")).
Proof.
  split.
  - intros d Hd. unfold CrateTypeCompiler.visit_ARRAY.
    cbn [CrateTypeCompiler.process].
    apply Z.ltb_lt in Hd. now rewrite Hd.
  - intros dimensions item Hdim Hitem. unfold CrateTypeCompiler.visit_ARRAY.
    cbn [CrateTypeCompiler.process].
    destruct Hdim as [-> | ->]; cbn [Z.ltb Z.compare]; now rewrite Hitem.
Qed.

(** C8, at arrays of integers with two dimensions and with one *)
Lemma visit_ARRAY_dimensions_witness :
  CrateTypeCompiler.visit_ARRAY (fun _ => Raise TypeError)
    CrateTypeCompiler.INTEGER (Some 2%Z)
  = Raise (NotImplementedError
             "CrateDB doesn't support multidimensional arrays")
  /\ CrateTypeCompiler.visit_ARRAY (fun _ => Raise TypeError)
       CrateTypeCompiler.INTEGER (Some 1%Z)
     = Return "ARRAY(INT)".
Proof.
  split.
  - apply (proj1 (visit_ARRAY_dimensions (fun _ => Raise TypeError)
                    CrateTypeCompiler.INTEGER)).
    reflexivity.
  - exact (proj2 (visit_ARRAY_dimensions (fun _ => Raise TypeError)
                    CrateTypeCompiler.INTEGER)
                 (Some 1%Z) "INT" (or_intror eq_refl) eq_refl).
Defined.

(* ================================================================== *)
(** * CrateDDLCompiler *)

(** ** sorted *)

Lemma insert_sorted_perm (x : string) (l : list string) :
  Permutation (x :: l) (Py.insert_sorted x l).
Proof.
  induction l as [|y l IH]; simpl; [apply Permutation_refl|].
  destruct (String.leb x y); [apply Permutation_refl|].
  eapply Permutation_trans; [apply perm_swap|]. now apply perm_skip.
Qed.

Lemma sorted_perm (l : list string) : Permutation l (Py.sorted l).
Proof.
  induction l as [|x l IH]; simpl; [constructor|].
  eapply Permutation_trans; [apply perm_skip, IH | apply insert_sorted_perm].
Qed.

Lemma insert_sorted_hd (a x : string) (l : list string) :
  DDLSpec.string_le a x -> HdRel DDLSpec.string_le a l ->
  HdRel DDLSpec.string_le a (Py.insert_sorted x l).
Proof.
  intros Hax Hl. destruct l as [|y l]; simpl.
  - now constructor.
  - destruct (String.leb x y); constructor; trivial.
    now inversion Hl.
Qed.

Lemma insert_sorted_sorted (x : string) (l : list string) :
  Sorted DDLSpec.string_le l -> Sorted DDLSpec.string_le (Py.insert_sorted x l).
Proof.
  induction 1 as [|y l Hs IH Hhd]; simpl.
  - repeat constructor.
  - destruct (String.leb x y) eqn:E.
    + constructor; [now constructor | now constructor].
    + constructor; [exact IH|].
      apply insert_sorted_hd; trivial.
      destruct (String.leb_total x y) as [H|H]; [congruence | exact H].
Qed.

Lemma sorted_sorted (l : list string) : Sorted DDLSpec.string_le (Py.sorted l).
Proof.
  induction l as [|x l IH]; simpl; [constructor|].
  now apply insert_sorted_sorted.
Qed.

(** ** The loop over the options *)

(** What the loop leaves in its three variables, started from [a] *)
Lemma scan_from (o : dict scalar) (a : CrateDDLCompiler.acc) :
  fold_left CrateDDLCompiler.step o a
  = {| CrateDDLCompiler.special_options :=
         CrateDDLCompiler.special_options a
         ++ String.concat ""
              (map (fun kv => " PARTITIONED BY (" ++ py_str (snd kv) ++ ")")
                   (filter (fun kv => String.eqb (fst kv) "PARTITIONED_BY") o));
       CrateDDLCompiler.clustered_options :=
         fold_left (fun d kv => str_set (fst kv) (snd kv) d)
           (flat_map DDLSpec.clustered_write o)
           (CrateDDLCompiler.clustered_options a);
       CrateDDLCompiler.table_opts :=
         app (CrateDDLCompiler.table_opts a) (DDLSpec.generic_entries o) |}.
Proof.
  revert a. induction o as [|[k v] o IH]; intros [sp cl tb].
  - simpl. now rewrite append_nil_r, app_nil_r.
  - cbn [fold_left]. rewrite IH. clear IH.
    unfold CrateDDLCompiler.step, DDLSpec.generic_entries, DDLSpec.is_generic,
           DDLSpec.clustered_write.
    cbn [filter map flat_map fst snd].
    unfold CrateDDLCompiler.special_opts_tmpl,
           CrateDDLCompiler.clustered_opts_tmpl.
    destruct (String.eqb k "PARTITIONED_BY") eqn:E1.
    + cbn [CrateDDLCompiler.special_options
           CrateDDLCompiler.clustered_options CrateDDLCompiler.table_opts
           negb andb map app fold_left].
      f_equal. rewrite append_assoc. f_equal.
      destruct (filter _ o); cbn [map String.concat];
        [now rewrite append_nil_r | reflexivity].
    + destruct (String.eqb k "NUMBER_OF_SHARDS") eqn:E2;
        [|destruct (String.eqb k "CLUSTERED_BY") eqn:E3];
        cbn [CrateDDLCompiler.special_options
             CrateDDLCompiler.clustered_options CrateDDLCompiler.table_opts
             negb andb map app fold_left fst snd]; try reflexivity.
      f_equal. now rewrite <- app_assoc.
Qed.

(** The assignments to [clustered_options], in order *)
Lemma clustered_writes_keys (o : dict scalar) :
  NoDup (map fst o) ->
  NoDup (map fst
     (flat_map DDLSpec.clustered_write o)).
Proof.
  induction o as [|[k v] o IH]; cbn [flat_map map fst snd]; intros ND;
    [constructor|].
  inversion ND as [|? ? Hn ND']; subst. specialize (IH ND').
  unfold DDLSpec.clustered_write at 1. cbn [fst snd].
  destruct (String.eqb k "PARTITIONED_BY"); [exact IH|].
  destruct (CrateDDLCompiler.clustered_opts_tmpl k); [|exact IH].
  cbn [app map fst]. constructor; [|exact IH].
  intros Hin. apply Hn. apply in_map_iff in Hin as [[k' v'] [E Hin]].
  cbn [fst] in E. subst k'. apply in_flat_map in Hin as [[k2 v2] [H2 Hw]].
  unfold DDLSpec.clustered_write in Hw. cbn [fst snd] in Hw.
  destruct (String.eqb k2 "PARTITIONED_BY"); [now elim Hw|].
  destruct (CrateDDLCompiler.clustered_opts_tmpl k2); [|now elim Hw].
  destruct Hw as [[= -> _]|[]]. now apply (in_map fst) in H2.
Qed.

Lemma special_lookup (o : dict scalar) :
  NoDup (map fst o) ->
  String.concat ""
    (map (fun kv : string * scalar =>
            " PARTITIONED BY (" ++ py_str (snd kv) ++ ")")
         (filter (fun kv => String.eqb (fst kv) "PARTITIONED_BY") o))
  = DDLSpec.special_clause o.
Proof.
  unfold DDLSpec.special_clause.
  induction o as [|[k v] o IH]; cbn [filter map fst snd dict_get]; intros ND;
    [reflexivity|].
  inversion ND as [|? ? Hn ND']; subst.
  rewrite (String.eqb_sym "PARTITIONED_BY" k).
  destruct (String.eqb_spec k "PARTITIONED_BY") as [->|n].
  - rewrite filter_none; [reflexivity|].
    intros [k' v'] Hin. cbn [fst].
    destruct (String.eqb_spec k' "PARTITIONED_BY") as [->|]; trivial.
    elim Hn. now apply (in_map fst) in Hin.
  - now apply IH.
Qed.

Lemma str_get_cons_eq {V : Type} (k : string) (v : V) (d : dict V) :
  str_get k ((k, v) :: d) = Some v.
Proof. cbn [dict_get]. now rewrite String.eqb_refl. Qed.

Lemma str_get_cons_ne {V : Type} (k k' : string) (v : V) (d : dict V) :
  k <> k' -> str_get k ((k', v) :: d) = str_get k d.
Proof.
  intros n. cbn [dict_get]. now destruct (String.eqb_spec k k').
Qed.

Lemma clustered_write_other (k : string) (v : scalar) :
  k <> "PARTITIONED_BY" -> k <> "NUMBER_OF_SHARDS" -> k <> "CLUSTERED_BY" ->
  DDLSpec.clustered_write (k, v) = [].
Proof.
  intros n1 n2 n3.
  unfold DDLSpec.clustered_write, CrateDDLCompiler.clustered_opts_tmpl.
  cbn [fst snd].
  apply String.eqb_neq in n1, n2, n3. now rewrite n1, n2, n3.
Qed.

Lemma clustered_lookup (o : dict scalar) :
  let cw := flat_map DDLSpec.clustered_write o in
  str_get "CLUSTERED_BY" cw
  = option_map (fun v => " BY (" ++ py_str v ++ ")")
               (str_get "CLUSTERED_BY" o)
  /\ str_get "NUMBER_OF_SHARDS" cw
     = option_map (fun v => " INTO " ++ py_str v ++ " SHARDS")
                  (str_get "NUMBER_OF_SHARDS" o)
  /\ (cw = [] <-> str_get "CLUSTERED_BY" o = None
                  /\ str_get "NUMBER_OF_SHARDS" o = None).
Proof.
  cbv zeta. induction o as [|[k v] o IH]; cbn [flat_map].
  - repeat split; trivial.
  - destruct IH as (IH1 & IH2 & IH3).
    destruct (String.eqb_spec k "PARTITIONED_BY") as [->|n1];
      [|destruct (String.eqb_spec k "NUMBER_OF_SHARDS") as [->|n2];
        [|destruct (String.eqb_spec k "CLUSTERED_BY") as [->|n3]]].
    + change (DDLSpec.clustered_write ("PARTITIONED_BY", v))
        with (@nil (string * string)).
      rewrite !(@str_get_cons_ne scalar) by discriminate.
      exact (conj IH1 (conj IH2 IH3)).
    + change (DDLSpec.clustered_write ("NUMBER_OF_SHARDS", v))
        with [("NUMBER_OF_SHARDS", " INTO " ++ py_str v ++ " SHARDS")].
      cbn [app].
      rewrite (@str_get_cons_ne string), (@str_get_cons_ne scalar)
        by discriminate.
      rewrite !str_get_cons_eq.
      split; [exact IH1 | split; [reflexivity|]].
      split; [discriminate | intros [_ H]; discriminate].
    + change (DDLSpec.clustered_write ("CLUSTERED_BY", v))
        with [("CLUSTERED_BY", " BY (" ++ py_str v ++ ")")].
      cbn [app].
      rewrite (@str_get_cons_ne string "NUMBER_OF_SHARDS"),
              (@str_get_cons_ne scalar "NUMBER_OF_SHARDS") by discriminate.
      rewrite !str_get_cons_eq.
      split; [reflexivity | split; [exact IH2|]].
      split; [discriminate | intros [H _]; discriminate].
    + rewrite clustered_write_other by assumption. cbn [app].
      rewrite !(@str_get_cons_ne scalar) by congruence.
      exact (conj IH1 (conj IH2 IH3)).
Qed.

(** ** The order of the options does not matter *)

Lemma string_le_iff (a b : string) :
  DDLSpec.string_le a b <-> a = b \/ String_as_OT.lt a b.
Proof.
  unfold DDLSpec.string_le, String.leb.
  destruct (String.compare a b) eqn:E.
  - apply String_as_OT.cmp_eq in E. tauto.
  - apply String_as_OT.cmp_lt in E. tauto.
  - split; [discriminate|]. intros [->|H].
    + assert (F : String.compare b b = Eq) by now apply String_as_OT.cmp_eq.
      congruence.
    + apply String_as_OT.cmp_lt in H. unfold String_as_OT.cmp in H. congruence.
Qed.

Lemma string_le_trans (a b c : string) :
  DDLSpec.string_le a b -> DDLSpec.string_le b c -> DDLSpec.string_le a c.
Proof.
  rewrite !string_le_iff. intros [->|H1] [->|H2]; auto.
  right. exact (String_as_OT.lt_trans a b c H1 H2).
Qed.

Lemma string_le_antisym (a b : string) :
  DDLSpec.string_le a b -> DDLSpec.string_le b a -> a = b.
Proof. unfold DDLSpec.string_le. apply String.leb_antisym. Qed.

Lemma sorted_strongly (l : list string) :
  StronglySorted DDLSpec.string_le (Py.sorted l).
Proof.
  apply Sorted_StronglySorted; [|apply sorted_sorted].
  intros a b c. apply string_le_trans.
Qed.

(** Two sorted lists with the same items are the same list. *)
Lemma strongly_sorted_unique (l1 l2 : list string) :
  StronglySorted DDLSpec.string_le l1 ->
  StronglySorted DDLSpec.string_le l2 ->
  Permutation l1 l2 -> l1 = l2.
Proof.
  intros S1. revert l2. induction S1 as [|x t1 S1 IH Hx]; intros l2 S2 HP.
  - now apply Permutation_nil in HP.
  - destruct l2 as [|y t2].
    + apply Permutation_sym, Permutation_nil in HP. discriminate.
    + inversion S2 as [|? ? S2' Hy]; subst.
      assert (E : x = y).
      { assert (I1 : In x (y :: t2))
          by (apply (Permutation_in _ HP); now left).
        assert (I2 : In y (x :: t1))
          by (apply (Permutation_in _ (Permutation_sym HP)); now left).
        destruct I1 as [->|I1]; [reflexivity|].
        destruct I2 as [->|I2]; [reflexivity|].
        rewrite Forall_forall in Hx, Hy.
        apply string_le_antisym; [now apply Hx | now apply Hy]. }
      subst y. f_equal. apply IH; [exact S2'|].
      now apply Permutation_cons_inv in HP.
Qed.

Lemma sorted_permutation (l l' : list string) :
  Permutation l l' -> Py.sorted l = Py.sorted l'.
Proof.
  intros HP. apply strongly_sorted_unique; try apply sorted_strongly.
  eapply Permutation_trans; [apply Permutation_sym, sorted_perm|].
  eapply Permutation_trans; [exact HP | apply sorted_perm].
Qed.

Lemma filter_permutation {A : Type} (f : A -> bool) (l l' : list A) :
  Permutation l l' -> Permutation (filter f l) (filter f l').
Proof.
  induction 1 as [|x l l' _ IH|x y l|l l' l'' _ IH1 _ IH2]; cbn [filter].
  - constructor.
  - destruct (f x); [now constructor | exact IH].
  - destruct (f x), (f y); try apply Permutation_refl. apply perm_swap.
  - now apply Permutation_trans with (filter f l').
Qed.

Lemma str_get_permutation {V : Type} (k : string) (o o' : dict V) :
  NoDup (map fst o) -> Permutation o o' -> str_get k o = str_get k o'.
Proof.
  intros ND HP.
  assert (ND' : NoDup (map fst o')).
  { apply (Permutation_NoDup (l := map fst o)); [|exact ND].
    now apply Permutation_map. }
  destruct (str_get k o) as [v|] eqn:E.
  - symmetry. apply (dict_get_in String.eqb_spec); [exact ND'|].
    apply (Permutation_in _ HP).
    now apply (dict_get_some_in String.eqb_spec).
  - symmetry. apply (dict_get_none String.eqb_spec).
    apply (dict_get_none String.eqb_spec) in E. intros Hin. apply E.
    apply (Permutation_in (l := map fst o')); [|exact Hin].
    apply Permutation_sym. now apply Permutation_map.
Qed.

(** When no two keywords give the same option name, the text does not
    depend on the order of [table.kwargs]. *)
Lemma post_create_table_permutation (dialect_name : string)
  (kwargs kwargs' : dict scalar) :
  NoDup (map fst (CrateDDLCompiler.opts_items dialect_name kwargs)) ->
  Permutation kwargs kwargs' ->
  DDLSpec.special_clause (CrateDDLCompiler.opts dialect_name kwargs)
  = DDLSpec.special_clause (CrateDDLCompiler.opts dialect_name kwargs')
  /\ DDLSpec.clustered_clause (CrateDDLCompiler.opts dialect_name kwargs)
     = DDLSpec.clustered_clause (CrateDDLCompiler.opts dialect_name kwargs')
  /\ DDLSpec.with_block (CrateDDLCompiler.opts dialect_name kwargs)
     = DDLSpec.with_block (CrateDDLCompiler.opts dialect_name kwargs').
Proof.
  intros ND HP.
  assert (HPi : Permutation (CrateDDLCompiler.opts_items dialect_name kwargs)
                            (CrateDDLCompiler.opts_items dialect_name kwargs')).
  { unfold CrateDDLCompiler.opts_items.
    apply Permutation_map. now apply filter_permutation. }
  assert (ND' : NoDup (map fst (CrateDDLCompiler.opts_items dialect_name
                                  kwargs'))).
  { apply (Permutation_NoDup
             (l := map fst (CrateDDLCompiler.opts_items dialect_name kwargs)));
      [|exact ND].
    now apply Permutation_map. }
  unfold CrateDDLCompiler.opts.
  rewrite !(dict_of_nodup String.eqb_spec) by assumption.
  set (o := CrateDDLCompiler.opts_items dialect_name kwargs) in *.
  set (o' := CrateDDLCompiler.opts_items dialect_name kwargs') in *.
  split; [|split].
  - unfold DDLSpec.special_clause.
    now rewrite (str_get_permutation "PARTITIONED_BY" ND HPi).
  - unfold DDLSpec.clustered_clause.
    now rewrite (str_get_permutation "CLUSTERED_BY" ND HPi),
                (str_get_permutation "NUMBER_OF_SHARDS" ND HPi).
  - assert (HPg : Permutation (DDLSpec.generic_entries o)
                              (DDLSpec.generic_entries o')).
    { unfold DDLSpec.generic_entries.
      apply Permutation_map. now apply filter_permutation. }
    unfold DDLSpec.with_block.
    rewrite (sorted_permutation HPg).
    destruct (DDLSpec.generic_entries o) as [|g gs] eqn:Eg.
    + apply Permutation_nil in HPg. now rewrite HPg.
    + destruct (DDLSpec.generic_entries o') as [|g' gs'] eqn:Eg';
        [|reflexivity].
      apply Permutation_sym, Permutation_nil in HPg. discriminate.
Qed.

(** C7, as amended.  The text of [post_create_table] is the partition
    clause, then the one clustered clause with its two optional parts,
    then the [WITH] block, each left out when its options are absent; the
    entries of the [WITH] block are those of the remaining options, sorted
    as strings, so that the text is the same for every order of the
    keywords (no two of which give the same option name).  The option
    names are the uppercased remainders of the
    keywords, and that is how the [WITH] block prints them: for the
    options of the specification's example the text ends in
    [WITH (REFRESH_INTERVAL = 500)]. *)
Theorem post_create_table_clauses :
  (forall (dialect_name : string) (kwargs : dict scalar),
     let o := CrateDDLCompiler.opts dialect_name kwargs in
     CrateDDLCompiler.post_create_table dialect_name kwargs
     = DDLSpec.special_clause o ++ DDLSpec.clustered_clause o
                                ++ DDLSpec.with_block o
     /\ Sorted DDLSpec.string_le (Py.sorted (DDLSpec.generic_entries o))
     /\ Permutation (DDLSpec.generic_entries o)
                    (Py.sorted (DDLSpec.generic_entries o)))
  /\ (forall (dialect_name : string) (kwargs kwargs' : dict scalar),
        NoDup (map fst (CrateDDLCompiler.opts_items dialect_name kwargs)) ->
        Permutation kwargs kwargs' ->
        CrateDDLCompiler.post_create_table dialect_name kwargs
        = CrateDDLCompiler.post_create_table dialect_name kwargs')
  /\ CrateDDLCompiler.opts "crate"
       [("crate_partitioned_by", SStr "region");
        ("crate_number_of_shards", SInt 4);
        ("crate_clustered_by", SStr "id");
        ("crate_refresh_interval", SInt 500)]
     = [("PARTITIONED_BY", SStr "region"); ("NUMBER_OF_SHARDS", SInt 4);
        ("CLUSTERED_BY", SStr "id"); ("REFRESH_INTERVAL", SInt 500)]
  /\ CrateDDLCompiler.post_create_table "crate"
       [("crate_partitioned_by", SStr "region");
        ("crate_number_of_shards", SInt 4);
        ("crate_clustered_by", SStr "id");
        ("crate_refresh_interval", SInt 500)]
     = " PARTITIONED BY (region) CLUSTERED BY (id) INTO 4 SHARDS WITH (REFRESH_INTERVAL = 500)".
Proof.
  assert (G : forall (dialect_name : string) (kwargs : dict scalar),
     let o := CrateDDLCompiler.opts dialect_name kwargs in
     CrateDDLCompiler.post_create_table dialect_name kwargs
     = DDLSpec.special_clause o ++ DDLSpec.clustered_clause o
                                ++ DDLSpec.with_block o
     /\ Sorted DDLSpec.string_le (Py.sorted (DDLSpec.generic_entries o))
     /\ Permutation (DDLSpec.generic_entries o)
                    (Py.sorted (DDLSpec.generic_entries o))).
  2:{ split; [exact G|]. split; [|split; reflexivity].
      intros dialect_name kwargs kwargs' ND HP.
      destruct (G dialect_name kwargs) as [-> _].
      destruct (G dialect_name kwargs') as [-> _].
      destruct (post_create_table_permutation dialect_name ND HP)
        as (-> & -> & ->).
      reflexivity. }
  intros dialect_name kwargs o.
  split; [|split; [apply sorted_sorted | apply sorted_perm]].
  assert (ND : NoDup (map fst o)).
  { apply (dict_of_keys_nodup String.eqb_spec). }
  unfold CrateDDLCompiler.post_create_table, CrateDDLCompiler.scan.
  fold o. rewrite scan_from.
  cbn [CrateDDLCompiler.special_options CrateDDLCompiler.clustered_options
       CrateDDLCompiler.table_opts app append].
  rewrite special_lookup by exact ND.
  pose proof (clustered_writes_keys o ND) as NDc.
  destruct (clustered_lookup o) as (C1 & C2 & C3).
  change (fold_left (fun d kv => str_set (fst kv) (snd kv) d) ?l [])
    with (str_of l).
  rewrite (dict_of_nodup String.eqb_spec) by exact NDc.
  set (cw := flat_map DDLSpec.clustered_write o) in *.
  assert (Ecl :
    match cw with
    | [] => DDLSpec.special_clause o
    | _ :: _ => DDLSpec.special_clause o
                ++ CrateDDLCompiler.clustered_opt_tmpl cw
    end = DDLSpec.special_clause o ++ DDLSpec.clustered_clause o).
  { unfold DDLSpec.clustered_clause, CrateDDLCompiler.clustered_opt_tmpl,
           CrateDDLCompiler.default_get.
    destruct cw as [|e cw'] eqn:Ecw.
    - destruct (proj1 C3 eq_refl) as [-> ->]. now rewrite append_nil_r.
    - rewrite C1, C2.
      destruct (str_get "CLUSTERED_BY" o) eqn:G1,
               (str_get "NUMBER_OF_SHARDS" o) eqn:G2;
        cbn [option_map]; trivial.
      assert (F : e :: cw' = []) by (apply C3; now split). discriminate. }
  rewrite Ecl. unfold DDLSpec.with_block.
  destruct (DDLSpec.generic_entries o) as [|g gs].
  - now rewrite append_nil_r.
  - now rewrite append_assoc.
Qed.

(* ================================================================== *)
(** * CrateCompiler *)

(** ** The monad *)

Section MonadFacts.
Variable S : Type.

Lemma bind_inv {A B : Type} (m : M S A) (k : A -> M S B) (s s' : S) (b : B) :
  bind m k s = Return (b, s') ->
  exists a s1, m s = Return (a, s1) /\ k a s1 = Return (b, s').
Proof.
  unfold bind. destruct (m s) as [[a s1]|e]; [|discriminate].
  intros H. now exists a, s1.
Qed.

Lemma bind_raise_inv {A B : Type} (m : M S A) (k : A -> M S B) (s : S)
  (e : exn) :
  bind m k s = Raise e ->
  m s = Raise e \/ exists a s1, m s = Return (a, s1) /\ k a s1 = Raise e.
Proof.
  unfold bind. destruct (m s) as [[a s1]|e']; intros H.
  - right. now exists a, s1.
  - left. now injection H as ->.
Qed.

Lemma ret_inv {A : Type} (a b : A) (s s' : S) :
  ret a s = Return (b, s') -> a = b /\ s = s'.
Proof. unfold ret. intros [= -> ->]. now split. Qed.

Lemma mapM_inv {A B : Type} (f : A -> M S B) (l : list A) (bs : list B)
  (s s' : S) :
  mapM f l s = Return (bs, s') ->
  Forall2 (fun a b => exists s1 s2, f a s1 = Return (b, s2)) l bs.
Proof.
  revert bs s s'. induction l as [|a l IH]; intros bs s s' H; cbn [mapM] in H.
  - apply ret_inv in H as [<- _]. constructor.
  - apply bind_inv in H as (b & s1 & Hb & H).
    apply bind_inv in H as (bs' & s2 & Hbs & H).
    apply ret_inv in H as [<- _].
    constructor; [now exists s, s1 | now apply (IH bs' s1 s2)].
Qed.

Lemma mapM_raise_inv {A B : Type} (f : A -> M S B) (l : list A) (s : S)
  (e : exn) :
  mapM f l s = Raise e -> exists a s1, f a s1 = Raise e.
Proof.
  revert s. induction l as [|a l IH]; intros s H; cbn [mapM] in H.
  - discriminate.
  - apply bind_raise_inv in H as [H|(b & s1 & _ & H)]; [now exists a, s|].
    apply bind_raise_inv in H as [H|(bs & s2 & _ & H)];
      [now apply (IH s1) | discriminate].
Qed.

End MonadFacts.

(** ** Texts that grow at their end *)

Lemma extends_refl (t : string) : extends t t.
Proof. exists "". now rewrite append_nil_r. Qed.

Lemma extends_append (base t x : string) :
  extends base t -> extends base (t ++ x).
Proof.
  intros [tail ->]. exists (tail ++ x). apply append_assoc.
Qed.

Lemma extends_trans (a b c : string) : extends a b -> extends b c -> extends a c.
Proof.
  intros [x ->] [y ->]. exists (x ++ y). apply append_assoc.
Qed.

Lemma path_items_spec {Column : Type} (d : list (PKey Column * value))
  (k : string) (v : value) :
  In (k, v) (path_items d)
  <-> In (KStr k, v) d /\ Py.contains_char "["%char k = true.
Proof.
  unfold path_items. rewrite in_flat_map. split.
  - intros [[k' v'] [Hin Hw]]. cbn [fst snd] in Hw.
    destruct k' as [s|c]; [|now elim Hw].
    destruct (Py.contains_char "["%char s) eqn:E; [|now elim Hw].
    destruct Hw as [[= -> ->]|[]]. now split.
  - intros [Hin E]. exists (KStr k, v). split; [exact Hin|].
    cbn [fst snd]. rewrite E. now left.
Qed.

(** ** The SET clause *)

Ltac step H x c Hx :=
  apply bind_inv in H as (x & c & Hx & H); cbv beta zeta in H.

(** Takes a run of monadic code that returned apart, case by case. *)
Ltac crunch H :=
  repeat first
    [ apply ret_inv in H as [? ?]; subst
    | match type of H with
      | bind _ _ _ = Return _ =>
          let x := fresh "x" in
          let s := fresh "s" in
          let Hx := fresh "Hx" in
          apply bind_inv in H as (x & s & Hx & H); cbv beta zeta in H
      | (if ?b then _ else _) _ = Return _ => destruct b
      | (match ?o with _ => _ end) _ = Return _ => destruct o
      | raise _ _ = Return _ => discriminate H
      end ].

Ltac grows :=
  repeat match goal with
         | |- context [match ?x with _ => _ end] => destruct x
         end;
  repeat first [ apply extends_refl | apply extends_append ].

Section Update.
Variables Table Column Clause ColKey Internals : Type.
Variable sa : SA.t Table Column Clause ColKey Internals.
Variable self : Settings.t.

Local Abbreviation stmt := (Stmt.t Table Column Clause).
Local Abbreviation compiler := (Compiler.t Table Column Clause ColKey Internals).

Lemma column_clauses_inv (include_table : bool)
  (rows : list (Column * string)) (clauses : list string) (c c' : compiler) :
  mapM (fun kv : Column * string =>
          bind (SA._compiler_dispatch sa (fst kv) include_table)
               (fun k => ret (k ++ " = " ++ snd kv)))
       rows c = Return (clauses, c') ->
  Forall2 (column_clause sa include_table) rows clauses.
Proof.
  intros H. apply mapM_inv in H. revert H. apply Forall2_impl.
  intros e clause (s1 & s2 & H). apply bind_inv in H as (k & s3 & Hk & H).
  apply ret_inv in H as [<- _]. now exists k, s1, s3.
Qed.

Lemma path_clauses_inv (items : list (string * value))
  (clauses : list string) (c c' : compiler) :
  mapM (path_clause sa) items c = Return (clauses, c') ->
  Forall2 (path_assignment sa) items clauses.
Proof.
  intros H. apply mapM_inv in H. revert H. apply Forall2_impl.
  intros kv clause (s1 & s2 & H). unfold path_clause in H.
  apply bind_inv in H as (b & s3 & Hb & H).
  apply ret_inv in H as [<- _]. now exists b, s1, s3.
Qed.

(** The SET clause of the custom path of [visit_update] *)
Lemma visit_update_custom_set (update_stmt : stmt) (c c' : compiler)
  (text : string) :
  visit_update_custom sa self update_stmt c = Return (text, c') ->
  exists (crud : list (Column * string)) (items : list (PKey Column * value))
         (a b : list string) (head tail : string) (c1 c2 : compiler),
    _get_crud_params sa self update_stmt c1 = Return (Row crud, c2)
    /\ Stmt.parameters update_stmt = PDict items
    /\ Forall2 (column_clause sa
                  (nonempty (Stmt._extra_froms update_stmt)
                   && Settings.render_table_with_column_in_update_from self))
               crud a
    /\ Forall2 (path_assignment sa) (path_items items) b
    /\ text = head ++ " SET " ++ Py.join ", " (app a b) ++ tail.
Proof.
  intros H. unfold visit_update_custom in H.
  step H u0 c0 H0. step H text1 c1 H1. step H table_text c2 H2.
  step H hp c3 H3. destruct hp as [dialect_hints table_text'].
  step H crud_params c4 H4. step H crud_rows c5 H5.
  step H set_a c6 H6. step H items c7 H7. step H set_b c8 H8.
  step H c9 c9' H9. step H text2 c10 H10.
  step H text3 c11 H11. step H text4 c12 H12.
  step H limit c13 H13. step H c14 c14' H14.
  set (base := ((text1 ++ table_text') ++ " SET ")
               ++ Py.join ", " (app set_a set_b)) in *.
  assert (E10 : extends base text2) by (clear - H10; crunch H10; grows).
  assert (E11 : extends text2 text3) by (clear - H11; crunch H11; grows).
  assert (E12 : extends text3 text4) by (clear - H12; crunch H12; grows).
  assert (E : extends text4 text) by (clear - H; crunch H; grows).
  destruct (extends_trans E10 (extends_trans E11 (extends_trans E12 E)))
    as [tail ->].
  destruct crud_params as [row|rows]; [|discriminate H5].
  apply ret_inv in H5 as [<- <-].
  destruct (Stmt.parameters update_stmt) as [|d|l] eqn:EP;
    try discriminate H7.
  apply ret_inv in H7 as [<- <-].
  exists row, d, set_a, set_b, (text1 ++ table_text'), tail, c3, c4.
  repeat split; trivial.
  - now apply column_clauses_inv in H6.
  - now apply path_clauses_inv in H8.
  - unfold base. now rewrite !append_assoc.
Qed.

Lemma column_clauses_14_inv (include_table : bool)
  (rows : list (Column * string * string)) (clauses : list string)
  (c c' : compiler) :
  mapM (fun cev : Column * string * string =>
          bind (SA._compiler_dispatch sa (fst (fst cev)) include_table)
               (fun key => ret (key ++ " = " ++ snd cev)))
       rows c = Return (clauses, c') ->
  Forall2 (column_clause sa include_table)
          (map (fun cev => (fst (fst cev), snd cev)) rows) clauses.
Proof.
  intros H. apply mapM_inv in H.
  induction H as [|cev clause rows clauses (s1 & s2 & H) _ IH];
    cbn [map]; constructor; [|exact IH].
  apply bind_inv in H as (k & s3 & Hk & H).
  apply ret_inv in H as [<- _]. now exists k, s1, s3.
Qed.



(** C5, as amended.  When the first item of [multiparams] is not empty,
    the statement [rewrite_update] returns has the marker
    [_crate_specific]; when it is empty, [rewrite_update] returns the
    statement it was given, as it is, marker or not.  Before SQLAlchemy
    1.4, [visit_update] takes the custom path exactly when the parameters
    of the statement are a non-empty collection or the statement has the
    marker, and is [SQLCompiler.visit_update] of the statement
    otherwise. *)
Theorem crate_specific_marker (clauseelement : stmt)
  (rest : list (list (dict value))) (params : dict value) :
  (forall (clause : stmt) (_params : dict value)
          (_multiparams : list (dict value)),
     SA.values sa clauseelement (rewrite_params _params) = Return clause ->
     exists clause' newmultiparams,
       rewrite_update sa clauseelement ((_params :: _multiparams) :: rest)
                      params
       = Return (clause', [newmultiparams], params)
       /\ Stmt.has_crate_specific clause' = true)
  /\ rewrite_update sa clauseelement ([] :: rest) params
     = Return (clauseelement, [] :: rest, params)
  /\ (Settings.SA_VERSION_ge_SA_1_4 self = false ->
      visit_update sa self clauseelement
      = if parameters_nonempty (Stmt.parameters clauseelement)
           || Stmt.has_crate_specific clauseelement
        then visit_update_custom sa self clauseelement
        else SA.base_visit_update sa clauseelement).
Proof.
  split; [|split].
  - intros clause _params _multiparams Hv.
    exists (Stmt.set_crate_specific clause),
           (map rewrite_params (_params :: _multiparams)).
    split; [now apply rewrite_update_returns | reflexivity].
  - reflexivity.
  - intros E. unfold visit_update. rewrite E.
    destruct (parameters_nonempty (Stmt.parameters clauseelement)),
             (Stmt.has_crate_specific clauseelement); reflexivity.
Qed.

End Update.

(** ** visit_insert *)

Section Insert.
Variables Table Column Clause ColKey Internals : Type.
Variable sa : SA.t Table Column Clause ColKey Internals.
Variable self : Settings.t.

Local Abbreviation stmt := (Stmt.t Table Column Clause).
Local Abbreviation compiler := (Compiler.t Table Column Clause ColKey Internals).

Lemma returning_clause_inv (s : stmt) (cols : list Column) (c c' : compiler)
  (rc : string) :
  returning_clause sa s cols c = Return (rc, c') ->
  exists columns, rc = "RETURNING " ++ Py.join ", " columns.
Proof.
  unfold returning_clause. intros H.
  apply bind_inv in H as (columns & c1 & _ & H).
  apply ret_inv in H as [<- _]. now exists columns.
Qed.

(** At or above the threshold [visit_insert] is the inherited method. *)
Lemma visit_insert_delegates (insert_stmt : stmt) :
  tuple_ge (Dialect.server_version_info (Settings.dialect self))
           INSERT_SELECT_WITHOUT_PARENTHESES_MIN_VERSION = true ->
  visit_insert sa self insert_stmt = SA.base_visit_insert sa insert_stmt.
Proof. intros E. unfold visit_insert. cbv zeta. now rewrite E. Qed.

(** Below the threshold, from SQLAlchemy 1.4 on, it raises. *)
Lemma visit_insert_deprecated (insert_stmt : stmt) (c : compiler) :
  tuple_ge (Dialect.server_version_info (Settings.dialect self))
           INSERT_SELECT_WITHOUT_PARENTHESES_MIN_VERSION = false ->
  Settings.SA_VERSION_ge_SA_1_4 self = true ->
  visit_insert sa self insert_stmt c
  = Raise (DeprecationWarning
             "CrateDB version < (1, 0, 1) not supported with SQLAlchemy 1.4").
Proof. intros E E14. unfold visit_insert. cbv zeta. now rewrite E, E14. Qed.

(** The text of the custom path, piece by piece: [head] up to the table,
    the column list [cols], the RETURNING clause [mid] when it precedes
    the values, the [body], the RETURNING clause [tail] when it follows. *)
Lemma visit_insert_custom_inv (insert_stmt : stmt) (c c' : compiler)
  (text : string) :
  tuple_ge (Dialect.server_version_info (Settings.dialect self))
           INSERT_SELECT_WITHOUT_PARENTHESES_MIN_VERSION = false ->
  Settings.SA_VERSION_ge_SA_1_4 self = false ->
  visit_insert sa self insert_stmt c = Return (text, c') ->
  exists (crud_params : Values (Column * string))
         (crud_params_single : list (Column * string))
         (head mid body tail : string) (c1 c2 c3 c4 c5 : compiler),
    SA.crud_get_crud_params sa insert_stmt c1 = Return (crud_params, c2)
    /\ (if Stmt._has_multi_parameters insert_stmt
        then Dialect.supports_multivalues_insert (Settings.dialect self) = true
             /\ first_row crud_params c2 = Return (crud_params_single, c3)
        else one_row crud_params c2 = Return (crud_params_single, c3))
    /\ extends "INSERT " head
    /\ (mid = "" \/ exists columns,
                      mid = " RETURNING " ++ Py.join ", " columns)
    /\ (tail = "" \/ exists columns,
                       tail = " RETURNING " ++ Py.join ", " columns)
    /\ text
       = head
         ++ (if nonempty crud_params_single
                || negb (Dialect.supports_default_values
                           (Settings.dialect self))
             then " (" ++ Py.join ", "
                            (map (fun e => SA.format_column sa (fst e))
                                 crud_params_single) ++ ")"
             else "")
         ++ mid ++ body ++ tail
    /\ match Stmt.select insert_stmt with
       | Some _ =>
           exists sel text_,
             Compiler._insert_from_select c4 = Some sel
             /\ SA.process sa sel c4 = Return (text_, c5)
             /\ body = " (" ++ text_ ++ ")"
       | None =>
           if negb (values_nonempty crud_params)
              && Dialect.supports_default_values (Settings.dialect self)
           then body = " DEFAULT VALUES"
           else if Stmt._has_multi_parameters insert_stmt
           then exists rows,
                  crud_params = Rows rows
                  /\ body = " VALUES "
                            ++ Py.join ", "
                                 (map (fun crud_param_set =>
                                         "(" ++ Py.join ", "
                                                  (map snd crud_param_set)
                                             ++ ")") rows)
           else exists row,
                  crud_params = Row row
                  /\ body = " VALUES (" ++ Py.join ", " (map snd row) ++ ")"
       end.
Proof.
  intros Ev E14 H. unfold visit_insert in H. cbv zeta in H.
  rewrite Ev, E14 in H.
  step H u0 c0 H0. step H u1 c1 H1. step H crud_params c2 H2.
  match type of H with (if ?b then _ else _) _ = _ => destruct b eqn:Eempty end;
    [discriminate H|].
  step H crud_params_single c3 H3. step H text1 c4 H4.
  step H c5 c5' H5. step H tr c6 H6. destruct tr as [text2 returning_clause_].
  step H text3 c7 H7. step H c8 c8' H8. step H text4 c9 H9.
  step H u2 c10 H10. apply ret_inv in H as [<- _].
  set (table_text := if nonempty (Stmt._hints insert_stmt) then _ else _) in *.
  set (cols := Py.join ", " (map _ crud_params_single)) in *.
  set (sdv := Dialect.supports_default_values (Settings.dialect self)) in *.
  pose (head := (text1 ++ "INTO ") ++ table_text).
  pose (colstext := if nonempty crud_params_single || negb sdv
                    then " (" ++ cols ++ ")" else "").
  assert (Ecols : (if nonempty crud_params_single || negb sdv
                   then head ++ " (" ++ cols ++ ")" else head)
                  = head ++ colstext).
  { unfold colstext. destruct (nonempty crud_params_single || negb sdv);
      [reflexivity | now rewrite append_nil_r]. }
  fold head in H6. rewrite Ecols in H6.
  (* the RETURNING clause before the values *)
  assert (E6 : exists mid,
             text2 = (head ++ colstext) ++ mid
             /\ (mid = "" \/ exists columns,
                    mid = " RETURNING " ++ Py.join ", " columns)
             /\ (returning_clause_ = None
                 \/ exists columns,
                      returning_clause_
                      = Some ("RETURNING " ++ Py.join ", " columns))).
  { clear - H6.
    destruct (nonempty (Compiler.returning c5)
              || nonempty (Stmt._returning insert_stmt)).
    - apply bind_inv in H6 as (u & s1 & _ & H6).
      apply bind_inv in H6 as (rc & s2 & Hrc & H6).
      apply returning_clause_inv in Hrc as [columns ->].
      apply ret_inv in H6 as [H6 _]. injection H6 as <- <-.
      destruct (Settings.returning_precedes_values self).
      + exists (" RETURNING " ++ Py.join ", " columns).
        split; [reflexivity|]. split; right; now exists columns.
      + exists "". rewrite append_nil_r.
        split; [reflexivity|]. split; [now left | right; now exists columns].
    - apply ret_inv in H6 as [H6 _]. injection H6 as <- <-.
      exists "". rewrite append_nil_r. split; [reflexivity|].
      split; now left. }
  destruct E6 as (mid & -> & Hmid & Hrc).
  (* the RETURNING clause after the values *)
  assert (E9 : exists tail,
             text4 = text3 ++ tail
             /\ (tail = "" \/ exists columns,
                    tail = " RETURNING " ++ Py.join ", " columns)).
  { clear - H9 Hrc.
    destruct (nonempty (Compiler.returning c8)
              && negb (Settings.returning_precedes_values self)).
    - destruct Hrc as [-> | [columns ->]]; [discriminate H9|].
      apply ret_inv in H9 as [<- _].
      exists (" RETURNING " ++ Py.join ", " columns).
      split; [reflexivity | right; now exists columns].
    - apply ret_inv in H9 as [<- _]. exists "".
      split; [now rewrite append_nil_r | now left]. }
  destruct E9 as (tail & -> & Htail).
  (* the body *)
  assert (E7 : exists body c4' c5',
             text3 = ((head ++ colstext) ++ mid) ++ body
             /\ match Stmt.select insert_stmt with
                | Some _ =>
                    exists sel text_,
                      Compiler._insert_from_select c4' = Some sel
                      /\ SA.process sa sel c4' = Return (text_, c5')
                      /\ body = " (" ++ text_ ++ ")"
                | None =>
                    if negb (values_nonempty crud_params) && sdv
                    then body = " DEFAULT VALUES"
                    else if Stmt._has_multi_parameters insert_stmt
                    then exists rows,
                           crud_params = Rows rows
                           /\ body = " VALUES "
                                ++ Py.join ", "
                                     (map (fun crud_param_set =>
                                             "(" ++ Py.join ", "
                                                      (map snd crud_param_set)
                                                 ++ ")") rows)
                    else exists row,
                           crud_params = Row row
                           /\ body = " VALUES ("
                                     ++ Py.join ", " (map snd row) ++ ")"
                end).
  { clear - H7. destruct (Stmt.select insert_stmt) as [sel0|].
    - apply bind_inv in H7 as (cc & s1 & Hget & H7).
      apply ret_inv in Hget as [<- <-].
      destruct (Compiler._insert_from_select c6) as [sel|] eqn:Esel;
        [|discriminate H7].
      apply bind_inv in H7 as (text_ & s2 & Hp & H7).
      apply ret_inv in H7 as [<- _].
      exists (" (" ++ text_ ++ ")"), c6, s2.
      split; [reflexivity|]. now exists sel, text_.
    - destruct (negb (values_nonempty crud_params) && sdv).
      + apply ret_inv in H7 as [<- _].
        now exists " DEFAULT VALUES", c6, c6.
      + destruct (Stmt._has_multi_parameters insert_stmt).
        * apply bind_inv in H7 as (rows & s1 & Hr & H7).
          apply ret_inv in H7 as [<- _].
          destruct crud_params as [row|rows']; [discriminate Hr|].
          apply ret_inv in Hr as [<- _].
          eexists _, c6, c6. split; [reflexivity|]. now exists rows'.
        * apply bind_inv in H7 as (row & s1 & Hr & H7).
          apply ret_inv in H7 as [<- _].
          destruct crud_params as [row'|rows]; [|discriminate Hr].
          apply ret_inv in Hr as [<- _].
          eexists _, c6, c6. split; [reflexivity|]. now exists row'. }
  destruct E7 as (body & c4' & c5'' & -> & Hbody).
  exists crud_params, crud_params_single, head, mid, body, tail.
  exists c1, c2, c3, c4', c5''.
  split; [exact H2|].
  split.
  { destruct (Stmt._has_multi_parameters insert_stmt); [|exact H3].
    destruct (Dialect.supports_multivalues_insert (Settings.dialect self));
      [now split | discriminate H3]. }
  split.
  { unfold head. clear - H4. crunch H4; grows. }
  split; [exact Hmid|]. split; [exact Htail|].
  split; [now rewrite !append_assoc | exact Hbody].
Qed.

(** C4, as amended.  For an INSERT from a SELECT: at or above the
    threshold (1, 0, 1), [visit_insert] is the inherited [visit_insert],
    which renders the statement; below the threshold, from SQLAlchemy 1.4
    on, [visit_insert] raises [DeprecationWarning] and returns no text;
    below the threshold and before SQLAlchemy 1.4, the text that is
    returned starts with [INSERT ] and has the rendered SELECT between
    parentheses, followed by nothing or by the RETURNING clause. *)
Theorem insert_from_select_parentheses (insert_stmt : stmt) (sel0 : Clause)
  (c : compiler) :
  Stmt.select insert_stmt = Some sel0 ->
  (tuple_ge (Dialect.server_version_info (Settings.dialect self))
            INSERT_SELECT_WITHOUT_PARENTHESES_MIN_VERSION = true ->
   visit_insert sa self insert_stmt c = SA.base_visit_insert sa insert_stmt c)
  /\ (tuple_ge (Dialect.server_version_info (Settings.dialect self))
               INSERT_SELECT_WITHOUT_PARENTHESES_MIN_VERSION = false ->
      Settings.SA_VERSION_ge_SA_1_4 self = true ->
      visit_insert sa self insert_stmt c
      = Raise (DeprecationWarning
          "CrateDB version < (1, 0, 1) not supported with SQLAlchemy 1.4"))
  /\ (tuple_ge (Dialect.server_version_info (Settings.dialect self))
               INSERT_SELECT_WITHOUT_PARENTHESES_MIN_VERSION = false ->
      Settings.SA_VERSION_ge_SA_1_4 self = false ->
      forall text c',
        visit_insert sa self insert_stmt c = Return (text, c') ->
        exists (head body tail : string) (sel : Clause) (c1 c2 : compiler),
          Compiler._insert_from_select c1 = Some sel
          /\ SA.process sa sel c1 = Return (body, c2)
          /\ extends "INSERT " head
          /\ (tail = "" \/ exists columns,
                              tail = " RETURNING " ++ Py.join ", " columns)
          /\ text = head ++ " (" ++ body ++ ")" ++ tail).
Proof.
  intros Hsel. split; [|split].
  - intros E. now rewrite visit_insert_delegates.
  - intros E E14. now apply visit_insert_deprecated.
  - intros E E14 text c' H.
    apply visit_insert_custom_inv in H
      as (crud_params & single & head & mid & body & tail & c1 & c2 & c3 & c4
          & c5 & _ & _ & Hhead & _ & Htail & -> & Hbody); trivial.
    rewrite Hsel in Hbody. destruct Hbody as (sel & text_ & Hs & Hp & ->).
    set (cols := if nonempty single || _ then _ else "").
    exists (head ++ cols ++ mid), text_, tail, sel, c4, c5.
    split; [exact Hs|]. split; [exact Hp|].
    split; [|split; [exact Htail|]].
    + apply extends_trans with (b := head); [exact Hhead|].
      now exists (cols ++ mid).
    + now rewrite !append_assoc.
Qed.

(** C6, as amended.  A multi-row INSERT of the parameter rows
    [parameters], compiled by the custom path (server below the threshold,
    SQLAlchemy before 1.4), returns a text only when the dialect supports
    multivalues inserts.  Let [crud._get_crud_params] of SQLAlchemy
    resolve the parameter rows, in their order, to one row of entries
    each, every row over the columns [columns] (which is what its
    [_extend_values_for_multiparams] does, with the columns of the first
    row); [resolves] is whatever else relates a parameter row to its row
    of entries.  Then there is at least one parameter row, and the text
    has the column list of [columns], followed by [VALUES] and exactly
    one tuple for every parameter row, in the order of the parameter
    rows, joined by [", "]: the tuple of a parameter row is the bind
    texts of the row that resolves it, as many as there are columns,
    joined by [", "], between parentheses. *)
Theorem multirow_insert_values (insert_stmt : stmt)
  (parameters : list (list (PKey Column * value))) (columns : list Column)
  (resolves : list (PKey Column * value) -> list (Column * string) -> Prop)
  (c c' : compiler) (text : string) :
  tuple_ge (Dialect.server_version_info (Settings.dialect self))
           INSERT_SELECT_WITHOUT_PARENTHESES_MIN_VERSION = false ->
  Settings.SA_VERSION_ge_SA_1_4 self = false ->
  Stmt._has_multi_parameters insert_stmt = true ->
  Stmt.select insert_stmt = None ->
  Stmt.parameters insert_stmt = PList parameters ->
  (forall (c1 c2 : compiler) (crud_params : Values (Column * string)),
     SA.crud_get_crud_params sa insert_stmt c1 = Return (crud_params, c2) ->
     exists rows,
       crud_params = Rows rows
       /\ Forall2 (fun row_parameters row =>
                     map fst row = columns /\ resolves row_parameters row)
                  parameters rows) ->
  visit_insert sa self insert_stmt c = Return (text, c') ->
  Dialect.supports_multivalues_insert (Settings.dialect self) = true
  /\ parameters <> []
  /\ exists (rows : list (list (Column * string)))
            (tuples : list string) (head mid tail : string)
            (c1 c2 : compiler),
       SA.crud_get_crud_params sa insert_stmt c1 = Return (Rows rows, c2)
       /\ List.length tuples = List.length parameters
       /\ Forall2 (fun row_parameters tuple =>
                     exists row,
                       In row rows
                       /\ resolves row_parameters row
                       /\ map fst row = columns
                       /\ List.length (map snd row) = List.length columns
                       /\ tuple = "(" ++ Py.join ", " (map snd row) ++ ")")
                  parameters tuples
       /\ Forall2 (fun row tuple =>
                     tuple = "(" ++ Py.join ", " (map snd row) ++ ")")
                  rows tuples
       /\ extends "INSERT " head
       /\ (mid = "" \/ exists returning,
                         mid = " RETURNING " ++ Py.join ", " returning)
       /\ (tail = "" \/ exists returning,
                          tail = " RETURNING " ++ Py.join ", " returning)
       /\ text
          = head
            ++ (if nonempty columns
                   || negb (Dialect.supports_default_values
                              (Settings.dialect self))
                then " (" ++ Py.join ", "
                               (map (SA.format_column sa) columns) ++ ")"
                else "")
            ++ mid ++ " VALUES " ++ Py.join ", " tuples ++ tail.
Proof.
  intros E E14 Hmulti Hsel Hparameters Hresolve H.
  apply visit_insert_custom_inv in H
    as (crud_params & single & head & mid & body & tail & c1 & c2 & c3 & c4
        & c5 & Hcrud & Hrow & Hhead & Hmid & Htail & -> & Hbody); trivial.
  rewrite Hmulti in Hrow. destruct Hrow as [Hsup Hrow].
  split; [exact Hsup|].
  rewrite Hsel, Hmulti in Hbody.
  destruct (Hresolve _ _ _ Hcrud) as (rows & -> & Hrows).
  destruct rows as [|row0 rows]; [discriminate Hrow|].
  apply ret_inv in Hrow as [<- _].
  cbn [values_nonempty nonempty negb andb] in Hbody.
  destruct Hbody as (rows' & [= <-] & ->).
  split; [intros F; rewrite F in Hrows; inversion Hrows|].
  set (tuple_of := fun r : list (Column * string) =>
                     "(" ++ Py.join ", " (map snd r) ++ ")").
  exists (row0 :: rows), (map tuple_of (row0 :: rows)),
    head, mid, tail, c1, c2.
  assert (Hcols : map fst row0 = columns).
  { inversion Hrows as [|p r ps rs Hpr _]; subst. exact (proj1 Hpr). }
  split; [exact Hcrud|]. split.
  { rewrite length_map. symmetry. exact (Forall2_length Hrows). }
  split.
  { clear - Hrows. remember (row0 :: rows) as all eqn:Eall. clear Eall.
    assert (G : forall l, (forall r, In r l -> In r all) ->
                          Forall2 (fun row_parameters row =>
                                     map fst row = columns
                                     /\ resolves row_parameters row)
                                  parameters l ->
                          Forall2 (fun row_parameters tuple =>
                             exists row,
                               In row all
                               /\ resolves row_parameters row
                               /\ map fst row = columns
                               /\ List.length (map snd row)
                                  = List.length columns
                               /\ tuple = tuple_of row)
                            parameters (map tuple_of l)).
    { clear. intros l Hin F. induction F as [|p r ps rs [Hc Hr] _ IH];
        cbn [map]; constructor.
      - exists r. split; [apply Hin; now left|]. split; [exact Hr|].
        split; [exact Hc|]. split; [|reflexivity].
        now rewrite <- Hc, !length_map.
      - apply IH. intros r' Hr'. apply Hin. now right. }
    apply G; [trivial | exact Hrows]. }
  split.
  { generalize (row0 :: rows). intros l.
    induction l as [|r l IH]; cbn [map]; constructor; trivial. }
  split; [exact Hhead|]. split; [exact Hmid|]. split; [exact Htail|].
  rewrite <- Hcols, map_map.
  assert (En : nonempty (map fst row0) = nonempty row0) by now destruct row0.
  rewrite En. unfold tuple_of. now rewrite !append_assoc.
Qed.

(** ** The resolvers of crud parameters *)

Ltac raise_cases :=
  repeat match goal with
    | H : bind _ _ _ = Raise _ |- _ =>
        apply bind_raise_inv in H as [H | (? & ? & ? & H)];
        cbv beta zeta in H
    | H : mapM _ _ _ = Raise _ |- _ =>
        apply mapM_raise_inv in H as (? & ? & H); cbv beta in H
    | H : ret _ _ = Raise _ |- _ => discriminate H
    | H : modify _ _ = Raise _ |- _ => discriminate H
    | H : raise _ _ = Raise _ |- _ => injection H as <-
    | H : (match ?o with _ => _ end) _ = Raise _ |- _ => destruct o
    end.

Ltac raise_origin :=
  first [ left; reflexivity
        | right; left; reflexivity
        | right; right; econstructor; eassumption ].

Lemma _get_crud_params_raises (stmt_ : stmt) (c : compiler) (e : exn) :
  _get_crud_params sa self stmt_ c = Raise e ->
  e = IndexError \/ e = TypeError \/ crud_raises sa e.
Proof.
  unfold _get_crud_params. intros H. raise_cases; raise_origin.
Qed.

Lemma _get_crud_params_14_raises (stmt_ : stmt)
  (cs : CompileState.t Table Column Clause) (c : compiler) (e : exn) :
  _get_crud_params_14 sa self stmt_ cs c = Raise e ->
  e = IndexError \/ e = TypeError \/ crud_raises sa e.
Proof.
  unfold _get_crud_params_14. intros H. raise_cases; raise_origin.
Qed.

(** C9, as amended.  Neither resolver checks for unconsumed column
    names.  An exception out of [_get_crud_params] or
    [_get_crud_params_14] is an [IndexError] or a [TypeError] of an
    indexing, or it is raised by a call into [sqlalchemy.sql.crud]; a
    [CompileError] in particular is never their own.  And for a statement
    with a dictionary [d] of parameters: when the calls into
    [sqlalchemy.sql.crud] return, the resolver returns, and what it
    returns is the entries [values] the scan of the columns has built
    (from SQLAlchemy 1.4 on, for [executemany] and no entry, the entry of
    the first column with [DEFAULT]) in the state the scan has left,
    whatever the scan has left in [parameters] and in [check_columns]:
    the keys of [d] that are still in [parameters], which
    [sqlalchemy.sql.crud] itself reports as unconsumed column names, are
    not looked at. *)
Theorem crud_params_no_unconsumed_check (stmt_ : stmt)
  (cs : CompileState.t Table Column Clause) (c : compiler) :
  (forall e,
     _get_crud_params sa self stmt_ c = Raise e
     \/ _get_crud_params_14 sa self stmt_ cs c = Raise e ->
     e = IndexError \/ e = TypeError \/ crud_raises sa e)
  /\ (forall msg,
        _get_crud_params sa self stmt_ c = Raise (CompileError msg)
        \/ _get_crud_params_14 sa self stmt_ cs c = Raise (CompileError msg) ->
        crud_raises sa (CompileError msg))
  /\ (forall (d : list (PKey Column * value)) (g : Getters.t Column ColKey)
             (parameters leftover : list (ColKey * Slot))
             (check_columns : list (ColKey * Column))
             (values0 values : list (Column * string))
             (c1 c2 c3 : compiler),
        Stmt._has_multi_parameters stmt_ = false ->
        Stmt.parameters stmt_ = PDict d ->
        SA.crud_key_getters_for_crud_column sa
          (if Settings.SA_VERSION_ge_SA_1_1 self then Some stmt_ else None)
          (reset_fetch c)
        = Return (g, c1) ->
        SA.crud_get_stmt_parameters_params sa
          match Settings.column_keys self with
          | None => []
          | Some keys =>
              dict_of (SA.colkey_eqb sa)
                (map (fun key =>
                        (Getters._column_as_key g (KStr key), REQUIRED))
                   (filter (fun key => negb (nonempty d)
                                       || negb (str_in_pdict key d))
                           keys))
          end d g [] c1
        = Return ((parameters, values0), c2) ->
        SA.crud_scan_cols sa stmt_ parameters g [] values0 c2
        = Return ((leftover, check_columns, values), c3) ->
        _get_crud_params sa self stmt_ c = Return (Row values, c3))
  /\ (forall (kv : PKey Column * value) (d : list (PKey Column * value))
             (g : Getters.t Column ColKey)
             (parameters leftover : list (ColKey * Slot))
             (check_columns0 check_columns : list (ColKey * Column))
             (values0 values1 values : list (Column * string * string))
             (c1 c2 c3 c4 : compiler),
        CompileState._no_parameters cs = false ->
        CompileState._has_multi_parameters cs = false ->
        CompileState._ordered_values cs = [] ->
        CompileState._dict_parameters cs = Some (kv :: d) ->
        SA._key_getters_for_crud_column sa stmt_ cs (reset_fetch c)
        = Return (g, c1) ->
        SA._get_stmt_parameter_tuples_params sa cs
          match Settings.column_keys self with
          | None => []
          | Some keys =>
              dict_of (SA.colkey_eqb sa)
                (map (fun key =>
                        (Getters._column_as_key g (KStr key), REQUIRED))
                   (filter (fun key => negb (str_in_pdict key (kv :: d)))
                           keys))
          end (kv :: d) g [] (set_key_getters g c1)
        = Return ((parameters, values0), c2) ->
        (if CompileState.isupdate cs && CompileState.is_multitable cs
         then SA._get_multitable_params sa stmt_ cs (Some (kv :: d)) [] g
                values0
         else ret ([], values0)) c2
        = Return ((check_columns0, values1), c3) ->
        (if CompileState.isinsert cs && nonempty (Stmt._select_names stmt_)
         then SA._scan_insert_from_select_cols sa stmt_ cs parameters g
                check_columns0 values1
         else SA._scan_cols sa stmt_ cs parameters g check_columns0 values1)
          c3
        = Return ((leftover, check_columns, values), c4) ->
        _get_crud_params_14 sa self stmt_ cs c
        = (if negb (nonempty values) && Settings.for_executemany self
           then match SA.columns sa (Stmt.table stmt_) with
                | c0 :: _ =>
                    ret (Row [(c0, SA.format_column sa c0, "DEFAULT")])
                | [] => raise IndexError
                end
           else ret (Row values)) c4).
Proof.
  assert (G : forall e,
     _get_crud_params sa self stmt_ c = Raise e
     \/ _get_crud_params_14 sa self stmt_ cs c = Raise e ->
     e = IndexError \/ e = TypeError \/ crud_raises sa e).
  { intros e [H|H];
      [now apply _get_crud_params_raises in H
      | now apply _get_crud_params_14_raises in H]. }
  split; [exact G|]. split.
  { intros msg H. destruct (G _ H) as [F|[F|R]]; [discriminate F.. | exact R]. }
  split.
  - intros d g parameters leftover check_columns values0 values c1 c2 c3
           Hmulti Hparameters Hg Hp Hscan.
    unfold _get_crud_params. rewrite Hparameters, Hmulti.
    unfold bind, modify, ret.
    destruct (Settings.column_keys self) as [keys|];
      rewrite Hg, Hp, Hscan; reflexivity.
  - intros kv d g parameters leftover check_columns0 check_columns
           values0 values1 values c1 c2 c3 c4
           Hno Hmulti Hord Hdict Hg Hp Hm Hscan.
    unfold _get_crud_params_14. rewrite Hno, Hmulti, Hord, Hdict.
    unfold bind, modify, ret. rewrite Hg. cbn [nonempty].
    destruct (Settings.column_keys self) as [keys|];
      rewrite Hp;
      unfold ret in Hm; rewrite Hm, Hscan; reflexivity.
Qed.

End Insert.

(* ================================================================== *)
(** * A key that is changed and deleted *)

Lemma filter_filter_implies {A : Type} (p q : A -> bool) (l : list A) :
  (forall x, p x = true -> q x = true) ->
  filter p (filter q l) = filter p l.
Proof.
  intros Hpq. induction l as [|x l IH]; simpl; [reflexivity|].
  destruct (q x) eqn:Eq; simpl; rewrite IH; [reflexivity|].
  destruct (p x) eqn:Ep; [|reflexivity].
  rewrite (Hpq x Ep) in Eq. discriminate.
Qed.

Lemma last_default {A : Type} (l : list A) (d d' : A) :
  l <> [] -> last l d = last l d'.
Proof.
  induction l as [|x l IH]; intros Hne; [now elim Hne|].
  destruct l as [|y l]; [reflexivity|].
  cbn [last] in *. apply IH. discriminate.
Qed.

(** Assignments that all go to one key leave one entry: the last value. *)
Lemma fold_set_same_key {V : Type} (key : string) (l : list (string * V))
  (v : V) :
  (forall e, In e l -> fst e = key) ->
  fold_left (fun d kv => str_set (fst kv) (snd kv) d) l [(key, v)]
  = [(key, last (map snd l) v)].
Proof.
  revert v. induction l as [|[k x] l IH]; intros v H; [reflexivity|].
  assert (Ek : k = key) by (apply (H (k, x)); now left). subst k.
  cbn [fold_left fst snd dict_set]. rewrite String.eqb_refl.
  rewrite IH by (intros e He; apply H; now right).
  cbn [map snd]. destruct l as [|e l]; [reflexivity|].
  f_equal. f_equal.
  change (last (map snd (e :: l)) x = last (map snd (e :: l)) v).
  apply last_default. discriminate.
Qed.

Lemma str_of_same_key {V : Type} (key : string) (l : list (string * V))
  (v : V) :
  (forall e, In e l -> fst e = key) ->
  l <> [] -> last (map snd l) v = v ->
  str_of l = [(key, v)].
Proof.
  intros H Hne Hlast. destruct l as [|[k x] l]; [now elim Hne|].
  assert (Ek : k = key) by (apply (H (k, x)); now left). subst k.
  unfold dict_of. cbn [fold_left fst snd dict_set].
  rewrite fold_set_same_key by (intros e He; apply H; now right).
  f_equal. f_equal. cbn [map snd] in Hlast.
  destruct l as [|e l]; [exact Hlast|].
  rewrite <- Hlast.
  change (last (map snd (e :: l)) x = last (map snd (e :: l)) v).
  apply last_default. discriminate.
Qed.

Lemma last_app_all {A : Type} (l1 l2 : list A) (d v : A) :
  l2 <> [] -> (forall x, In x l2 -> x = v) -> last (app l1 l2) d = v.
Proof.
  intros Hne Hall. destruct (exists_last Hne) as (l2' & x & ->).
  rewrite app_assoc, last_last. apply Hall. rewrite in_app_iff. right. now left.
Qed.

(** In a mapping that binds [col] to a document [any] sees as changed,
    every deleted key [k] of the document has exactly one entry
    [col['k']], bound to null, whether or not [k] is an item of the
    document or one of its changed keys: the assignments for the deleted
    keys come last. *)
Lemma rewrite_params_deleted_wins (ps : dict value) (col : string)
  (items : list (string * value)) (_changed_keys _deleted_keys : list string)
  (k : string) :
  NoDup (dict_keys ps) ->
  (forall key, In key (dict_keys ps) -> Py.contains_char "["%char key = false) ->
  str_get col ps = Some (VMutableDict items _changed_keys _deleted_keys) ->
  is_dirty (VMutableDict items _changed_keys _deleted_keys) = true ->
  In k _deleted_keys ->
  filter (fun e => String.eqb (fst e) (path col k)) (rewrite_params ps)
  = [(path col k, VNull)].
Proof.
  intros ND Hk Hget Hd Hin.
  apply (dict_get_some_in String.eqb_spec) in Hget.
  rewrite rewrite_params_writes. unfold dict_of.
  rewrite (filter_fold_set String.eqb_spec
             (fun key => String.eqb key (path col k))).
  cbn [filter].
  rewrite <- (filter_filter_implies
                (fun e : string * value => String.eqb (fst e) (path col k))
                (fun e => Py.startswith (fst e) (col ++ "['"))).
  2:{ intros [key v] E. cbn [fst] in *. apply String.eqb_eq in E. subst key.
      apply path_startswith. }
  rewrite (writes_of_document col items _changed_keys _deleted_keys); trivial.
  unfold document_writes. rewrite filter_app.
  apply (@str_of_same_key value (path col k)).
  - intros [key v] He. cbn [fst]. apply in_app_iff in He.
    destruct He as [He|He]; apply filter_In in He as [_ E];
      now apply String.eqb_eq in E.
  - intros F. apply app_eq_nil in F as [_ F].
    assert (L : In (path col k, VNull)
                   (filter (fun e : string * value =>
                              String.eqb (fst e) (path col k))
                           (map (fun d => (path col d, VNull))
                                _deleted_keys))).
    { apply filter_In. split; [|apply String.eqb_refl].
      apply in_map_iff. now exists k. }
    rewrite F in L. exact L.
  - rewrite map_app. apply last_app_all.
    + intros F. apply map_eq_nil in F.
      assert (L : In (path col k, VNull)
                     (filter (fun e : string * value =>
                                String.eqb (fst e) (path col k))
                             (map (fun d => (path col d, VNull))
                                  _deleted_keys))).
      { apply filter_In. split; [|apply String.eqb_refl].
        apply in_map_iff. now exists k. }
      rewrite F in L. exact L.
    + intros x Hx. apply in_map_iff in Hx as [[key v] [<- He]].
      apply filter_In in He as [He _]. apply in_map_iff in He as [d [E _]].
      now injection E as _ <-.
Qed.

(* ================================================================== *)
(** * The theorems at sample inputs *)

Ltac nodup := repeat constructor; cbn; intuition discriminate.

(** C1, at the mapping that binds [doc] to a document with the items [a]
    and [c], [a] changed and [b] deleted, and at one whose two items are
    both changed and that has no deleted key *)
Lemma rewrite_update_partial_witness :
  (str_get "doc" (rewrite_params Ex.params_ab) = None
   /\ filter (fun e => Py.startswith (fst e) "doc['")
             (rewrite_params Ex.params_ab)
      = [("doc['a']", Ex.int 1); ("doc['b']", VNull)])
  /\ (str_get "doc"
        (rewrite_params
           [("doc", VMutableDict [("a", Ex.int 1); ("c", Ex.int 3)]
                                 ["c"; "a"] [])])
      = None
      /\ filter (fun e => Py.startswith (fst e) "doc['")
                (rewrite_params
                   [("doc", VMutableDict [("a", Ex.int 1); ("c", Ex.int 3)]
                                         ["c"; "a"] [])])
         = [("doc['a']", Ex.int 1); ("doc['c']", Ex.int 3)]).
Proof.
  split.
  - evar (clause : Mini.stmt).
    destruct (@rewrite_update_partial _ _ _ _ _ Mini.sa Ex.update0 clause
                Ex.params_ab [] [] [] Ex.params_ab "doc"
                [("a", Ex.int 1); ("c", Ex.int 3)] ["a"] ["b"])
      as (_ & Hget & Hfilter).
    + unfold clause. reflexivity.
    + now left.
    + nodup.
    + intros key [<-|[<-|[]]]; reflexivity.
    + reflexivity.
    + nodup.
    + nodup.
    + apply disjoint_nonempty_dirty; [discriminate | discriminate |].
      intros k [<-|[]] [E|[]]. discriminate E.
    + intros k [<-|[]] [E|[]]. discriminate E.
    + split; [exact Hget | exact Hfilter].
  - evar (clause : Mini.stmt).
    destruct (@rewrite_update_partial _ _ _ _ _ Mini.sa Ex.update0 clause
                [("doc", VMutableDict [("a", Ex.int 1); ("c", Ex.int 3)]
                                      ["c"; "a"] [])]
                [] [] []
                [("doc", VMutableDict [("a", Ex.int 1); ("c", Ex.int 3)]
                                      ["c"; "a"] [])]
                "doc" [("a", Ex.int 1); ("c", Ex.int 3)] ["c"; "a"] [])
      as (_ & Hget & Hfilter).
    + unfold clause. reflexivity.
    + now left.
    + nodup.
    + intros key [<-|[]]; reflexivity.
    + reflexivity.
    + nodup.
    + constructor.
    + reflexivity.
    + intros k _ [].
    + split; [exact Hget | exact Hfilter].
Defined.

(** The changed key [a] is not an item of the document: the rewritten
    mapping has the entry of the deleted key and no other, one entry where
    the two key sets have two keys. *)
Lemma rewrite_update_partial_counterexample :
  exists clause,
    rewrite_update Mini.sa Ex.update0 [[Ex.params_gone]] []
    = Return (clause, [[ [("doc['b']", VNull)] ]], [])
    /\ str_get "doc['a']" (rewrite_params Ex.params_gone) = None
    /\ List.length (rewrite_params Ex.params_gone) <> 2%nat.
Proof.
  eexists. split; [reflexivity|]. split; [reflexivity | discriminate].
Qed.

(** C2, at a mapping with a number and an unmodified document *)
Lemma rewrite_update_unmodified_witness :
  exists clause,
    rewrite_update Mini.sa Ex.update0 [[Ex.params_clean]] []
    = Return (Stmt.set_crate_specific clause, [[Ex.params_clean]], []).
Proof.
  evar (clause : Mini.stmt). exists clause.
  apply (@rewrite_update_unmodified _ _ _ _ _ Mini.sa Ex.update0 clause
           Ex.params_clean [] [] []).
  - intros ps [<-|[]]. split; [nodup|].
    intros kv [<-|[<-|[]]]; reflexivity.
  - unfold clause. reflexivity.
Defined.

(** The statement that comes back is not the one that was given. *)
Lemma rewrite_update_unmodified_counterexample :
  exists clause,
    rewrite_update Mini.sa Ex.update0 [[Ex.params_clean]] []
    = Return (clause, [[Ex.params_clean]], [])
    /\ clause <> Ex.update0
    /\ Stmt.parameters clause <> Stmt.parameters Ex.update0
    /\ Stmt._crate_specific clause <> Stmt._crate_specific Ex.update0.
Proof.
  eexists. split; [reflexivity|].
  split; [|split]; discriminate.
Qed.


(** C4, at an INSERT from a SELECT for a server below the threshold *)
Lemma insert_from_select_parentheses_witness :
  exists head body tail,
    "INSERT INTO t (x) (SELECT x FROM s)" = head ++ " (" ++ body ++ ")" ++ tail
    /\ extends "INSERT " head.
Proof.
  evar (c' : Mini.compiler).
  destruct (proj2 (proj2
              (@insert_from_select_parentheses _ _ _ _ _ Mini.sa
                 Ex.old_server_sa13 Ex.insert_select "SELECT x FROM s"
                 Mini.compiler0 eq_refl))
              eq_refl eq_refl "INSERT INTO t (x) (SELECT x FROM s)" c')
    as (head & body & tail & sel & c1 & c2 & _ & _ & Hhead & _ & E).
  - unfold c'. vm_compute. reflexivity.
  - now exists head, body, tail.
Defined.

(** Below the threshold with SQLAlchemy 1.4 no text is compiled. *)
Lemma insert_from_select_parentheses_counterexample :
  tuple_ge (Dialect.server_version_info (Settings.dialect Ex.old_server_sa14))
           INSERT_SELECT_WITHOUT_PARENTHESES_MIN_VERSION = false
  /\ Stmt.select Ex.insert_select = Some "SELECT x FROM s"
  /\ visit_insert Mini.sa Ex.old_server_sa14 Ex.insert_select Mini.compiler0
     = Raise (DeprecationWarning
                "CrateDB version < (1, 0, 1) not supported with SQLAlchemy 1.4").
Proof. repeat split. Qed.

(** C5, at a statement without parameters and one changed document *)
Lemma crate_specific_marker_witness :
  exists clause' newmultiparams,
    rewrite_update Mini.sa Ex.update0 [[Ex.params_ab]] []
    = Return (clause', [newmultiparams], [])
    /\ Stmt.has_crate_specific clause' = true.
Proof.
  evar (clause : Mini.stmt).
  apply (proj1 (@crate_specific_marker _ _ _ _ _ Mini.sa Ex.new_server_sa13
                  Ex.update0 [] []) clause).
  unfold clause. reflexivity.
Defined.

(** With an empty first item the statement comes back without the
    marker. *)
Lemma crate_specific_marker_counterexample :
  exists clause,
    rewrite_update Mini.sa Ex.update0 [[]] [] = Return (clause, [[]], [])
    /\ Stmt.has_crate_specific clause = false.
Proof. eexists. split; reflexivity. Qed.

(** C6, at an INSERT of the two parameter rows [{x: 1, y: 2}] and
    [{x: 3, y: 4}]: two tuples, of two binds each *)
Lemma multirow_insert_values_witness :
  exists tuples head mid tail,
    "INSERT INTO t (x, y) VALUES (?, ?), (?, ?)"
    = head ++ " (x, y)" ++ mid ++ " VALUES " ++ Py.join ", " tuples ++ tail
    /\ List.length tuples = 2%nat
    /\ Forall2 (fun (row_parameters : list (PKey Mini.Column * value)) tuple =>
                  exists row : list (Mini.Column * string),
                    map fst row
                    = map (fun e => Mini.key_name (fst e)) row_parameters
                    /\ List.length (map snd row) = 2%nat
                    /\ tuple = "(" ++ Py.join ", " (map snd row) ++ ")")
               [[(KStr "x", Ex.int 1); (KStr "y", Ex.int 2)];
                [(KStr "x", Ex.int 3); (KStr "y", Ex.int 4)]]
               tuples.
Proof.
  evar (c' : Mini.compiler).
  destruct (@multirow_insert_values _ _ _ _ _ Mini.sa Ex.old_server_sa13
              Ex.insert_rows
              [[(KStr "x", Ex.int 1); (KStr "y", Ex.int 2)];
               [(KStr "x", Ex.int 3); (KStr "y", Ex.int 4)]]
              ["x"; "y"]
              (fun row_parameters row =>
                 map fst row
                 = map (fun e => Mini.key_name (fst e)) row_parameters)
              Mini.compiler0 c'
              "INSERT INTO t (x, y) VALUES (?, ?), (?, ?)")
    as (_ & _ & rows & tuples & head & mid & tail & c1 & c2 & _ & Hlen & Ht
        & _ & _ & _ & _ & E).
  - reflexivity.
  - reflexivity.
  - reflexivity.
  - reflexivity.
  - reflexivity.
  - intros c1 c2 crud_params Hcrud.
    cbn in Hcrud. unfold bind, mapM in Hcrud. cbn in Hcrud.
    injection Hcrud as <- _.
    eexists. split; [reflexivity|].
    repeat constructor.
  - unfold c'. vm_compute. reflexivity.
  - exists tuples, head, mid, tail.
    split; [exact E|]. split; [exact Hlen|].
    clear - Ht. induction Ht as [|p t ps ts (row & _ & Hr & _ & Hn & Hrow) _ IH];
      constructor; [|exact IH].
    exists row. split; [exact Hr|]. split; [exact Hn | exact Hrow].
Defined.

(** A multi-row INSERT on a dialect with multivalues inserts, a server
    below the threshold and SQLAlchemy 1.4: no text is compiled. *)
Lemma multirow_insert_values_counterexample :
  Stmt._has_multi_parameters Ex.insert_rows = true
  /\ Dialect.supports_multivalues_insert (Settings.dialect Ex.old_server_sa14)
     = true
  /\ visit_insert Mini.sa Ex.old_server_sa14 Ex.insert_rows Mini.compiler0
     = Raise (DeprecationWarning
                "CrateDB version < (1, 0, 1) not supported with SQLAlchemy 1.4").
Proof. repeat split. Qed.

(** C7, at the keywords of the example in the opposite order *)
Lemma post_create_table_clauses_witness :
  CrateDDLCompiler.post_create_table "crate"
    [("crate_refresh_interval", SInt 500);
     ("crate_clustered_by", SStr "id");
     ("crate_number_of_shards", SInt 4);
     ("crate_partitioned_by", SStr "region")]
  = " PARTITIONED BY (region) CLUSTERED BY (id) INTO 4 SHARDS WITH (REFRESH_INTERVAL = 500)".
Proof.
  rewrite (proj1 (proj2 post_create_table_clauses) "crate"
             [("crate_refresh_interval", SInt 500);
              ("crate_clustered_by", SStr "id");
              ("crate_number_of_shards", SInt 4);
              ("crate_partitioned_by", SStr "region")]
             [("crate_partitioned_by", SStr "region");
              ("crate_number_of_shards", SInt 4);
              ("crate_clustered_by", SStr "id");
              ("crate_refresh_interval", SInt 500)]).
  - reflexivity.
  - nodup.
  - apply Permutation_rev.
Defined.

(** The [WITH] block has the option name in upper case. *)
Lemma post_create_table_clauses_counterexample :
  CrateDDLCompiler.post_create_table "crate"
    [("crate_partitioned_by", SStr "region");
     ("crate_number_of_shards", SInt 4);
     ("crate_clustered_by", SStr "id");
     ("crate_refresh_interval", SInt 500)]
  <> " PARTITIONED BY (region) CLUSTERED BY (id) INTO 4 SHARDS WITH (refresh_interval = 500)".
Proof. apply String.eqb_neq. reflexivity. Qed.

(** C9, at [update(t).values(x=1, nosuch=2)]: the scan of the columns
    consumes [x] and leaves [nosuch] in [parameters], which
    [sqlalchemy.sql.crud] would report as unconsumed; both resolvers
    return the entry of [x]. *)
Lemma crud_params_no_unconsumed_check_witness :
  unconsumed Mini.sa Mini.the_getters [("nosuch", Bound (Ex.int 2))]
    [(KStr "x", Ex.int 1); (KStr "nosuch", Ex.int 2)] []
  = ["nosuch"]
  /\ (exists c',
        _get_crud_params Mini.sa Ex.new_server_sa13 Ex.update_nosuch
          Mini.compiler0
        = Return (Row [("x", "?")], c'))
  /\ (exists c',
        _get_crud_params_14 Mini.sa Ex.new_server_sa14 Ex.update_nosuch
          Ex2.update_nosuch_state Mini.compiler0
        = Return (Row [("x", "x", "?")], c')).
Proof.
  split; [reflexivity|]. split.
  - evar (c' : Mini.compiler). exists c'.
    destruct (@crud_params_no_unconsumed_check _ _ _ _ _ Mini.sa
                Ex.new_server_sa13 Ex.update_nosuch Ex2.update_nosuch_state
                Mini.compiler0) as (_ & _ & H & _).
    apply (H [(KStr "x", Ex.int 1); (KStr "nosuch", Ex.int 2)]
             Mini.the_getters
             [("x", Bound (Ex.int 1)); ("nosuch", Bound (Ex.int 2))]
             [("nosuch", Bound (Ex.int 2))] [] [] [("x", "?")]
             (reset_fetch Mini.compiler0) (reset_fetch Mini.compiler0) c').
    + reflexivity.
    + reflexivity.
    + reflexivity.
    + reflexivity.
    + unfold c'. vm_compute. reflexivity.
  - evar (c' : Mini.compiler). exists c'.
    destruct (@crud_params_no_unconsumed_check _ _ _ _ _ Mini.sa
                Ex.new_server_sa14 Ex.update_nosuch Ex2.update_nosuch_state
                Mini.compiler0) as (_ & _ & _ & H).
    apply (H (KStr "x", Ex.int 1) [(KStr "nosuch", Ex.int 2)]
             Mini.the_getters
             [("x", Bound (Ex.int 1)); ("nosuch", Bound (Ex.int 2))]
             [("nosuch", Bound (Ex.int 2))] [] [] [] [] [("x", "x", "?")]
             (reset_fetch Mini.compiler0)
             (set_key_getters Mini.the_getters (reset_fetch Mini.compiler0))
             (set_key_getters Mini.the_getters (reset_fetch Mini.compiler0))
             c').
    + reflexivity.
    + reflexivity.
    + reflexivity.
    + reflexivity.
    + reflexivity.
    + reflexivity.
    + reflexivity.
    + unfold c'. vm_compute. reflexivity.
Defined.

(** The parameter [nosuch] is not a column of [t]: both resolvers return
    their entries, and the UPDATE compiles. *)
Lemma crud_params_no_unconsumed_check_counterexample :
  (exists c', _get_crud_params Mini.sa Ex.new_server_sa13 Ex.update_nosuch
                Mini.compiler0
              = Return (Row [("x", "?")], c'))
  /\ (exists cs c1 c',
        Mini.compile_state_factory Ex.update_nosuch Mini.compiler0
        = Return (cs, c1)
        /\ _get_crud_params_14 Mini.sa Ex.new_server_sa14 Ex.update_nosuch cs
             c1
           = Return (Row [("x", "x", "?")], c'))
  /\ (exists c', visit_update Mini.sa Ex.new_server_sa13 Ex.update_nosuch
                   Mini.compiler0
                 = Return ("UPDATE t SET x = ?", c'))
  /\ (exists c', visit_update Mini.sa Ex.new_server_sa14 Ex.update_nosuch
                   Mini.compiler0
                 = Return ("UPDATE t SET x = ?", c')).
Proof.
  split; [|split; [|split]].
  - eexists. vm_compute. reflexivity.
  - eexists _, _, _. split; vm_compute; reflexivity.
  - eexists. vm_compute. reflexivity.
  - eexists. vm_compute. reflexivity.
Qed.

(** C10, at the input where the code departs from it: the empty string
    is the key of an item of the document and is in both key sets; [any]
    sees no key, the document is copied whole and there is no entry for
    the path. *)
Lemma rewrite_params_empty_key :
  rewrite_params Ex.params_empty_key = Ex.params_empty_key
  /\ str_get (path "doc" "") (rewrite_params Ex.params_empty_key) = None
  /\ any [""] = false.
Proof. repeat split. Qed.

(** The scenarios of the specification *)
Example scenario_update :
  exists c',
    visit_update Mini.sa Ex.new_server_sa13 Ex.update_ab Mini.compiler0
    = Return ("UPDATE t SET doc['a'] = ?, doc['b'] = ?", c')
    /\ Compiler.internals c' = [Ex.int 1; VNull].
Proof. eexists. split; [vm_compute|]; reflexivity. Qed.

Example scenario_insert_rows :
  exists c',
    visit_insert Mini.sa Ex.old_server_sa13 Ex.insert_rows Mini.compiler0
    = Return ("INSERT INTO t (x, y) VALUES (?, ?), (?, ?)", c')
    /\ Compiler.internals c' = [Ex.int 1; Ex.int 2; Ex.int 3; Ex.int 4].
Proof. eexists. split; [vm_compute|]; reflexivity. Qed.

Example scenario_insert_select :
  (exists c',
     visit_insert Mini.sa Ex.old_server_sa13 Ex.insert_select Mini.compiler0
     = Return ("INSERT INTO t (x) (SELECT x FROM s)", c'))
  /\ (exists c',
        visit_insert Mini.sa Ex.new_server_sa13 Ex.insert_select Mini.compiler0
        = Return ("INSERT INTO t (x) SELECT x FROM s", c')).
Proof. split; eexists; vm_compute; reflexivity. Qed.

Example str_int_examples :
  Py.str_int (-12) = "-12" /\ Py.str_int 0 = "0" /\ Py.str_int 500 = "500".
Proof. repeat split. Qed.

Example tuple_ge_examples :
  tuple_ge [1; 0; 1]%Z INSERT_SELECT_WITHOUT_PARENTHESES_MIN_VERSION = true
  /\ tuple_ge [1; 0]%Z INSERT_SELECT_WITHOUT_PARENTHESES_MIN_VERSION = false
  /\ tuple_ge [1; 1]%Z INSERT_SELECT_WITHOUT_PARENTHESES_MIN_VERSION = true
  /\ tuple_ge [0; 57; 0]%Z INSERT_SELECT_WITHOUT_PARENTHESES_MIN_VERSION
     = false.
Proof. repeat split. Qed.

(** A deleted key that is also changed: one entry, bound to null. *)
Lemma rewrite_params_deleted_wins_witness :
  filter (fun e => String.eqb (fst e) "doc['a']")
         (rewrite_params
            [("doc", VMutableDict [("a", Ex.int 1)] ["a"] ["a"])])
  = [("doc['a']", VNull)].
Proof.
  apply (@rewrite_params_deleted_wins
           [("doc", VMutableDict [("a", Ex.int 1)] ["a"] ["a"])]
           "doc" [("a", Ex.int 1)] ["a"] ["a"] "a").
  - nodup.
  - intros key [<-|[]]. reflexivity.
  - reflexivity.
  - reflexivity.
  - now left.
Defined.

(* ================================================================== *)
(** * crate_before_execute *)

Section BeforeExecuteFacts.
Variables Table Column Clause ColKey Internals Other : Type.
Variable sa : SA.t Table Column Clause ColKey Internals.

Local Abbreviation stmt := (Stmt.t Table Column Clause).
Local Abbreviation element := (ClauseElement Table Column Clause Other).

(** The hook is registered for every engine.  For a connection whose
    dialect is not [CrateDialect], and for an element that is not an
    [Update], it hands back its three arguments as they are, on every
    version of SQLAlchemy and whatever [multiparams] is: it does not read
    them, and it does not raise. *)
Theorem crate_before_execute_other (SA_VERSION_ge_SA_1_4 : bool)
  (dialect_type_name : string) (clauseelement : element)
  (multiparams : list (list (dict value))) (params : dict value) :
  dialect_type_name <> "CrateDialect"
  \/ (forall u, clauseelement <> Update u) ->
  crate_before_execute sa SA_VERSION_ge_SA_1_4 dialect_type_name
                       clauseelement multiparams params
  = Return (clauseelement, multiparams, ParamsDict params).
Proof.
  intros H. unfold crate_before_execute.
  destruct (String.eqb_spec dialect_type_name "CrateDialect") as [E|_];
    [|reflexivity].
  destruct clauseelement as [u|o]; [|reflexivity].
  destruct H as [H|H]; [now elim H | now elim (H u)].
Qed.

(** From SQLAlchemy 1.4 on, for an UPDATE on CrateDB: the hook does not
    read [multiparams]; it rewrites the one dictionary [params], and the
    early return of [rewrite_update] is never taken, so that the statement
    is always [clauseelement.values(...)] of the rewritten dictionary with
    the marker, also when [params] is empty.  It hands back the empty list
    for [multiparams] and, for [params], the list of the one rewritten
    dictionary; it raises what [values] raises, and nothing else. *)
Theorem crate_before_execute_14 (u : stmt)
  (multiparams : list (list (dict value))) (params : dict value) :
  crate_before_execute sa true "CrateDialect" (Update u : element)
                       multiparams params
  = match SA.values sa u (rewrite_params params) with
    | Return clause =>
        Return (Update (Stmt.set_crate_specific clause), [],
                ParamsList [rewrite_params params])
    | Raise e => Raise e
    end.
Proof.
  unfold crate_before_execute, rewrite_update. cbn.
  now destruct (SA.values sa u (rewrite_params params)).
Qed.

(** Before SQLAlchemy 1.4, for an UPDATE on CrateDB, by the shape of the
    positional parameters [multiparams]: with the empty tuple (a
    statement executed without positional parameters) the hook raises
    [IndexError]; with a first item that is an empty list of mappings or
    an empty mapping it hands back its arguments as they are; with a
    first item that is a mapping with a key ([execute(stmt, {...})]) it
    raises [AttributeError]; with a first item that is a list of mappings
    it hands back [clauseelement.values(...)] of the first rewritten
    mapping, with the marker, the one-item tuple of the list of the
    rewritten mappings (the other items of [multiparams] are dropped) and
    [params] as it is, or it raises what [values] raises.  On positional
    parameters that are all lists of mappings this hook is
    [crate_before_execute] above, on every version. *)
Theorem crate_before_execute_13 (u : stmt)
  (rest : list Positional.item) (params : dict value) :
  Positional.crate_before_execute sa false "CrateDialect"
    (Update u : element) [] params
  = Raise IndexError
  /\ Positional.crate_before_execute sa false "CrateDialect"
       (Update u : element) (Positional.Mappings [] :: rest) params
     = Return (Update u, Positional.Mappings [] :: rest, ParamsDict params)
  /\ Positional.crate_before_execute sa false "CrateDialect"
       (Update u : element) (Positional.Mapping [] :: rest) params
     = Return (Update u, Positional.Mapping [] :: rest, ParamsDict params)
  /\ (forall (kv : string * value) (d : dict value),
        Positional.crate_before_execute sa false "CrateDialect"
          (Update u : element) (Positional.Mapping (kv :: d) :: rest) params
        = Raise AttributeError)
  /\ (forall (_params : dict value) (_multiparams : list (dict value)),
        Positional.crate_before_execute sa false "CrateDialect"
          (Update u : element)
          (Positional.Mappings (_params :: _multiparams) :: rest) params
        = match SA.values sa u (rewrite_params _params) with
          | Return clause =>
              Return (Update (Stmt.set_crate_specific clause),
                      [Positional.Mappings
                         (map rewrite_params (_params :: _multiparams))],
                      ParamsDict params)
          | Raise e => Raise e
          end)
  /\ (forall (SA_VERSION_ge_SA_1_4 : bool) (dialect_type_name : string)
             (clauseelement : element)
             (multiparams : list (list (dict value))),
        Positional.crate_before_execute sa SA_VERSION_ge_SA_1_4
          dialect_type_name clauseelement
          (map Positional.Mappings multiparams) params
        = match crate_before_execute sa SA_VERSION_ge_SA_1_4
                  dialect_type_name clauseelement multiparams params with
          | Return (clauseelement', multiparams', params') =>
              Return (clauseelement',
                      map Positional.Mappings multiparams', params')
          | Raise e => Raise e
          end).
Proof.
  split; [reflexivity|]. split; [reflexivity|]. split; [reflexivity|].
  split; [reflexivity|]. split.
  - intros _params _multiparams.
    unfold Positional.crate_before_execute, Positional.rewrite_update. cbn.
    now destruct (SA.values sa u (rewrite_params _params)).
  - intros v name el multiparams.
    unfold Positional.crate_before_execute, crate_before_execute.
    destruct (String.eqb name "CrateDialect"); [|reflexivity].
    destruct el as [u'|o]; [|reflexivity].
    destruct v.
    + unfold Positional.rewrite_update, rewrite_update. cbn.
      now destruct (SA.values sa u' (rewrite_params params)).
    + unfold Positional.rewrite_update, rewrite_update.
      destruct multiparams as [|[|_params _multiparams] more];
        [reflexivity | reflexivity |].
      cbn. now destruct (SA.values sa u' (rewrite_params _params)).
Qed.

End BeforeExecuteFacts.

(* ================================================================== *)
(** * CrateTypeCompiler: nested arrays *)

(** The chain of arrays of a type is walked from the outside: the first
    array with more than one dimension raises, before the item type is
    looked at. *)
Lemma process_arrays (generic_visit : string -> result string)
  (type_ : CrateTypeCompiler.TypeEngine) :
  CrateTypeCompiler.process generic_visit type_
  = if ArrayTypes.multidimensional type_
    then Raise (NotImplementedError
                  "CrateDB doesn't support multidimensional arrays")
    else match CrateTypeCompiler.process generic_visit
                 (ArrayTypes.element_type type_) with
         | Return base =>
             Return (ArrayTypes.arrays (ArrayTypes.depth type_) base)
         | Raise e => Raise e
         end.
Proof.
  induction type_ as [| | | | | | | | | |item_type IH dimensions|visit_name];
    try reflexivity.
  - cbn [CrateTypeCompiler.process ArrayTypes.multidimensional
         ArrayTypes.element_type ArrayTypes.depth ArrayTypes.arrays].
    destruct (match dimensions with
              | Some d => (1 <? d)%Z
              | None => false
              end); [reflexivity|].
    cbn [orb]. rewrite IH.
    destruct (ArrayTypes.multidimensional item_type); [reflexivity|].
    now destruct (CrateTypeCompiler.process generic_visit
                    (ArrayTypes.element_type item_type)).
  - cbn. now destruct (generic_visit visit_name).
Qed.

(** A type compiles to a text exactly when none of its nested arrays has
    more than one dimension and the innermost item type compiles; the
    text is that of the innermost item type inside one [ARRAY(...)] for
    every array.  An array with more than one dimension, at any depth,
    raises [NotImplementedError], whatever the innermost item type is;
    without one, an exception is that of the innermost item type. *)
Theorem process_nested_arrays (generic_visit : string -> result string)
  (type_ : CrateTypeCompiler.TypeEngine) :
  CrateTypeCompiler.process generic_visit type_
  = if ArrayTypes.multidimensional type_
    then Raise (NotImplementedError
                  "CrateDB doesn't support multidimensional arrays")
    else match CrateTypeCompiler.process generic_visit
                 (ArrayTypes.element_type type_) with
         | Return base =>
             Return (ArrayTypes.arrays (ArrayTypes.depth type_) base)
         | Raise e => Raise e
         end.
Proof.
  induction type_ as [| | | | | | | | | |item_type IH dimensions|visit_name];
    try reflexivity.
  - cbn [CrateTypeCompiler.process ArrayTypes.multidimensional
         ArrayTypes.element_type ArrayTypes.depth ArrayTypes.arrays].
    destruct dimensions as [d|]; [destruct (1 <? d)%Z; [reflexivity|]|];
      cbn [orb]; rewrite IH;
      (destruct (ArrayTypes.multidimensional item_type); [reflexivity|]);
      now destruct (CrateTypeCompiler.process generic_visit
                      (ArrayTypes.element_type item_type)).
  - cbn [CrateTypeCompiler.process ArrayTypes.multidimensional
         ArrayTypes.element_type ArrayTypes.depth ArrayTypes.arrays].
    now destruct (generic_visit visit_name).
Qed.

Lemma element_type_no_array (type_ item_type : CrateTypeCompiler.TypeEngine)
  (dimensions : option Z) :
  ArrayTypes.element_type type_
  <> CrateTypeCompiler.ARRAY item_type dimensions.
Proof.
  induction type_; cbn [ArrayTypes.element_type]; try discriminate.
  assumption.
Qed.

Lemma process_overridden_base (generic_visit : string -> result string)
  (type_ : CrateTypeCompiler.TypeEngine) :
  ArrayTypes.overridden type_ = true ->
  exists base,
    In base ArrayTypes.names
    /\ CrateTypeCompiler.process generic_visit (ArrayTypes.element_type type_)
       = Return base.
Proof.
  unfold ArrayTypes.overridden, ArrayTypes.names.
  pose proof (element_type_no_array type_) as G.
  destruct (ArrayTypes.element_type type_) eqn:E; intros H;
    try discriminate H; cbn [CrateTypeCompiler.process];
    try (eexists; split; [|reflexivity]; cbn; auto 10).
  now elim (G _ _ eq_refl).
Qed.

(** A type that bottoms out in one of the ten types the compiler has a
    method of its own for, and has no array with more than one
    dimension, always compiles, whatever the inherited methods do: to one
    of the six names [STRING], [DOUBLE], [LONG], [INT], [SHORT] and
    [TIMESTAMP], inside one [ARRAY(...)] for every array. *)
Theorem process_overridden (generic_visit : string -> result string)
  (type_ : CrateTypeCompiler.TypeEngine) :
  ArrayTypes.overridden type_ = true ->
  ArrayTypes.multidimensional type_ = false ->
  exists base,
    In base ArrayTypes.names
    /\ CrateTypeCompiler.process generic_visit type_
       = Return (ArrayTypes.arrays (ArrayTypes.depth type_) base).
Proof.
  intros Ho Hm.
  destruct (process_overridden_base generic_visit type_ Ho)
    as (base & Hin & E).
  exists base. split; [exact Hin|].
  now rewrite process_arrays, Hm, E.
Qed.

(* ================================================================== *)
(** * CrateDDLCompiler.get_column_specification *)

(** With [CrateTypeCompiler] for the type compiler of the dialect: the
    specification of a column is its formatted name, one space and its
    type, and nothing after it (no default, no NOT NULL); a column whose
    type has an array with more than one dimension, at any depth, has no
    specification: [NotImplementedError] is raised. *)
Theorem get_column_specification_arrays (Column : Type)
  (format_column : Column -> string)
  (column_type : Column -> CrateTypeCompiler.TypeEngine)
  (generic_visit : string -> result string) (column : Column) :
  get_column_specification format_column column_type
    (CrateTypeCompiler.process generic_visit) column
  = if ArrayTypes.multidimensional (column_type column)
    then Raise (NotImplementedError
                  "CrateDB doesn't support multidimensional arrays")
    else match CrateTypeCompiler.process generic_visit
                 (ArrayTypes.element_type (column_type column)) with
         | Return base =>
             Return (format_column column ++ " "
                     ++ ArrayTypes.arrays
                          (ArrayTypes.depth (column_type column)) base)
         | Raise e => Raise e
         end.
Proof.
  unfold get_column_specification. rewrite process_arrays.
  destruct (ArrayTypes.multidimensional (column_type column));
    [reflexivity|].
  now destruct (CrateTypeCompiler.process generic_visit
                  (ArrayTypes.element_type (column_type column))).
Qed.

(* ================================================================== *)
(** * CrateCompiler.visit_getitem_binary and visit_any *)

Lemma concat_empty_cons (x : string) (xs : list string) :
  String.concat "" (x :: xs) = x ++ String.concat "" xs.
Proof.
  destruct xs as [|y ys]; cbn [String.concat];
    [now rewrite append_nil_r | reflexivity].
Qed.

Lemma mapM_app {S A B : Type} (f : A -> M S B) (l1 l2 : list A)
  (b1 b2 : list B) (s s1 s2 : S) :
  mapM f l1 s = Return (b1, s1) ->
  mapM f l2 s1 = Return (b2, s2) ->
  mapM f (app l1 l2) s = Return (app b1 b2, s2).
Proof.
  revert b1 s. induction l1 as [|a l1 IH]; intros b1 s H1 H2; cbn [mapM app] in *.
  - apply ret_inv in H1 as [<- <-]. exact H2.
  - apply bind_inv in H1 as (b & s3 & Hb & H1).
    apply bind_inv in H1 as (bs & s4 & Hbs & H1).
    apply ret_inv in H1 as [<- <-].
    unfold bind at 1. rewrite Hb.
    unfold bind at 1. now rewrite (IH bs s3 Hbs H2).
Qed.

Section ExpressionFacts.
Variables Table Column Clause ColKey Internals Operator : Type.
Variable sa : SA.t Table Column Clause ColKey Internals.
Variable OPERATORS : Operator -> result string.

Local Abbreviation compiler := (Compiler.t Table Column Clause ColKey Internals).
Local Abbreviation element := (Element Clause Operator).

Lemma process_getitem (left_ : element) (right_value : scalar) (c : compiler) :
  process_element sa OPERATORS (GetItem left_ right_value) c
  = match process_element sa OPERATORS left_ c with
    | Return (l, c') => Return (l ++ "['" ++ py_str right_value ++ "']", c')
    | Raise x => Raise x
    end.
Proof.
  cbn [process_element]. unfold bind.
  now destruct (process_element sa OPERATORS left_ c) as [[l c']|x].
Qed.

(** A chain of subscripts compiles to the text of the expression it
    starts from, followed by [['k']] for every subscript, in their order,
    with [str(k)] as it is between the quotes.  The compiler is left as
    compiling the starting expression leaves it: the value of a subscript
    is written into the text, it is no bind parameter. *)
Theorem subscripts_chain (e : element) (keys : list scalar) (c : compiler) :
  process_element sa OPERATORS (subscripts e keys) c
  = match process_element sa OPERATORS e c with
    | Return (text, c') => Return (text ++ subscript_text keys, c')
    | Raise x => Raise x
    end.
Proof.
  unfold subscripts, subscript_text. revert e.
  induction keys as [|k keys IH]; intros e; cbn [fold_left map].
  - destruct (process_element sa OPERATORS e c) as [[text c']|x];
      [|reflexivity].
    cbn [String.concat]. now rewrite append_nil_r.
  - rewrite IH, process_getitem, concat_empty_cons.
    destruct (process_element sa OPERATORS e c) as [[text c']|x];
      [|reflexivity].
    now rewrite !append_assoc.
Qed.

(** The value of a subscript is not escaped: a string subscript that
    holds [']['] compiles to the very text of two nested subscripts. *)
Theorem subscript_not_escaped (left_ : element) (a b : string) (c : compiler) :
  visit_getitem_binary sa OPERATORS left_ (SStr (a ++ "']['" ++ b)) c
  = visit_getitem_binary sa OPERATORS (GetItem left_ (SStr a)) (SStr b) c.
Proof.
  unfold visit_getitem_binary. rewrite !process_getitem.
  destruct (process_element sa OPERATORS left_ c) as [[l c']|x];
    [|reflexivity].
  cbn [py_str]. now rewrite !append_assoc.
Qed.

(** An exception out of compiling an expression is raised by SQLAlchemy
    compiling one of its leaves, or by the lookup of one of its operators
    in [OPERATORS], or it is the [AttributeError] of [binary.right.value]
    in [visit_getitem_binary], and then the expression has a subscript
    whose right side is no bind parameter.  These are the only
    exceptions: an expression whose subscripts are all bind parameters
    raises what its leaves and its operators raise, and nothing else;
    [visit_any] raises nothing of its own. *)
Theorem process_element_raises (e : element) (c : compiler) (x : exn) :
  process_element sa OPERATORS e c = Raise x ->
  (exists leaf c1, In leaf (leaves e) /\ SA.process sa leaf c1 = Raise x)
  \/ (exists operator, In operator (operators e)
                       /\ OPERATORS operator = Raise x)
  \/ (x = AttributeError /\ other_subscripts e <> []).
Proof.
  revert c.
  induction e as [leaf|l IHl k|l IHl r|l IHl operator r IHr]; intros c H;
    cbn [process_element leaves operators other_subscripts] in *.
  - left. exists leaf, c. split; [now left | exact H].
  - apply bind_raise_inv in H as [H|(t & c1 & _ & H)];
      [now apply IHl in H | discriminate H].
  - apply bind_raise_inv in H as [H|(t & c1 & _ & H)].
    + apply IHl in H as [H|[H|[-> _]]]; [now left | right; now left |].
      right. right. split; [reflexivity|].
      now destruct (other_subscripts l).
    + injection H as <-. right. right. split; [reflexivity|].
      now destruct (other_subscripts l).
  - apply bind_raise_inv in H as [H|(t & c1 & _ & H)].
    { apply IHl in H as [(leaf & c2 & Hin & H)|[(op & Hin & H)|[-> Hn]]].
      - left. exists leaf, c2. split; [|exact H].
        apply in_or_app. now left.
      - right. left. exists op. split; [|exact H]. apply in_or_app. now left.
      - right. right. split; [reflexivity|].
        intros E. now apply app_eq_nil in E as [E _]. }
    apply bind_raise_inv in H as [H|(o & c2 & _ & H)].
    { right. left. exists operator.
      split; [apply in_or_app; right; now left|].
      unfold lift in H. destruct (OPERATORS operator); [discriminate H|].
      now injection H as ->. }
    apply bind_raise_inv in H as [H|(t2 & c3 & _ & H)]; [|discriminate H].
    apply IHr in H as [(leaf & c4 & Hin & H)|[(op & Hin & H)|[-> Hn]]].
    + left. exists leaf, c4. split; [|exact H]. apply in_or_app. now right.
    + right. left. exists op. split; [|exact H].
      apply in_or_app. right. now right.
    + right. right. split; [reflexivity|].
      intros E. now apply app_eq_nil in E as [_ E].
Qed.

(** When an expression compiles, the compiler is left as compiling its
    leaves alone, from left to right, leaves it, and every operator of
    the expression is in [OPERATORS]: [visit_getitem_binary] and
    [visit_any] assign nothing of the compiler themselves, and [visit_any]
    compiles its left side before its right side. *)
Theorem process_element_leaves (e : element) (c c' : compiler)
  (text : string) :
  process_element sa OPERATORS e c = Return (text, c') ->
  (exists texts, mapM (SA.process sa) (leaves e) c = Return (texts, c'))
  /\ Forall (fun operator => exists o, OPERATORS operator = Return o)
            (operators e).
Proof.
  revert c c' text.
  induction e as [leaf|l IHl k|l IHl r|l IHl operator r IHr];
    intros c c' text H; cbn [process_element leaves operators] in *.
  - split; [|constructor]. exists [text]. cbn [mapM]. unfold bind.
    now rewrite H.
  - apply bind_inv in H as (t & c1 & Hl & H).
    apply ret_inv in H as [_ <-]. now apply IHl in Hl.
  - apply bind_inv in H as (t & c1 & _ & H). discriminate H.
  - apply bind_inv in H as (t & c1 & Hl & H).
    apply bind_inv in H as (o & c2 & Ho & H).
    apply bind_inv in H as (t2 & c3 & Hr & H).
    apply ret_inv in H as [_ <-].
    unfold lift in Ho. destruct (OPERATORS operator) as [o'|] eqn:Eo;
      [|discriminate Ho].
    injection Ho as <- <-.
    apply IHl in Hl as [[ts1 Hl] Fl]. apply IHr in Hr as [[ts2 Hr] Fr].
    split.
    + exists (app ts1 ts2). now apply mapM_app with (s1 := c1).
    + apply Forall_app. split; [exact Fl|].
      constructor; [now exists o' | exact Fr].
Qed.

End ExpressionFacts.

(* ================================================================== *)
(** * visit_insert and visit_update: errors, single rows, the stack *)

Section InsertFacts.
Variables Table Column Clause ColKey Internals : Type.
Variable sa : SA.t Table Column Clause ColKey Internals.
Variable self : Settings.t.

Local Abbreviation stmt := (Stmt.t Table Column Clause).
Local Abbreviation compiler := (Compiler.t Table Column Clause ColKey Internals).

(** The two [NotImplementedError] of the custom path of [visit_insert]
    (server below the threshold, SQLAlchemy before 1.4), once
    [crud._get_crud_params] has returned [crud_params] for the compiler
    with the new stack entry and [isinsert] set.  Without crud parameters,
    for a dialect that supports neither default values nor empty inserts,
    the empty insert is refused.  Otherwise a statement with multiple
    parameter sets is refused for a dialect that does not support
    multivalues inserts.  Both messages name the dialect. *)
Theorem visit_insert_not_implemented (insert_stmt : stmt) (c c2 : compiler)
  (crud_params : Values (Column * string)) :
  let dialect := Settings.dialect self in
  tuple_ge (Dialect.server_version_info dialect)
           INSERT_SELECT_WITHOUT_PARENTHESES_MIN_VERSION = false ->
  Settings.SA_VERSION_ge_SA_1_4 self = false ->
  SA.crud_get_crud_params sa insert_stmt
    (set_isinsert true
       (set_stack (app (Compiler.stack c) [([], [], insert_stmt)]) c))
  = Return (crud_params, c2) ->
  (values_nonempty crud_params = false ->
   Dialect.supports_default_values dialect = false ->
   Dialect.supports_empty_insert dialect = false ->
   visit_insert sa self insert_stmt c
   = Raise (NotImplementedError
              ("The '" ++ Dialect.name dialect ++
               "' dialect with current database version settings does " ++
               "not support empty inserts.")))
  /\ (values_nonempty crud_params
      || Dialect.supports_default_values dialect
      || Dialect.supports_empty_insert dialect = true ->
      Stmt._has_multi_parameters insert_stmt = true ->
      Dialect.supports_multivalues_insert dialect = false ->
      visit_insert sa self insert_stmt c
      = Raise (NotImplementedError
                 ("The '" ++ Dialect.name dialect ++
                  "' dialect with current database " ++
                  "version settings does not support " ++
                  "in-place multirow inserts."))).
Proof.
  intros dialect Ev E14 Hcrud.
  assert (E : forall k : Values (Column * string) -> M compiler string,
             bind (stack_append ([], [], insert_stmt))
               (fun _ => bind (modify (set_isinsert true))
                  (fun _ => bind (SA.crud_get_crud_params sa insert_stmt) k))
               c
             = k crud_params c2).
  { intros k. unfold bind, stack_append, modify. now rewrite Hcrud. }
  split.
  - intros H1 H2 H3. unfold visit_insert. cbv zeta. fold dialect.
    rewrite Ev, E14, E, H1, H2, H3. reflexivity.
  - intros H1 H2 H3. unfold visit_insert. cbv zeta. fold dialect.
    rewrite Ev, E14, E, H2, H3.
    destruct (values_nonempty crud_params),
             (Dialect.supports_default_values dialect),
             (Dialect.supports_empty_insert dialect);
      try discriminate H1; reflexivity.
Qed.

(** A single-row INSERT that is no INSERT from a SELECT, compiled by the
    custom path: after the head (which starts with [INSERT ], and ends
    with the table) the text is [DEFAULT VALUES] and no column list when
    there are no crud parameters and the dialect supports default values;
    otherwise it is the list of the formatted columns of the crud
    parameters between parentheses, [VALUES] and the list of their bind
    texts between parentheses, one bind text for every column, in the same
    order (both lists are empty for an empty insert).  A RETURNING clause
    can stand before [VALUES] or [DEFAULT VALUES], or at the end. *)
Theorem visit_insert_single_row (insert_stmt : stmt) (c c' : compiler)
  (text : string) :
  tuple_ge (Dialect.server_version_info (Settings.dialect self))
           INSERT_SELECT_WITHOUT_PARENTHESES_MIN_VERSION = false ->
  Settings.SA_VERSION_ge_SA_1_4 self = false ->
  Stmt._has_multi_parameters insert_stmt = false ->
  Stmt.select insert_stmt = None ->
  visit_insert sa self insert_stmt c = Return (text, c') ->
  exists (row : list (Column * string)) (head mid tail : string)
         (c1 c2 : compiler),
    SA.crud_get_crud_params sa insert_stmt c1 = Return (Row row, c2)
    /\ extends "INSERT " head
    /\ (mid = "" \/ exists columns,
                      mid = " RETURNING " ++ Py.join ", " columns)
    /\ (tail = "" \/ exists columns,
                       tail = " RETURNING " ++ Py.join ", " columns)
    /\ text
       = if negb (nonempty row)
            && Dialect.supports_default_values (Settings.dialect self)
         then head ++ mid ++ " DEFAULT VALUES" ++ tail
         else head
              ++ " (" ++ Py.join ", "
                           (map (fun e => SA.format_column sa (fst e)) row)
              ++ ")" ++ mid
              ++ " VALUES (" ++ Py.join ", " (map snd row) ++ ")" ++ tail.
Proof.
  intros Ev E14 Hmulti Hsel H.
  apply visit_insert_custom_inv in H
    as (crud_params & single & head & mid & body & tail & c1 & c2 & c3 & c4
        & c5 & Hcrud & Hrow & Hhead & Hmid & Htail & -> & Hbody); trivial.
  rewrite Hmulti in Hrow. rewrite Hsel, Hmulti in Hbody.
  destruct crud_params as [row|rows]; [|discriminate Hrow].
  apply ret_inv in Hrow as [<- _].
  exists row, head, mid, tail, c1, c2.
  split; [exact Hcrud|]. split; [exact Hhead|].
  split; [exact Hmid|]. split; [exact Htail|].
  cbn [values_nonempty] in Hbody.
  destruct (negb (nonempty row)
            && Dialect.supports_default_values (Settings.dialect self))
    eqn:Ed.
  - subst body. apply andb_prop in Ed as [Er ->].
    apply negb_true_iff in Er. rewrite Er. reflexivity.
  - destruct Hbody as (row' & [= <-] & ->).
    assert (Ec : nonempty row
                 || negb (Dialect.supports_default_values
                            (Settings.dialect self)) = true).
    { destruct (nonempty row),
               (Dialect.supports_default_values (Settings.dialect self));
        trivial; discriminate Ed. }
    rewrite Ec. now rewrite !append_assoc.
Qed.

End InsertFacts.

(** ** The stack *)

Section StackFacts.
Variables Table Column Clause ColKey Internals : Type.
Variable sa : SA.t Table Column Clause ColKey Internals.
Variable self : Settings.t.

Local Abbreviation stmt := (Stmt.t Table Column Clause).
Local Abbreviation compiler := (Compiler.t Table Column Clause ColKey Internals).

Lemma keeps_ret {A : Type} (a : A) : keeps_stack (ret a : M compiler A).
Proof. intros c a' c' H. now apply ret_inv in H as [_ <-]. Qed.

Lemma keeps_raise {A : Type} (e : exn) : keeps_stack (raise e : M compiler A).
Proof. intros c a c' H. discriminate H. Qed.

Lemma keeps_get : keeps_stack (get : M compiler compiler).
Proof. intros c a c' H. now injection H as _ <-. Qed.

Lemma keeps_modify (f : compiler -> compiler) :
  (forall c, Compiler.stack (f c) = Compiler.stack c) ->
  keeps_stack (modify f).
Proof. intros Hf c a c' H. injection H as _ <-. apply Hf. Qed.

Lemma keeps_bind {A B : Type} (m : M compiler A) (k : A -> M compiler B) :
  keeps_stack m -> (forall a, keeps_stack (k a)) -> keeps_stack (bind m k).
Proof.
  intros Hm Hk c b c' H. apply bind_inv in H as (a & c1 & H1 & H2).
  apply Hk in H2. apply Hm in H1. congruence.
Qed.

Lemma keeps_mapM {A B : Type} (f : A -> M compiler B) (l : list A) :
  (forall a, keeps_stack (f a)) -> keeps_stack (mapM f l).
Proof.
  intros Hf. induction l as [|a l IH]; cbn [mapM].
  - apply keeps_ret.
  - apply keeps_bind; [apply Hf|]. intros b.
    apply keeps_bind; [exact IH|]. intros bs. apply keeps_ret.
Qed.

Lemma pops_raise {A : Type} (e : exn) : pops_stack (raise e : M compiler A).
Proof. intros c a c' H. discriminate H. Qed.

Lemma pops_stack_pop : pops_stack (stack_pop (Table := Table)
  (Column := Column) (Clause := Clause) (ColKey := ColKey)
  (Internals := Internals)).
Proof.
  intros c a c' H. unfold stack_pop in H.
  apply bind_inv in H as (c0 & c1 & Hg & H). injection Hg as <- <-.
  destruct (Compiler.stack c) eqn:E; [discriminate H|].
  now injection H as _ <-.
Qed.

Lemma pops_after_keeps {A B : Type} (m : M compiler A)
  (k : A -> M compiler B) :
  keeps_stack m -> (forall a, pops_stack (k a)) -> pops_stack (bind m k).
Proof.
  intros Hm Hk c b c' H. apply bind_inv in H as (a & c1 & H1 & H2).
  apply Hk in H2. apply Hm in H1. congruence.
Qed.

Lemma pops_then_keeps {A B : Type} (m : M compiler A)
  (k : A -> M compiler B) :
  pops_stack m -> (forall a, keeps_stack (k a)) -> pops_stack (bind m k).
Proof.
  intros Hm Hk c b c' H. apply bind_inv in H as (a & c1 & H1 & H2).
  apply Hk in H2. apply Hm in H1. congruence.
Qed.

(** What is pushed and then popped leaves the stack as it was. *)
Lemma keeps_push_pop {B : Type}
  (entry : list Table * list Table * stmt) (k : unit -> M compiler B) :
  (forall a, pops_stack (k a)) -> keeps_stack (bind (stack_append entry) k).
Proof.
  intros Hk c b c' H. apply bind_inv in H as (a & c1 & H1 & H2).
  apply Hk in H2. injection H1 as _ <-. rewrite H2. cbn.
  apply removelast_last.
Qed.

End StackFacts.

Arguments keeps_bind {Table Column Clause ColKey Internals A B} m k.
Arguments pops_after_keeps {Table Column Clause ColKey Internals A B} m k.
Arguments pops_then_keeps {Table Column Clause ColKey Internals A B} m k.

(** Goes through code that leaves the stack alone. *)
Ltac keeps :=
  repeat first
    [ apply keeps_ret
    | apply keeps_raise
    | apply keeps_get
    | apply keeps_modify; intros; reflexivity
    | apply keeps_mapM; intros
    | apply keeps_bind; [|intros]
    | assumption
    | match goal with
      | H : _ |- keeps_stack _ => solve [apply H]
      | |- keeps_stack (match ?x with _ => _ end) => destruct x
      end ].

(** Goes through code that ends with [self.stack.pop(-1)]. *)
Ltac pops :=
  repeat first
    [ apply pops_raise
    | apply pops_then_keeps; [apply pops_stack_pop | intros; apply keeps_ret]
    | apply pops_after_keeps; [solve [keeps] | intros]
    | match goal with
      | |- pops_stack (match ?x with _ => _ end) => destruct x
      end ].

Section StackTheorems.
Variables Table Column Clause ColKey Internals : Type.
Variable sa : SA.t Table Column Clause ColKey Internals.
Variable self : Settings.t.
Hypothesis discipline : stack_discipline sa.

Local Abbreviation stmt := (Stmt.t Table Column Clause).
Local Abbreviation compiler := (Compiler.t Table Column Clause ColKey Internals).

Lemma keeps_returning_clause (s : stmt) (cols : list Column) :
  keeps_stack (returning_clause sa s cols).
Proof. destruct discipline. unfold returning_clause. keeps. Qed.

Lemma keeps_path_clause (kv : string * value) : keeps_stack (path_clause sa kv).
Proof. destruct discipline. unfold path_clause. keeps. Qed.

Lemma keeps_get_crud_params (s : stmt) :
  keeps_stack (_get_crud_params sa self s).
Proof. destruct discipline. unfold _get_crud_params. keeps. Qed.

Lemma keeps_get_crud_params_14 (s : stmt)
  (cs : CompileState.t Table Column Clause) :
  keeps_stack (_get_crud_params_14 sa self s cs).
Proof. destruct discipline. unfold _get_crud_params_14. keeps. Qed.

Lemma keeps_visit_update_custom (s : stmt) :
  keeps_stack (visit_update_custom sa self s).
Proof.
  pose proof keeps_returning_clause. pose proof keeps_path_clause.
  pose proof keeps_get_crud_params.
  destruct discipline.
  unfold visit_update_custom, one_row, parameters_items. keeps.
Qed.

Lemma keeps_visit_update_14 (s : stmt) :
  keeps_stack (visit_update_14 sa self s).
Proof.
  pose proof keeps_returning_clause. pose proof keeps_path_clause.
  pose proof keeps_get_crud_params_14.
  destruct discipline.
  unfold visit_update_14, one_row.
  apply keeps_bind; [solve [keeps] | intros cs].
  apply keeps_bind; [solve [keeps] | intros c0]. cbv zeta.
  apply keeps_bind; [solve [keeps] | intros u].
  apply keeps_push_pop. intros u0. pops.
Qed.

(** [visit_insert] leaves the stack of the compiler as it found it when
    it returns, on each of its paths, provided every call into SQLAlchemy
    does: the entry it pushes for the statement is the entry it pops. *)
Theorem visit_insert_keeps_stack (insert_stmt : stmt) (c c' : compiler)
  (text : string) :
  visit_insert sa self insert_stmt c = Return (text, c') ->
  Compiler.stack c' = Compiler.stack c.
Proof.
  revert c text c'.
  change (keeps_stack (visit_insert sa self insert_stmt)).
  pose proof keeps_returning_clause.
  destruct discipline.
  unfold visit_insert. cbv zeta.
  destruct (tuple_ge _ _); [solve [keeps]|].
  destruct (Settings.SA_VERSION_ge_SA_1_4 self); [apply keeps_raise|].
  apply keeps_push_pop. intros u. unfold one_row, first_row, all_rows. pops.
Qed.

(** [visit_update] leaves the stack of the compiler as it found it when
    it returns, provided every call into SQLAlchemy does: before
    SQLAlchemy 1.4 it does not touch the stack, from 1.4 on the entry
    [visit_update_14] pushes for the statement is the entry it pops. *)
Theorem visit_update_keeps_stack (update_stmt : stmt) (c c' : compiler)
  (text : string) :
  visit_update sa self update_stmt c = Return (text, c') ->
  Compiler.stack c' = Compiler.stack c.
Proof.
  revert c text c'.
  change (keeps_stack (visit_update sa self update_stmt)).
  unfold visit_update.
  destruct (Settings.SA_VERSION_ge_SA_1_4 self);
    [apply keeps_visit_update_14|].
  destruct (negb _ && negb _);
    [apply (keeps_base_visit_update discipline)
    | apply keeps_visit_update_custom].
Qed.

End StackTheorems.

(* ================================================================== *)
(** * The resolvers of crud parameters: all columns, executemany *)

Lemma mapM_total {S A B : Type} (f : A -> M S B) (l : list A) :
  (forall a s, exists b s', f a s = Return (b, s')) ->
  forall s, exists bs s', mapM f l s = Return (bs, s').
Proof.
  intros Hf. induction l as [|a l IH]; intros s; cbn [mapM].
  - now exists [], s.
  - destruct (Hf a s) as (b & s1 & Hb). destruct (IH s1) as (bs & s2 & Hbs).
    exists (b :: bs), s2. unfold bind. now rewrite Hb, Hbs.
Qed.

Lemma mapM_tagged {S A B C : Type} (g : A -> M S B) (tag : A -> B -> C)
  (l : list A) (vs : list C) (s s' : S) :
  mapM (fun a => bind (g a) (fun b => ret (tag a b))) l s = Return (vs, s') ->
  Forall2 (fun a v => exists b s1 s2, g a s1 = Return (b, s2) /\ v = tag a b)
          l vs.
Proof.
  intros H. apply mapM_inv in H. revert H. apply Forall2_impl.
  intros a v (s1 & s2 & H). apply bind_inv in H as (b & s3 & Hb & H).
  apply ret_inv in H as [<- _]. now exists b, s1, s3.
Qed.

Section CrudFacts.
Variables Table Column Clause ColKey Internals : Type.
Variable sa : SA.t Table Column Clause ColKey Internals.
Variable self : Settings.t.

Local Abbreviation stmt := (Stmt.t Table Column Clause).
Local Abbreviation cstate := (CompileState.t Table Column Clause).
Local Abbreviation compiler := (Compiler.t Table Column Clause ColKey Internals).

(** Without column keys and without parameters in the statement, each
    resolver returns one entry for every column of the table, in the
    order of the columns, whether the statement is flagged as multi-row or
    not: the column and the bind parameter SQLAlchemy creates for it
    and, in [_get_crud_params_14], the formatted column between them.  It
    does return, as soon as the creation of a bind parameter (and, for
    [_get_crud_params_14], of the key getters) does. *)
Theorem crud_params_all_columns (stmt_ : stmt) (compile_state : cstate)
  (c : compiler) :
  Settings.column_keys self = None ->
  (Stmt.parameters stmt_ = PNone ->
   (forall col c0, exists b c1,
       SA.crud_create_bind_param sa col c0 = Return (b, c1)) ->
   exists vs c',
     _get_crud_params sa self stmt_ c = Return (Row vs, c')
     /\ Forall2 (fun col v =>
                   exists b c0 c1,
                     SA.crud_create_bind_param sa col c0 = Return (b, c1)
                     /\ v = (col, b))
                (SA.columns sa (Stmt.table stmt_)) vs)
  /\ (CompileState._no_parameters compile_state = true ->
      (forall c0, exists g c1,
          SA._key_getters_for_crud_column sa stmt_ compile_state c0
          = Return (g, c1)) ->
      (forall col c0, exists b c1,
          SA._create_bind_param sa col c0 = Return (b, c1)) ->
      exists vs c',
        _get_crud_params_14 sa self stmt_ compile_state c = Return (Row vs, c')
        /\ Forall2 (fun col v =>
                      exists b c0 c1,
                        SA._create_bind_param sa col c0 = Return (b, c1)
                        /\ v = (col, SA.format_column sa col, b))
                   (SA.columns sa (Stmt.table stmt_)) vs).
Proof.
  intros Ek. split.
  - intros Ep Hb. unfold _get_crud_params. rewrite Ek, Ep.
    destruct (mapM_total
                (fun col => bind (SA.crud_create_bind_param sa col)
                                 (fun b => ret (col, b)))
                (SA.columns sa (Stmt.table stmt_))) with (s := reset_fetch c)
      as (vs & c' & Hvs).
    { intros col c0. destruct (Hb col c0) as (b & c1 & E).
      exists (col, b), c1. unfold bind. now rewrite E. }
    exists vs, c'. split.
    + unfold bind at 1. unfold modify at 1. unfold bind at 1.
      now rewrite Hvs.
    + now apply mapM_tagged in Hvs.
  - intros En Hg Hb. unfold _get_crud_params_14. rewrite Ek, En.
    destruct (Hg (reset_fetch c)) as (g & c1 & Eg).
    destruct (mapM_total
                (fun col => bind (SA._create_bind_param sa col)
                                 (fun b => ret (col, SA.format_column sa col, b)))
                (SA.columns sa (Stmt.table stmt_)))
      with (s := set_key_getters g c1) as (vs & c' & Hvs).
    { intros col c0. destruct (Hb col c0) as (b & c2 & E).
      exists (col, SA.format_column sa col, b), c2. unfold bind.
      now rewrite E. }
    exists vs, c'. split.
    + unfold bind at 1. unfold modify at 1. unfold bind at 1. rewrite Eg.
      unfold bind at 1. unfold modify at 1. unfold bind at 1.
      now rewrite Hvs.
    + now apply (mapM_tagged _ (fun col b => (col, SA.format_column sa col, b)) _ _)
        in Hvs.
Qed.

(** For a compilation for [executemany] of a statement that is not
    multi-row, [_get_crud_params_14] never returns an empty row for a
    table that has a column: what it returns is a row of the bind
    parameters of all the columns (no column keys and no parameters), or
    the non-empty row sqlalchemy.sql.crud has scanned, or, when that is
    empty, the one entry of the first column of the table with the text
    [DEFAULT] for its value. *)
Theorem crud_params_14_executemany (stmt_ : stmt) (compile_state : cstate)
  (c c' : compiler) (v : Values (Column * string * string)) :
  Settings.for_executemany self = true ->
  CompileState._has_multi_parameters compile_state = false ->
  _get_crud_params_14 sa self stmt_ compile_state c = Return (v, c') ->
  exists row,
    v = Row row
    /\ ((Settings.column_keys self = None
         /\ CompileState._no_parameters compile_state = true
         /\ map (fun e => fst (fst e)) row = SA.columns sa (Stmt.table stmt_))
        \/ (exists c0 rest,
              SA.columns sa (Stmt.table stmt_) = c0 :: rest
              /\ row = [(c0, SA.format_column sa c0, "DEFAULT")])
        \/ (row <> []
            /\ exists p g k v0 c1 p' k' c2,
                 SA._scan_cols sa stmt_ compile_state p g k v0 c1
                 = Return (p', k', row, c2)
                 \/ SA._scan_insert_from_select_cols sa stmt_ compile_state
                      p g k v0 c1
                    = Return (p', k', row, c2))).
Proof.
  intros Hex Hmulti H. unfold _get_crud_params_14 in H.
  step H u0 c0 H0. step H g c1 H1. step H u1 c2 H2.
  destruct (Settings.column_keys self) as [keys|] eqn:Ek;
    [|destruct (CompileState._no_parameters compile_state) eqn:En].
  2:{ (* all the columns *)
      step H vs c3 H3. apply ret_inv in H as [<- _].
      exists vs. split; [reflexivity|]. left.
      split; [reflexivity|]. split; [reflexivity|].
      apply (mapM_tagged _ (fun col b => (col, SA.format_column sa col, b)) _ _)
        in H3.
      clear - H3. induction H3 as [|col e cols es (b & _ & _ & _ & ->) _ IH];
        cbn [map fst]; [reflexivity | now rewrite IH]. }
  all: rewrite Hmulti in H; cbn [andb] in H.
  all: step H sp c3 H3; destruct sp as [spd tuples].
  all: step H parameters c4 H4.
  all: step H pv c5 H5; destruct pv as [parameters1 values1].
  all: step H cv c6 H6; destruct cv as [check_columns values2].
  all: step H scanned c7 H7; destruct scanned as [[p' k'] values3].
  all: rewrite Hex, andb_true_r in H.
  all: destruct values3 as [|e values3]; cbn [nonempty negb] in H.
  all: try (destruct (SA.columns sa (Stmt.table stmt_)) as [|col0 rest] eqn:Ec;
            [discriminate H|];
            apply ret_inv in H as [<- _];
            eexists; split; [reflexivity|]; right; left;
            now exists col0, rest).
  all: apply ret_inv in H as [<- _].
  all: eexists; split; [reflexivity|]; right; right;
       split; [discriminate|].
  all: revert H7;
       destruct (CompileState.isinsert compile_state
                 && nonempty (Stmt._select_names stmt_));
       intros H7; do 8 eexists; [right | left]; exact H7.
Qed.

End CrudFacts.

(* ================================================================== *)
(** * post_create_table: the keywords *)

Lemma filter_idem {A : Type} (f : A -> bool) (l : list A) :
  filter f (filter f l) = filter f l.
Proof. now apply filter_filter_implies. Qed.

(** The text starts with the partition clause of the options. *)
Lemma post_create_table_starts (dialect_name : string) (kwargs : dict scalar) :
  extends (DDLSpec.special_clause (CrateDDLCompiler.opts dialect_name kwargs))
          (CrateDDLCompiler.post_create_table dialect_name kwargs).
Proof.
  unfold CrateDDLCompiler.post_create_table, CrateDDLCompiler.scan.
  set (o := CrateDDLCompiler.opts dialect_name kwargs).
  rewrite scan_from.
  cbn [CrateDDLCompiler.special_options CrateDDLCompiler.clustered_options
       CrateDDLCompiler.table_opts app append].
  rewrite special_lookup by apply (dict_of_keys_nodup String.eqb_spec).
  grows.
Qed.

(** Only the keywords of the dialect count: the text is that of the
    keywords that start with the name of the dialect and an underscore,
    the others are not read; and a table without such a keyword gets the
    empty text, so that nothing follows the column list of its
    [CREATE TABLE]. *)
Theorem post_create_table_other_keywords (dialect_name : string)
  (kwargs : dict scalar) :
  CrateDDLCompiler.post_create_table dialect_name kwargs
  = CrateDDLCompiler.post_create_table dialect_name
      (filter (fun kv => is_option dialect_name (fst kv)) kwargs)
  /\ ((forall k, In k (dict_keys kwargs) -> is_option dialect_name k = false) ->
      CrateDDLCompiler.post_create_table dialect_name kwargs = "").
Proof.
  assert (E : forall kw,
             CrateDDLCompiler.opts_items dialect_name
               (filter (fun kv => is_option dialect_name (fst kv)) kw)
             = CrateDDLCompiler.opts_items dialect_name kw).
  { intros kw. unfold CrateDDLCompiler.opts_items, is_option.
    now rewrite filter_idem. }
  split.
  - unfold CrateDDLCompiler.post_create_table, CrateDDLCompiler.opts.
    now rewrite E.
  - intros H.
    assert (E0 : CrateDDLCompiler.opts_items dialect_name kwargs = []).
    { unfold CrateDDLCompiler.opts_items. rewrite filter_none; [reflexivity|].
      intros kv Hin. apply H. now apply in_map. }
    unfold CrateDDLCompiler.post_create_table, CrateDDLCompiler.opts.
    rewrite E0. reflexivity.
Qed.

(** The option names are compared after they are put in upper case, so
    that two keywords can name one option; then the last one counts.  The
    value of an option in [opts] is that of the last keyword of the
    dialect that names it, and for [PARTITIONED_BY] the text starts with
    the partition clause of that value. *)
Theorem table_option_last_keyword (dialect_name : string)
  (before after : dict scalar) (k : string) (v : scalar) :
  is_option dialect_name k = true ->
  (forall k', In k' (dict_keys after) ->
              is_option dialect_name k' = true ->
              option_name dialect_name k' <> option_name dialect_name k) ->
  str_get (option_name dialect_name k)
          (CrateDDLCompiler.opts dialect_name (app before ((k, v) :: after)))
  = Some v
  /\ (option_name dialect_name k = "PARTITIONED_BY" ->
      extends (" PARTITIONED BY (" ++ py_str v ++ ")")
              (CrateDDLCompiler.post_create_table dialect_name
                 (app before ((k, v) :: after)))).
Proof.
  intros Hk Hafter.
  assert (G : str_get (option_name dialect_name k)
                (CrateDDLCompiler.opts dialect_name
                   (app before ((k, v) :: after))) = Some v).
  { unfold CrateDDLCompiler.opts, CrateDDLCompiler.opts_items, dict_of.
    rewrite filter_app, map_app, fold_left_app.
    cbn [filter fst]. fold (is_option dialect_name k). rewrite Hk.
    cbn [map fold_left fst snd]. fold (option_name dialect_name k).
    rewrite (dict_get_fold_other String.eqb_spec).
    - rewrite (dict_get_set String.eqb_spec). now rewrite String.eqb_refl.
    - rewrite map_map. cbn [fst]. intros Hin.
      apply in_map_iff in Hin as [[k' v'] [E Hin]]. cbn [fst] in E.
      apply filter_In in Hin as [Hin Hopt]. cbn [fst] in Hopt.
      apply (Hafter k'); [now apply (in_map fst) in Hin|exact Hopt|exact E]. }
  split; [exact G|].
  intros Ep.
  pose proof (post_create_table_starts dialect_name
                (app before ((k, v) :: after))) as Hs.
  unfold DDLSpec.special_clause in Hs. rewrite Ep in G. now rewrite G in Hs.
Qed.

(* ================================================================== *)
(** * rewrite_update: what is not a changed document *)

Lemma item_writes_key (kv : string * value) (x : string) :
  In x (map fst (item_writes kv)) ->
  x = fst kv \/ Py.contains_char "["%char x = true.
Proof.
  destruct kv as [key val]. unfold item_writes. cbn [fst snd].
  assert (D : forall items c d,
             In x (map fst (document_writes key items c d)) ->
             Py.contains_char "["%char x = true).
  { intros items c d Hin. rewrite document_writes_keys, <- map_app in Hin.
    apply in_map_iff in Hin as [sub [<- _]]. apply path_bracket. }
  destruct val as [s|items|items c d]; cbn [map fst];
    try (intros [<-|[]]; now left).
  destruct (is_dirty (VMutableDict items c d)).
  - intros Hin. right. now apply D in Hin.
  - intros [<-|[]]. now left.
Qed.

(** In a mapping whose keys are column names (pairwise different,
    without a ['[']), every parameter that is not a document [any] sees
    as changed is still bound under its own key to its own value after
    the rewrite, whatever documents the mapping holds besides. *)
Theorem rewrite_params_keeps_others (ps : dict value) (key : string)
  (val : value) :
  NoDup (dict_keys ps) ->
  (forall k, In k (dict_keys ps) -> Py.contains_char "["%char k = false) ->
  In (key, val) ps ->
  is_dirty val = false ->
  str_get key (rewrite_params ps) = Some val.
Proof.
  intros ND Hk Hin Hclean.
  assert (Hkey : Py.contains_char "["%char key = false).
  { apply Hk. now apply (in_map fst) in Hin. }
  apply in_split in Hin as [p1 [p2 ->]].
  unfold dict_keys in ND, Hk. rewrite map_app in ND, Hk. cbn [map fst] in ND, Hk.
  pose proof (NoDup_remove_2 _ _ _ ND) as Hn.
  rewrite rewrite_params_writes, flat_map_app. cbn [flat_map].
  rewrite (item_writes_clean (key, val)) by exact Hclean.
  unfold dict_of. rewrite fold_left_app. cbn [app fold_left fst snd].
  rewrite (dict_get_fold_other String.eqb_spec).
  - rewrite (dict_get_set String.eqb_spec). now rewrite String.eqb_refl.
  - intros Hw. apply in_map_iff in Hw as [[x y] [E Hw]]. cbn [fst] in E.
    subst x. apply in_flat_map in Hw as [kv [Hkv Hw]].
    apply (in_map fst) in Hw. cbn [fst] in Hw.
    apply item_writes_key in Hw as [E|E].
    + apply Hn. rewrite in_app_iff. right. rewrite E.
      now apply in_map.
    + rewrite Hkey in E. discriminate E.
Qed.

(* ================================================================== *)
(** * rewrite_update: the keys of the rewritten mapping *)

Lemma dict_set_keys_in {V : Type} (k k0 : string) (v : V) (d : dict V) :
  In k (map fst (str_set k0 v d)) -> k = k0 \/ In k (map fst d).
Proof.
  induction d as [|[k1 v1] d IH]; cbn [dict_set map fst].
  - intros [<-|[]]. now left.
  - destruct (String.eqb k0 k1); cbn [map fst]; [now right|].
    intros [<-|H]; [right; now left|].
    apply IH in H as [->|H]; [now left | right; now right].
Qed.

Lemma str_of_keys_in {V : Type} (k : string) (l : list (string * V)) :
  In k (map fst (str_of l)) -> In k (map fst l).
Proof.
  unfold dict_of.
  assert (G : forall d,
             In k (map fst (fold_left
                              (fun d kv => str_set (fst kv) (snd kv) d) l d)) ->
             In k (map fst d) \/ In k (map fst l)).
  { induction l as [|[k0 v0] l IH]; cbn [fold_left map fst snd]; intros d H;
      [now left|].
    apply IH in H as [H|H]; [|right; now right].
    apply dict_set_keys_in in H as [->|H]; [right; now left | now left]. }
  intros H. now apply G in H as [[]|H].
Qed.

(** A key that is written last, under its value *)
Lemma str_get_last_write {V : Type} (k : string) (v : V)
  (l1 l2 : list (string * V)) :
  ~ In k (map fst l2) ->
  str_get k (str_of (app l1 ((k, v) :: l2))) = Some v.
Proof.
  intros Hn. unfold dict_of. rewrite fold_left_app. cbn [fold_left fst snd].
  rewrite (dict_get_fold_other String.eqb_spec) by exact Hn.
  rewrite (dict_get_set String.eqb_spec). now rewrite String.eqb_refl.
Qed.

(** The rewrite invents no key: a key of the rewritten mapping is a key
    of the mapping, or it is [col['sub']] for a [MutableDict] bound to
    [col] in the mapping and a key [sub] that is deleted, or changed and
    an item of the document. *)
Theorem rewrite_params_keys (ps : dict value) (k : string) :
  In k (dict_keys (rewrite_params ps)) ->
  In k (dict_keys ps)
  \/ exists col items _changed_keys _deleted_keys sub,
       In (col, VMutableDict items _changed_keys _deleted_keys) ps
       /\ k = path col sub
       /\ ((In sub (dict_keys items) /\ In sub _changed_keys)
           \/ In sub _deleted_keys).
Proof.
  unfold dict_keys. rewrite rewrite_params_writes. intros H.
  apply str_of_keys_in in H.
  apply in_map_iff in H as [[k' v] [E H]]. cbn [fst] in E. subst k'.
  apply in_flat_map in H as [[col val] [Hin Hw]].
  unfold item_writes in Hw. cbn [fst snd] in Hw.
  assert (Hown : In (k, v) [(col, val)] -> In k (map fst ps)).
  { intros [[= <- <-]|[]]. now apply (in_map fst) in Hin. }
  destruct val as [s|items|items c d]; try (left; now apply Hown).
  destruct (is_dirty (VMutableDict items c d)); [|left; now apply Hown].
  right. exists col, items, c, d.
  unfold document_writes in Hw. apply in_app_iff in Hw as [Hw|Hw].
  - apply in_map_iff in Hw as [[sub x] [[= <- <-] Hf]].
    apply filter_In in Hf as [Hi Hm]. cbn [fst] in *.
    exists sub. split; [exact Hin|]. split; [reflexivity|]. left.
    split; [now apply (in_map fst) in Hi | now apply set_mem_in].
  - apply in_map_iff in Hw as [sub [[= <- <-] Hd]].
    exists sub. split; [exact Hin|]. split; [reflexivity|]. now right.
Qed.

(* ================================================================== *)
(** * From the hook to the SET clause *)

Lemma Forall2_In_left {A B : Type} (R : A -> B -> Prop) (l : list A)
  (l' : list B) (x : A) :
  Forall2 R l l' -> In x l -> exists y, In y l' /\ R x y.
Proof.
  induction 1 as [|a b l l' Hab _ IH]; intros Hin; [now elim Hin|].
  destruct Hin as [<-|Hin].
  - exists b. split; [now left | exact Hab].
  - destruct (IH Hin) as (y & Hy & Hr). exists y. split; [now right | exact Hr].
Qed.

(** The entries of the document bound to [col], as the rewritten mapping
    holds them *)
Lemma rewrite_params_document (ps : dict value) (col : string)
  (items : list (string * value)) (c d : list string)
  (e : string * value) :
  NoDup (dict_keys ps) ->
  (forall key, In key (dict_keys ps) -> Py.contains_char "["%char key = false) ->
  In (col, VMutableDict items c d) ps ->
  is_dirty (VMutableDict items c d) = true ->
  In e (str_of (document_writes col items c d)) ->
  In e (rewrite_params ps).
Proof.
  intros ND Hk Hin Hd He.
  rewrite <- (writes_of_document col items c d ps ND Hk Hin Hd) in He.
  assert (E : filter (fun e => Py.startswith (fst e) (col ++ "['"))
                     (rewrite_params ps)
              = str_of (filter (fun e => Py.startswith (fst e) (col ++ "['"))
                               (flat_map item_writes ps))).
  { rewrite rewrite_params_writes. unfold dict_of.
    now rewrite (filter_fold_set String.eqb_spec
                   (fun key => Py.startswith key (col ++ "['"))). }
  rewrite <- E in He. now apply filter_In in He as [He _].
Qed.

Lemma document_writes_deleted (col : string) (items : list (string * value))
  (c d : list string) (sub : string) :
  NoDup d -> In sub d ->
  In (path col sub, VNull) (str_of (document_writes col items c d)).
Proof.
  intros ND Hin. apply (dict_get_some_in String.eqb_spec).
  apply in_split in Hin as [d1 [d2 ->]].
  unfold document_writes. rewrite map_app. cbn [map]. rewrite app_assoc.
  apply str_get_last_write.
  rewrite map_map. cbn [fst]. intros H.
  apply in_map_iff in H as [x [E Hx]]. apply path_inj in E. subst x.
  now apply NoDup_remove_2 in ND; apply ND, in_or_app; right.
Qed.

Lemma document_writes_changed (col : string) (items : list (string * value))
  (c d : list string) (sub : string) (v : value) :
  NoDup (dict_keys items) -> In (sub, v) items -> In sub c -> ~ In sub d ->
  In (path col sub, v) (str_of (document_writes col items c d)).
Proof.
  intros ND Hin Hc Hd. apply (dict_get_some_in String.eqb_spec).
  apply in_split in Hin as [i1 [i2 ->]].
  unfold document_writes. rewrite filter_app. cbn [filter fst].
  rewrite (proj2 (set_mem_in sub c) Hc).
  rewrite map_app. cbn [map fst snd]. rewrite <- app_assoc. cbn [app].
  apply str_get_last_write.
  rewrite map_app, !map_map. cbn [fst]. intros H.
  apply in_app_iff in H as [H|H];
    apply in_map_iff in H as [x [E Hx]]; apply path_inj in E.
  - apply filter_In in Hx as [Hx _]. unfold dict_keys in ND.
    rewrite map_app in ND. cbn [map fst] in ND.
    apply NoDup_remove_2 in ND. apply ND, in_or_app. right.
    rewrite <- E. now apply (in_map fst) in Hx.
  - now subst x.
Qed.

Section EndToEnd.
Variables Table Column Clause ColKey Internals Other : Type.
Variable sa : SA.t Table Column Clause ColKey Internals.
Variable self : Settings.t.

Local Abbreviation stmt := (Stmt.t Table Column Clause).
Local Abbreviation compiler := (Compiler.t Table Column Clause ColKey Internals).
Local Abbreviation element := (ClauseElement Table Column Clause Other).

(** Before SQLAlchemy 1.4, from the hook to the text.  Let the first
    mapping of an UPDATE bind [col] to a [MutableDict] that [any] sees as
    changed, and let [values] of the statement hold the rewritten
    mapping as its parameters.  Then the hook returns the statement with
    the marker, and when [visit_update] compiles that statement, the SET
    clause has the assignment [col['d'] = <bind of null>] for every
    deleted key [d] of the document, and the assignment
    [col['k'] = <bind of v>] for every item [(k, v)] of the document
    whose key is changed and not deleted. *)
Theorem partial_update_set_clause (u clause : stmt) (_params : dict value)
  (col : string) (items : list (string * value))
  (_changed_keys _deleted_keys : list string) (c c' : compiler)
  (text : string) :
  Settings.SA_VERSION_ge_SA_1_4 self = false ->
  NoDup (dict_keys _params) ->
  (forall k, In k (dict_keys _params) -> Py.contains_char "["%char k = false) ->
  In (col, VMutableDict items _changed_keys _deleted_keys) _params ->
  is_dirty (VMutableDict items _changed_keys _deleted_keys) = true ->
  NoDup (dict_keys items) -> NoDup _deleted_keys ->
  SA.values sa u (rewrite_params _params) = Return clause ->
  Stmt.parameters clause
  = PDict (map (fun kv => (KStr (fst kv), snd kv)) (rewrite_params _params)) ->
  forall (_multiparams : list (dict value)) (rest : list (list (dict value)))
         (params : dict value),
  exists clause' : stmt,
    crate_before_execute sa false "CrateDialect" (Update u : element)
                         ((_params :: _multiparams) :: rest) params
    = Return (Update clause',
              [map rewrite_params (_params :: _multiparams)],
              ParamsDict params)
    /\ (visit_update sa self clause' c = Return (text, c') ->
        exists (a b : list string) (head tail : string),
          text = head ++ " SET " ++ Py.join ", " (app a b) ++ tail
          /\ (forall d, In d _deleted_keys ->
                exists bind c1 c2,
                  SA.process_bindparam sa (path col d) VNull c1
                  = Return (bind, c2)
                  /\ In (path col d ++ " = " ++ bind) b)
          /\ (forall k v, In (k, v) items -> In k _changed_keys ->
                          ~ In k _deleted_keys ->
                exists bind c1 c2,
                  SA.process_bindparam sa (path col k) v c1
                  = Return (bind, c2)
                  /\ In (path col k ++ " = " ++ bind) b)).
Proof.
  intros E14 ND Hk Hin Hd NDi NDd Hv Hp _multiparams rest params.
  exists (Stmt.set_crate_specific clause). split.
  { unfold crate_before_execute, rewrite_update. cbn. now rewrite Hv. }
  intros H. unfold visit_update in H. rewrite E14 in H.
  replace (negb (parameters_nonempty
                   (Stmt.parameters (Stmt.set_crate_specific clause)))
           && negb (Stmt.has_crate_specific (Stmt.set_crate_specific clause)))
    with false in H by (cbn; now rewrite andb_false_r).
  apply visit_update_custom_set in H
    as (crud & items0 & a & b & head & tail & c1 & c2 & _ & Hp0 & _ & Hb
        & ->).
  cbn [Stmt.set_crate_specific Stmt.parameters] in Hp0.
  rewrite Hp in Hp0. injection Hp0 as <-.
  assert (G : forall key v,
             In (key, v) (str_of (document_writes col items _changed_keys
                                    _deleted_keys)) ->
             Py.contains_char "["%char key = true ->
             exists bind c3 c4,
               SA.process_bindparam sa key v c3 = Return (bind, c4)
               /\ In (key ++ " = " ++ bind) b).
  { intros key v He Hbr.
    apply (rewrite_params_document _params col items _changed_keys
             _deleted_keys (key, v) ND Hk Hin Hd) in He.
    assert (Hpi : In (key, v)
                     (path_items
                        (map (fun kv : string * value =>
                                (@KStr Column (fst kv), snd kv))
                             (rewrite_params _params)))).
    { apply path_items_spec. split; [|exact Hbr].
      apply in_map_iff. now exists (key, v). }
    destruct (@Forall2_In_left _ _ _ _ _ _ Hb Hpi) as (cl & Hcl & bind & c3 & c4 & Hbind & ->).
    now exists bind, c3, c4. }
  exists a, b, head, tail. split; [reflexivity|]. split.
  - intros d Hdel. apply G; [|apply path_bracket].
    now apply document_writes_deleted.
  - intros k v Hi Hc Hnd. apply G; [|apply path_bracket].
    now apply document_writes_changed.
Qed.

End EndToEnd.

(* ================================================================== *)
(** * visit_update: the clauses after SET *)

Section UpdateClauses.
Variables Table Column Clause ColKey Internals : Type.
Variable sa : SA.t Table Column Clause ColKey Internals.
Variable self : Settings.t.

Local Abbreviation stmt := (Stmt.t Table Column Clause).
Local Abbreviation compiler := (Compiler.t Table Column Clause ColKey Internals).

(** A clause that is left out when its text is empty *)
Lemma optional_clause_inv (flag : bool) (call : M compiler string)
  (sep text text' : string) (c c' : compiler) :
  (if flag
   then bind call (fun t => if negb (String.eqb t "")
                            then ret (text ++ sep ++ t) else ret text)
   else ret text) c = Return (text', c') ->
  exists part,
    text' = text ++ part /\ optional_part sep (returns call) part
    /\ (flag = false -> part = "").
Proof.
  intros H. destruct flag.
  - apply bind_inv in H as (t & c1 & Hcall & H).
    destruct (String.eqb_spec t "") as [->|n]; cbn [negb] in H;
      apply ret_inv in H as [<- _].
    + exists "". rewrite append_nil_r.
      split; [reflexivity|]. split; [now left | reflexivity].
    + exists (sep ++ t). split; [reflexivity|].
      split; [right; exists t; repeat split; trivial; now exists c, c1
             | discriminate].
  - apply ret_inv in H as [<- _]. exists "". rewrite append_nil_r.
    split; [reflexivity|]. split; [now left | reflexivity].
Qed.

Lemma limit_clause_inv (s : stmt) (limit_clause : option string)
  (text : string) (c c' : compiler) :
  SA.update_limit_clause sa s c = Return (limit_clause, c') ->
  exists part,
    match limit_clause with
    | Some l => if negb (String.eqb l "") then text ++ " " ++ l else text
    | None => text
    end = text ++ part
    /\ optional_part " "
         (fun l => returns (SA.update_limit_clause sa s) (Some l)) part.
Proof.
  intros H. destruct limit_clause as [l|].
  - destruct (String.eqb_spec l "") as [->|n]; cbn [negb].
    + exists "". rewrite append_nil_r. split; [reflexivity | now left].
    + exists (" " ++ l). split; [reflexivity|]. right. exists l.
      repeat split; trivial. now exists c, c'.
  - exists "". rewrite append_nil_r. split; [reflexivity | now left].
Qed.

(** The RETURNING clause at the end *)
Lemma returning_after_inv (flag : bool) (s : stmt) (cols : list Column)
  (text text' : string) (c c' : compiler) :
  (if flag && negb (Settings.returning_precedes_values self)
   then bind (returning_clause sa s cols) (fun rc => ret (text ++ " " ++ rc))
   else ret text) c = Return (text', c') ->
  exists part,
    text' = text ++ part /\ optional_returning part
    /\ (part <> "" -> Settings.returning_precedes_values self = false).
Proof.
  intros H.
  destruct (flag && negb (Settings.returning_precedes_values self)) eqn:E.
  - apply bind_inv in H as (rc & c1 & Hrc & H).
    apply ret_inv in H as [<- _].
    unfold returning_clause in Hrc.
    apply bind_inv in Hrc as (columns & c2 & _ & Hrc).
    apply ret_inv in Hrc as [<- _].
    exists (" RETURNING " ++ Py.join ", " columns).
    split; [reflexivity|]. split; [right; now exists columns|].
    intros _. apply andb_prop in E as [_ E]. now apply negb_true_iff in E.
  - apply ret_inv in H as [<- _]. exists "". rewrite append_nil_r.
    split; [reflexivity|]. split; [now left | intros F; now elim F].
Qed.

(** The RETURNING clause before the other clauses, in [visit_update]
    before SQLAlchemy 1.4 *)
Lemma returning_before_custom_inv (s : stmt) (c0 : compiler)
  (text text' : string) (c c' : compiler) :
  (if nonempty (Compiler.returning c0) || nonempty (Stmt._returning s)
   then
     bind (if negb (nonempty (Compiler.returning c0))
           then modify (set_returning (ColKey := ColKey)
                          (Internals := Internals) (Stmt._returning s))
           else ret tt)
       (fun _ =>
          if Settings.returning_precedes_values self
          then bind get
                 (fun c1 => bind (returning_clause sa s (Compiler.returning c1))
                              (fun rc => ret (text ++ " " ++ rc)))
          else ret text)
   else ret text) c = Return (text', c') ->
  exists part,
    text' = text ++ part /\ optional_returning part
    /\ (part <> "" -> Settings.returning_precedes_values self = true).
Proof.
  intros H.
  assert (N : exists part,
             text = text ++ part /\ optional_returning part
             /\ (part <> "" -> Settings.returning_precedes_values self = true)).
  { exists "". rewrite append_nil_r.
    split; [reflexivity|]. split; [now left | intros F; now elim F]. }
  destruct (nonempty (Compiler.returning c0) || nonempty (Stmt._returning s));
    [|apply ret_inv in H as [<- _]; exact N].
  apply bind_inv in H as (u & c1 & _ & H).
  destruct (Settings.returning_precedes_values self);
    [|apply ret_inv in H as [<- _]; exact N].
  apply bind_inv in H as (c2 & c3 & _ & H).
  apply bind_inv in H as (rc & c4 & Hrc & H).
  apply ret_inv in H as [<- _].
  unfold returning_clause in Hrc.
  apply bind_inv in Hrc as (columns & c5 & _ & Hrc).
  apply ret_inv in Hrc as [<- _].
  exists (" RETURNING " ++ Py.join ", " columns).
  split; [reflexivity|]. split; [right; now exists columns | reflexivity].
Qed.

(** The RETURNING clause before the other clauses, in [visit_update_14] *)
Lemma returning_before_14_inv (flag : bool) (s : stmt) (cols : list Column)
  (text text' : string) (c c' : compiler) :
  (if flag && Settings.returning_precedes_values self
   then bind (returning_clause sa s cols) (fun rc => ret (text ++ " " ++ rc))
   else ret text) c = Return (text', c') ->
  exists part,
    text' = text ++ part /\ optional_returning part
    /\ (part <> "" -> Settings.returning_precedes_values self = true).
Proof.
  intros H.
  destruct (flag && Settings.returning_precedes_values self) eqn:E.
  - apply bind_inv in H as (rc & c1 & Hrc & H).
    apply ret_inv in H as [<- _].
    unfold returning_clause in Hrc.
    apply bind_inv in Hrc as (columns & c2 & _ & Hrc).
    apply ret_inv in Hrc as [<- _].
    exists (" RETURNING " ++ Py.join ", " columns).
    split; [reflexivity|]. split; [right; now exists columns|].
    intros _. now apply andb_prop in E as [_ E].
  - apply ret_inv in H as [<- _]. exists "". rewrite append_nil_r.
    split; [reflexivity|]. split; [now left | intros F; now elim F].
Qed.

(** The text of the custom path of [visit_update], clause by clause *)
Lemma visit_update_custom_parts (update_stmt : stmt) (c c' : compiler)
  (text : string) :
  visit_update_custom sa self update_stmt c = Return (text, c') ->
  exists (crud : list (Column * string)) (items : list (PKey Column * value))
         (a b : list string)
         (head returning1 from_ where_ limit_ returning2 : string)
         (c1 c2 : compiler),
    _get_crud_params sa self update_stmt c1 = Return (Row crud, c2)
    /\ Stmt.parameters update_stmt = PDict items
    /\ Forall2 (column_clause sa
                  (nonempty (Stmt._extra_froms update_stmt)
                   && Settings.render_table_with_column_in_update_from self))
               crud a
    /\ Forall2 (path_assignment sa) (path_items items) b
    /\ extends "UPDATE " head
    /\ text = head ++ " SET " ++ Py.join ", " (app a b)
              ++ returning1 ++ from_ ++ where_ ++ limit_ ++ returning2
    /\ (optional_returning returning1
        /\ (returning1 <> "" -> Settings.returning_precedes_values self = true))
    /\ (optional_returning returning2
        /\ (returning2 <> "" -> Settings.returning_precedes_values self = false))
    /\ (optional_part " "
          (fun t => exists hints,
             returns (SA.update_from_clause sa update_stmt
                        (Stmt.table update_stmt)
                        (Stmt._extra_froms update_stmt) hints) t)
          from_
        /\ (Stmt._extra_froms update_stmt = [] -> from_ = ""))
    /\ (optional_part " WHERE "
          (fun t => exists w, Stmt._whereclause update_stmt = Some w
                              /\ returns (SA.process sa w) t)
          where_
        /\ (Stmt._whereclause update_stmt = None -> where_ = ""))
    /\ optional_part " "
         (fun l => returns (SA.update_limit_clause sa update_stmt) (Some l))
         limit_.
Proof.
  intros H. unfold visit_update_custom in H.
  step H u0 c0 H0. step H text1 c1 H1. step H table_text c2 H2.
  step H hp c3 H3. destruct hp as [dialect_hints table_text'].
  step H crud_params c4 H4. step H crud_rows c5 H5.
  step H set_a c6 H6. step H items c7 H7. step H set_b c8 H8.
  step H c9 c9' H9. step H text2 c10 H10.
  step H text3 c11 H11. step H text4 c12 H12.
  step H limit c13 H13. step H c14 c14' H14.
  set (base := ((text1 ++ table_text') ++ " SET ")
               ++ Py.join ", " (app set_a set_b)) in *.
  apply returning_before_custom_inv in H10 as (r1 & -> & Hr1 & Hr1').
  apply optional_clause_inv in H11 as (f & -> & Hf & Hf').
  assert (E12 : exists w,
             text4 = ((base ++ r1) ++ f) ++ w
             /\ optional_part " WHERE "
                  (fun t => exists wc, Stmt._whereclause update_stmt = Some wc
                                       /\ returns (SA.process sa wc) t) w
             /\ (Stmt._whereclause update_stmt = None -> w = "")).
  { destruct (Stmt._whereclause update_stmt) as [wc|].
    - apply (optional_clause_inv true (SA.process sa wc) " WHERE ") in H12
        as (w & -> & Hw & _).
      exists w. split; [reflexivity|]. split; [|discriminate].
      destruct Hw as [->|(t & Ht & Hr & ->)]; [now left|].
      right. exists t. repeat split; trivial. now exists wc.
    - apply ret_inv in H12 as [<- _]. exists "". rewrite append_nil_r.
      split; [reflexivity|]. split; [now left | reflexivity]. }
  destruct E12 as (w & -> & Hw & Hw').
  destruct (@limit_clause_inv _ _ (((base ++ r1) ++ f) ++ w) _ _ H13)
    as (l & El & Hl).
  rewrite El in H.
  apply returning_after_inv in H as (r2 & -> & Hr2 & Hr2').
  destruct crud_params as [row|rows]; [|discriminate H5].
  apply ret_inv in H5 as [<- <-].
  destruct (Stmt.parameters update_stmt) as [|d|ld] eqn:EP;
    try discriminate H7.
  apply ret_inv in H7 as [<- <-].
  exists row, d, set_a, set_b, (text1 ++ table_text'), r1, f, w, l, r2, c3, c4.
  split; [exact H4|]. split; [reflexivity|].
  split; [now apply column_clauses_inv in H6|].
  split; [now apply path_clauses_inv in H8|].
  split; [clear - H1; apply extends_append; crunch H1; grows|].
  split; [unfold base; now rewrite !append_assoc|].
  split; [now split|]. split; [now split|].
  split; [split|].
  { destruct Hf as [->|(t & Ht & Hr & ->)]; [now left|].
    right. exists t. repeat split; trivial. now exists dialect_hints. }
  { intros E. apply Hf'. now rewrite E. }
  split; [now split | exact Hl].
Qed.

(** The text of [visit_update_14], clause by clause; [cte] is the clause
    of the common table expressions, which comes first. *)
Lemma visit_update_14_parts (update_stmt : stmt) (c c' : compiler)
  (text : string) :
  visit_update_14 sa self update_stmt c = Return (text, c') ->
  exists (cs : CompileState.t Table Column Clause)
         (crud : list (Column * string * string))
         (items : list (PKey Column * value)) (a b : list string)
         (cte head returning1 from_ where_ limit_ returning2 : string)
         (c1 : compiler),
    SA._compile_state_factory sa update_stmt c = Return (cs, c1)
    /\ (exists c3 c4,
          _get_crud_params_14 sa self (CompileState.statement cs) cs c3
          = Return (Row crud, c4))
    /\ CompileState._dict_parameters cs = Some items
    /\ Forall2 (column_clause sa
                  (nonempty (CompileState._extra_froms cs)
                   && Settings.render_table_with_column_in_update_from self))
               (map (fun cev => (fst (fst cev), snd cev)) crud) a
    /\ Forall2 (path_assignment sa) (path_items items) b
    /\ extends "UPDATE " head
    /\ text = cte ++ head ++ " SET " ++ Py.join ", " (app a b)
              ++ returning1 ++ from_ ++ where_ ++ limit_ ++ returning2
    /\ (optional_returning returning1
        /\ (returning1 <> "" -> Settings.returning_precedes_values self = true))
    /\ (optional_returning returning2
        /\ (returning2 <> "" -> Settings.returning_precedes_values self = false))
    /\ (optional_part " "
          (fun t => exists hints,
             returns (SA.update_from_clause sa (CompileState.statement cs)
                        (Stmt.table (CompileState.statement cs))
                        (filter
                           (fun f =>
                              negb (table_in sa f
                                      (table_set sa
                                         (SA._from_objects sa
                                            (Stmt.table
                                               (CompileState.statement cs))))))
                           (CompileState._extra_froms cs))
                        hints) t)
          from_
        /\ (CompileState._extra_froms cs = [] -> from_ = ""))
    /\ (optional_part " WHERE "
          (returns (SA._generate_delimited_and_list sa
                      (Stmt._where_criteria (CompileState.statement cs))))
          where_
        /\ (Stmt._where_criteria (CompileState.statement cs) = [] ->
            where_ = ""))
    /\ optional_part " "
         (fun l => returns (SA.update_limit_clause sa
                              (CompileState.statement cs)) (Some l))
         limit_.
Proof.
  intros H. unfold visit_update_14 in H.
  step H cs c0 H0. step H cg cg' Hg. step H u1 c1 H1. step H u2 c2 H2.
  step H text1 c3 H3. step H table_text c4 H4.
  step H crud_params c5 H5.
  step H hp c6 H6. destruct hp as [dialect_hints table_text'].
  step H crud_rows c7 H7. step H set_a c8 H8.
  step H items c9 H9. step H set_b c10 H10.
  step H c11 c11' H11. step H text2 c12 H12.
  step H text3 c13 H13. step H text4 c14 H14.
  step H limit c15 H15. step H c16 c16' H16.
  step H text5 c17 H17. step H c18 c18' H18.
  step H text6 c19 H19. step H u3 c20 H20.
  apply ret_inv in H as [<- _].
  set (base := ((text1 ++ table_text') ++ " SET ")
               ++ Py.join ", " (app set_a set_b)) in *.
  apply returning_before_14_inv in H12 as (r1 & -> & Hr1 & Hr1').
  apply optional_clause_inv in H13 as (f & -> & Hf & Hf').
  apply optional_clause_inv in H14 as (w & -> & Hw & Hw').
  destruct (@limit_clause_inv _ _ (((base ++ r1) ++ f) ++ w) _ _ H15)
    as (l & El & Hl).
  rewrite El in H17.
  apply returning_after_inv in H17 as (r2 & -> & Hr2 & Hr2').
  assert (E19 : exists cte,
             text6 = cte ++ ((((base ++ r1) ++ f) ++ w) ++ l) ++ r2).
  { clear - H19. crunch H19; [now exists x | now exists ""]. }
  destruct E19 as [cte ->].
  destruct crud_params as [row|rows]; [|discriminate H7].
  apply ret_inv in H7 as [<- <-].
  destruct (CompileState._dict_parameters cs) as [d|] eqn:EP;
    [|discriminate H9].
  apply ret_inv in H9 as [<- <-].
  exists cs, row, d, set_a, set_b, cte, (text1 ++ table_text'),
         r1, f, w, l, r2, c0.
  split; [exact H0|]. split; [now exists c4, c5|]. split; [exact EP|].
  split; [now apply column_clauses_14_inv in H8|].
  split; [now apply path_clauses_inv in H10|].
  split; [clear - H3; apply extends_append; crunch H3; grows|].
  split; [unfold base; now rewrite !append_assoc|].
  split; [now split|]. split; [now split|].
  split; [split|].
  { destruct Hf as [->|(t & Ht & Hr & ->)]; [now left|].
    right. exists t. repeat split; trivial. exists dialect_hints.
    destruct (nonempty (CompileState._extra_froms cs));
      [exact Hr | discriminate (Hf' eq_refl)]. }
  { intros E. apply Hf'. now rewrite E. }
  split; [split; [exact Hw|] | exact Hl].
  intros E. apply Hw'. now rewrite E.
Qed.

(** On the custom path of [visit_update] (as for the SET clause: from
    SQLAlchemy 1.4 on, or when the statement has parameters or the
    marker), the SET clause is followed by these clauses, in this order
    and by nothing else: a RETURNING clause, which is there only when
    [returning_precedes_values] is set; the FROM clause of this statement,
    its table and its extra-from tables; the WHERE clause of this
    statement's where clause (before 1.4) or where criteria (from 1.4
    on); the limit clause of this statement; a RETURNING clause, which is
    there only when [returning_precedes_values] is not set.  The FROM,
    WHERE and limit clauses are left out when their text is empty, the
    FROM clause also when there are no extra-from tables, the WHERE
    clause also when the statement has no where clause, and RETURNING
    stands at one of its two places at most.  Before the text comes
    nothing before SQLAlchemy 1.4, and the clause of the common table
    expressions from 1.4 on.  From 1.4 on the statement is the one of the
    compile state, and the tables of the FROM clause are the extra-from
    tables that are not among the from-objects of the table. *)
Theorem visit_update_clause_order (update_stmt : stmt) (c c' : compiler)
  (text : string) :
  visit_update sa self update_stmt c = Return (text, c') ->
  Settings.SA_VERSION_ge_SA_1_4 self = true
  \/ parameters_nonempty (Stmt.parameters update_stmt) = true
  \/ Stmt.has_crate_specific update_stmt = true ->
  exists (crud : list (Column * string)) (items : list (PKey Column * value))
         (extra_froms : list Table) (a b : list string)
         (cte head returning1 from_ where_ limit_ returning2 : string),
    text = cte ++ head ++ " SET " ++ Py.join ", " (app a b)
           ++ returning1 ++ from_ ++ where_ ++ limit_ ++ returning2
    /\ extends "UPDATE " head
    /\ (Settings.SA_VERSION_ge_SA_1_4 self = false -> cte = "")
    /\ Forall2 (column_clause sa
                  (nonempty extra_froms
                   && Settings.render_table_with_column_in_update_from self))
               crud a
    /\ Forall2 (path_assignment sa) (path_items items) b
    /\ optional_returning returning1
    /\ (returning1 <> "" -> Settings.returning_precedes_values self = true)
    /\ optional_returning returning2
    /\ (returning2 <> "" -> Settings.returning_precedes_values self = false)
    /\ (returning1 = "" \/ returning2 = "")
    /\ (extra_froms = [] -> from_ = "")
    /\ ((Settings.SA_VERSION_ge_SA_1_4 self = false
         /\ extra_froms = Stmt._extra_froms update_stmt
         /\ Stmt.parameters update_stmt = PDict items
         /\ (exists c1 c2,
               _get_crud_params sa self update_stmt c1 = Return (Row crud, c2))
         /\ optional_part " "
              (fun t => exists hints,
                 returns (SA.update_from_clause sa update_stmt
                            (Stmt.table update_stmt)
                            (Stmt._extra_froms update_stmt) hints) t)
              from_
         /\ optional_part " WHERE "
              (fun t => exists w, Stmt._whereclause update_stmt = Some w
                                  /\ returns (SA.process sa w) t)
              where_
         /\ (Stmt._whereclause update_stmt = None -> where_ = "")
         /\ optional_part " "
              (fun l => returns (SA.update_limit_clause sa update_stmt)
                                (Some l))
              limit_)
        \/ (Settings.SA_VERSION_ge_SA_1_4 self = true
            /\ exists cs triples c1,
                 SA._compile_state_factory sa update_stmt c = Return (cs, c1)
                 /\ extra_froms = CompileState._extra_froms cs
                 /\ CompileState._dict_parameters cs = Some items
                 /\ crud = map (fun cev => (fst (fst cev), snd cev)) triples
                 /\ (exists c3 c4,
                       _get_crud_params_14 sa self (CompileState.statement cs)
                                           cs c3
                       = Return (Row triples, c4))
                 /\ optional_part " "
                      (fun t => exists hints,
                         returns
                           (SA.update_from_clause sa
                              (CompileState.statement cs)
                              (Stmt.table (CompileState.statement cs))
                              (filter
                                 (fun f =>
                                    negb (table_in sa f
                                            (table_set sa
                                               (SA._from_objects sa
                                                  (Stmt.table
                                                     (CompileState.statement
                                                        cs))))))
                                 (CompileState._extra_froms cs))
                              hints) t)
                      from_
                 /\ optional_part " WHERE "
                      (returns
                         (SA._generate_delimited_and_list sa
                            (Stmt._where_criteria
                               (CompileState.statement cs))))
                      where_
                 /\ (Stmt._where_criteria (CompileState.statement cs) = [] ->
                     where_ = "")
                 /\ optional_part " "
                      (fun l => returns
                                  (SA.update_limit_clause sa
                                     (CompileState.statement cs)) (Some l))
                      limit_)).
Proof.
  intros H Hcustom. unfold visit_update in H.
  assert (X : forall r1 r2 : string,
             (r1 <> "" -> Settings.returning_precedes_values self = true) ->
             (r2 <> "" -> Settings.returning_precedes_values self = false) ->
             r1 = "" \/ r2 = "").
  { intros r1 r2 H1 H2.
    destruct (string_dec r1 "") as [E1|N1]; [now left|].
    destruct (string_dec r2 "") as [E2|N2]; [now right|].
    rewrite (H1 N1) in H2. discriminate (H2 N2). }
  destruct (Settings.SA_VERSION_ge_SA_1_4 self) eqn:E14.
  - apply visit_update_14_parts in H
      as (cs & crud & items & a & b & cte & head & r1 & f & w & l & r2 & c1
          & H0 & Hc & Hd & Ha & Hb & Hhead & -> & [Hr1 Hr1'] & [Hr2 Hr2']
          & [Hf Hf'] & [Hw Hw'] & Hl).
    exists (map (fun cev => (fst (fst cev), snd cev)) crud), items,
           (CompileState._extra_froms cs), a, b, cte, head, r1, f, w, l, r2.
    split; [reflexivity|]. split; [exact Hhead|]. split; [discriminate|].
    split; [exact Ha|]. split; [exact Hb|].
    split; [exact Hr1|]. split; [exact Hr1'|].
    split; [exact Hr2|]. split; [exact Hr2'|].
    split; [now apply X|]. split; [exact Hf'|].
    right. split; [reflexivity|]. exists cs, crud, c1.
    split; [exact H0|]. split; [reflexivity|]. split; [exact Hd|].
    split; [reflexivity|]. split; [exact Hc|]. split; [exact Hf|].
    split; [exact Hw|]. split; [exact Hw' | exact Hl].
  - assert (G : negb (parameters_nonempty (Stmt.parameters update_stmt))
                && negb (Stmt.has_crate_specific update_stmt) = false).
    { destruct Hcustom as [F|[-> | ->]]; [discriminate | reflexivity |].
      apply andb_false_r. }
    rewrite G in H.
    apply visit_update_custom_parts in H
      as (crud & items & a & b & head & r1 & f & w & l & r2 & c1 & c2
          & Hc & Hp & Ha & Hb & Hhead & -> & [Hr1 Hr1'] & [Hr2 Hr2']
          & [Hf Hf'] & [Hw Hw'] & Hl).
    exists crud, items, (Stmt._extra_froms update_stmt), a, b, "", head,
           r1, f, w, l, r2.
    split; [reflexivity|]. split; [exact Hhead|]. split; [reflexivity|].
    split; [exact Ha|]. split; [exact Hb|].
    split; [exact Hr1|]. split; [exact Hr1'|].
    split; [exact Hr2|]. split; [exact Hr2'|].
    split; [now apply X|]. split; [exact Hf'|].
    left. split; [reflexivity|]. split; [reflexivity|]. split; [exact Hp|].
    split; [now exists c1, c2|]. split; [exact Hf|].
    split; [exact Hw|]. split; [exact Hw' | exact Hl].
Qed.

End UpdateClauses.

(* ================================================================== *)
(** * visit_insert: the hints *)

Section DictEquivalence.
Variables (K V : Type) (eqb : K -> K -> bool).
Hypothesis eqb_sym : forall x y, eqb x y = eqb y x.
Hypothesis eqb_trans :
  forall x y z, eqb x y = true -> eqb y z = true -> eqb x z = true.

Lemma dict_get_set_equiv (k k' : K) (v : V) (d : list (K * V)) :
  dict_get eqb k (dict_set eqb k' v d)
  = if eqb k k' then Some v else dict_get eqb k d.
Proof.
  induction d as [|[k0 v0] d IH]; cbn [dict_set dict_get]; [reflexivity|].
  destruct (eqb k' k0) eqn:E0; cbn [dict_get].
  - destruct (eqb k k0) eqn:E1.
    + rewrite (@eqb_trans k k0 k' E1) by (now rewrite eqb_sym). reflexivity.
    + destruct (eqb k k') eqn:E2; [|reflexivity].
      rewrite (@eqb_trans k k' k0 E2 E0) in E1. discriminate E1.
  - destruct (eqb k k0) eqn:E1; [|exact IH].
    destruct (eqb k k') eqn:E2; [|reflexivity].
    rewrite eqb_sym in E2. rewrite (@eqb_trans k' k k0 E2 E1) in E0.
    discriminate E0.
Qed.

Lemma dict_get_fold_other_equiv (k : K) (l d : list (K * V)) :
  (forall e, In e l -> eqb k (fst e) = false) ->
  dict_get eqb k
    (fold_left (fun d kv => dict_set eqb (fst kv) (snd kv) d) l d)
  = dict_get eqb k d.
Proof.
  revert d. induction l as [|[k0 v0] l IH]; cbn [fold_left fst snd];
    intros d H; [reflexivity|].
  rewrite IH by (intros e He; apply H; now right).
  rewrite dict_get_set_equiv.
  pose proof (H (k0, v0) (or_introl eq_refl)) as E. cbn [fst] in E.
  now rewrite E.
Qed.

End DictEquivalence.

Section Hints.
Variables Table Column Clause ColKey Internals : Type.
Variable sa : SA.t Table Column Clause ColKey Internals.
Variable self : Settings.t.

(** The hint [visit_insert] formats the table with.  Only the hints for
    ['*'] and for the name of the dialect count: with none of them, no
    table has a hint, so that the table is rendered as it is.  And the
    last hint that counts for a table is the one that is used, whether it
    is for ['*'] or for the dialect: a hint for ['*'] that comes after the
    hint for the dialect replaces it.  The equality of tables is taken to
    be an equivalence. *)
Theorem dialect_hints_selection
  (hints before after : list ((Table * string) * string))
  (table : Table) (dialect_name hint_text : string) :
  let counts (h : (Table * string) * string) :=
    String.eqb (snd (fst h)) "*"
    || String.eqb (snd (fst h)) (Dialect.name (Settings.dialect self)) in
  (forall x, SA.table_eqb sa x x = true) ->
  (forall x y, SA.table_eqb sa x y = SA.table_eqb sa y x) ->
  (forall x y z, SA.table_eqb sa x y = true -> SA.table_eqb sa y z = true ->
                 SA.table_eqb sa x z = true) ->
  ((forall h, In h hints -> counts h = false) ->
   dialect_hints_of sa self hints = [])
  /\ (counts ((table, dialect_name), hint_text) = true ->
      (forall h, In h after -> counts h = true ->
                 SA.table_eqb sa table (fst (fst h)) = false) ->
      dict_get (SA.table_eqb sa) table
        (dialect_hints_of sa self
           (app before (((table, dialect_name), hint_text) :: after)))
      = Some hint_text).
Proof.
  intros counts Hrefl Hsym Htrans. split.
  - intros H. unfold dialect_hints_of. rewrite filter_none; [reflexivity|].
    exact H.
  - intros Hc Hafter. unfold dialect_hints_of, dict_of.
    rewrite filter_app, map_app, fold_left_app. cbn [filter].
    change (String.eqb (snd (fst (table, dialect_name, hint_text))) "*"
            || String.eqb (snd (fst (table, dialect_name, hint_text)))
                          (Dialect.name (Settings.dialect self)))
      with (counts ((table, dialect_name), hint_text)).
    rewrite Hc. cbn [map fold_left fst snd].
    rewrite (@dict_get_fold_other_equiv _ _ (SA.table_eqb sa) Hsym Htrans).
    + rewrite (@dict_get_set_equiv _ _ (SA.table_eqb sa) Hsym Htrans).
      now rewrite Hrefl.
    + intros e He. apply in_map_iff in He as [h [<- Hh]]. cbn [fst].
      apply filter_In in Hh as [Hin Hcounts]. now apply Hafter.
Qed.

End Hints.

(* ================================================================== *)
(** * More sample inputs *)

(** ** The small SQLAlchemy keeps the stack *)

Lemma keeps_add_bind (v : value) : keeps_stack (Mini.add_bind v).
Proof. intros c a c' H. now injection H as _ <-. Qed.

Lemma keeps_scan_pairs (s : Mini.stmt)
  (parameters : list (Mini.ColKey * Slot))
  (values : list (Mini.Column * string)) :
  keeps_stack (Mini.scan_pairs s parameters values).
Proof.
  pose proof keeps_add_bind. unfold Mini.scan_pairs. keeps.
Qed.

Lemma Mini_stack_discipline : stack_discipline Mini.sa.
Proof.
  pose proof keeps_add_bind. pose proof keeps_scan_pairs.
  constructor; intros; cbn [Mini.sa SA._compile_state_factory
    SA.base_visit_insert SA.base_visit_update SA.process
    SA.process_bindparam SA._compiler_dispatch SA._generate_prefixes
    SA._label_select_column SA.update_tables_clause SA._setup_crud_hints
    SA.update_from_clause SA.update_limit_clause
    SA._generate_delimited_and_list SA._render_cte_clause
    SA.crud_get_crud_params SA.crud_create_bind_param
    SA.crud_key_getters_for_crud_column SA.crud_get_stmt_parameters_params
    SA.crud_scan_cols SA.crud_extend_values_for_multiparams
    SA._create_bind_param SA._key_getters_for_crud_column
    SA._get_stmt_parameter_tuples_params SA._get_multitable_params
    SA._scan_insert_from_select_cols SA._scan_cols
    SA._extend_values_for_multiparams];
    unfold Mini.compile_state_factory, Mini.crud_get_crud_params,
           Mini.bind_row, Mini.scan_triples, Mini.set_insert_from_select;
    keeps.
Qed.

(** ** crate_before_execute *)

(** An UPDATE on a connection of another dialect *)
Lemma crate_before_execute_other_witness :
  crate_before_execute Mini.sa true "PGDialect"
    (Update Ex.update0 : ClauseElement _ _ _ unit) [] Ex.params_ab
  = Return (Update Ex.update0, [], ParamsDict Ex.params_ab).
Proof.
  apply (@crate_before_execute_other _ _ _ _ _ unit Mini.sa true "PGDialect"
           (Update Ex.update0) [] Ex.params_ab).
  left. discriminate.
Defined.

(** From SQLAlchemy 1.4 on the dictionary [params] is rewritten, and what
    [multiparams] holds is gone. *)
Example scenario_before_execute_14 :
  crate_before_execute Mini.sa true "CrateDialect"
    (Update Ex.update0 : ClauseElement _ _ _ unit)
    [[Ex.params_clean; Ex.params_gone]] Ex.params_ab
  = Return
      (Update
         (Stmt.set_crate_specific
            (Mini.statement Ex.t
               (PDict [(KStr "doc['a']", Ex.int 1);
                       (KStr "doc['b']", VNull);
                       (KStr "x", Ex.int 5)]))),
       [],
       ParamsList [[("doc['a']", Ex.int 1); ("doc['b']", VNull);
                    ("x", Ex.int 5)]]).
Proof. reflexivity. Qed.

(** Before SQLAlchemy 1.4, [execute(update, {...})] hands the hook the
    dictionary as the first positional parameter: the loop of
    [rewrite_update] runs over its keys, and the hook raises.  With the
    dictionary in a list, [execute(update, [{...}])], the document is
    rewritten. *)
Example scenario_before_execute_13 :
  Positional.crate_before_execute Mini.sa false "CrateDialect"
    (Update Ex.update0 : ClauseElement _ _ _ unit)
    [Positional.Mapping Ex.params_ab] []
  = Raise AttributeError
  /\ Positional.crate_before_execute Mini.sa false "CrateDialect"
       (Update Ex.update0 : ClauseElement _ _ _ unit)
       [Positional.Mappings [Ex.params_ab]] []
     = Return
         (Update
            (Stmt.set_crate_specific
               (Mini.statement Ex.t
                  (PDict [(KStr "doc['a']", Ex.int 1);
                          (KStr "doc['b']", VNull);
                          (KStr "x", Ex.int 5)]))),
          [Positional.Mappings
             [[("doc['a']", Ex.int 1); ("doc['b']", VNull);
               ("x", Ex.int 5)]]],
          ParamsDict []).
Proof. split; reflexivity. Qed.

(** ** CrateTypeCompiler and get_column_specification *)

(** An array of arrays of strings *)
Lemma process_overridden_witness :
  exists base,
    In base ArrayTypes.names
    /\ CrateTypeCompiler.process (fun _ => Raise TypeError) (snd Ex2.tags)
       = Return (ArrayTypes.arrays 2 base).
Proof.
  apply (process_overridden (fun _ => Raise TypeError) (snd Ex2.tags));
    reflexivity.
Defined.

Example scenario_column_specifications :
  get_column_specification fst snd
    (CrateTypeCompiler.process (fun _ => Raise TypeError)) Ex2.tags
  = Return "tags ARRAY(ARRAY(STRING))"
  /\ get_column_specification fst snd
       (CrateTypeCompiler.process (fun _ => Raise TypeError)) Ex2.grid
     = Raise (NotImplementedError
                "CrateDB doesn't support multidimensional arrays")
  /\ CrateTypeCompiler.process (fun _ => Raise TypeError)
       (CrateTypeCompiler.ARRAY (snd Ex2.grid) None)
     = Raise (NotImplementedError
                "CrateDB doesn't support multidimensional arrays").
Proof. repeat split. Qed.

(** ** Expressions *)

Example scenario_expressions :
  process_element Mini.sa Ex2.OPERATORS Ex2.doc_a_b Mini.compiler0
  = Return ("doc['a']['b']", Mini.compiler0)
  /\ process_element Mini.sa Ex2.OPERATORS Ex2.x_any_tags Mini.compiler0
     = Return ("x = ANY (doc['tags'])", Mini.compiler0)
  /\ visit_getitem_binary Mini.sa Ex2.OPERATORS (Leaf "doc")
       (SStr "a']['b") Mini.compiler0
     = Return ("doc['a']['b']", Mini.compiler0)
  /\ visit_getitem_binary Mini.sa Ex2.OPERATORS (Leaf "doc") (SInt 0)
       Mini.compiler0
     = Return ("doc['0']", Mini.compiler0)
  /\ visit_any Mini.sa Ex2.OPERATORS (Leaf "x") "gt" (Leaf "ys")
       Mini.compiler0
     = Return ("x > ANY (ys)", Mini.compiler0)
  /\ visit_any Mini.sa Ex2.OPERATORS (Leaf "x") "like" (Leaf "ys")
       Mini.compiler0
     = Raise (Foreign "KeyError")
  /\ process_element Mini.sa Ex2.OPERATORS
       (AnyOf (Leaf "x") "eq" (GetItemOther (Leaf "doc") "y")) Mini.compiler0
     = Raise AttributeError.
Proof. repeat split. Qed.

(** [doc[t.c.x]]: the subscript is a column and not a bind parameter *)
Lemma process_element_raises_witness :
  (exists leaf c1,
      In leaf ["doc"]
      /\ SA.process Mini.sa leaf c1 = Raise AttributeError)
  \/ (exists operator,
         In operator []
         /\ Ex2.OPERATORS operator = Raise AttributeError)
  \/ (AttributeError = AttributeError /\ ["x"] <> []).
Proof.
  apply (@process_element_raises _ _ _ _ _ _ Mini.sa Ex2.OPERATORS
           (GetItemOther (Leaf "doc") "x") Mini.compiler0 AttributeError).
  reflexivity.
Defined.

(** [x = ANY (doc['tags'])] *)
Lemma process_element_leaves_witness :
  (exists texts,
      mapM (SA.process Mini.sa) ["x"; "doc"] Mini.compiler0
      = Return (texts, Mini.compiler0))
  /\ Forall (fun operator => exists o, Ex2.OPERATORS operator = Return o)
            ["eq"].
Proof.
  apply (@process_element_leaves _ _ _ _ _ _ Mini.sa Ex2.OPERATORS
           Ex2.x_any_tags Mini.compiler0 Mini.compiler0
           "x = ANY (doc['tags'])").
  reflexivity.
Defined.

(** ** visit_insert and visit_update *)

(** An INSERT without values on CrateDB below 1.0.1, and an INSERT of two
    rows on a dialect without multivalues inserts *)
Lemma visit_insert_not_implemented_witness :
  visit_insert Mini.sa Ex.old_server_sa13 Ex2.insert0 Mini.compiler0
  = Raise (NotImplementedError
      "The 'crate' dialect with current database version settings does not support empty inserts.")
  /\ visit_insert Mini.sa
       (Ex2.settings_of (Ex2.without_multivalues [0; 57; 0]%Z) false)
       Ex.insert_rows Mini.compiler0
     = Raise (NotImplementedError
         "The 'crate' dialect with current database version settings does not support in-place multirow inserts.").
Proof.
  split.
  - evar (c2 : Mini.compiler).
    destruct (@visit_insert_not_implemented _ _ _ _ _ Mini.sa
                Ex.old_server_sa13 Ex2.insert0 Mini.compiler0 c2 (Row []))
      as [H _].
    + reflexivity.
    + reflexivity.
    + unfold c2. vm_compute. reflexivity.
    + apply H; reflexivity.
  - evar (c2 : Mini.compiler).
    destruct (@visit_insert_not_implemented _ _ _ _ _ Mini.sa
                (Ex2.settings_of (Ex2.without_multivalues [0; 57; 0]%Z) false)
                Ex.insert_rows Mini.compiler0 c2
                (Rows [[("x", "?"); ("y", "?")]; [("x", "?"); ("y", "?")]]))
      as [_ H].
    + reflexivity.
    + reflexivity.
    + unfold c2. vm_compute. reflexivity.
    + apply H; reflexivity.
Defined.

(** [insert(t).values(x=1, y=2)] on CrateDB below 1.0.1 *)
Lemma visit_insert_single_row_witness :
  exists head mid tail,
    extends "INSERT " head
    /\ "INSERT INTO t (x, y) VALUES (?, ?)"
       = head ++ " (x, y)" ++ mid ++ " VALUES (?, ?)" ++ tail.
Proof.
  evar (c' : Mini.compiler).
  destruct (@visit_insert_single_row _ _ _ _ _ Mini.sa Ex.old_server_sa13
              Ex2.insert_xy Mini.compiler0 c'
              "INSERT INTO t (x, y) VALUES (?, ?)")
    as (row & head & mid & tail & c1 & c2 & Hcrud & Hhead & _ & _ & E).
  - reflexivity.
  - reflexivity.
  - reflexivity.
  - reflexivity.
  - unfold c'. vm_compute. reflexivity.
  - assert (Hrow : row = [("x", "?"); ("y", "?")]).
    { clear - Hcrud. cbn in Hcrud. unfold bind, mapM in Hcrud.
      cbn in Hcrud. now injection Hcrud as <-. }
    subst row. exists head, mid, tail. split; [exact Hhead | exact E].
Defined.

Example scenario_insert_default_values :
  (exists c',
      visit_insert Mini.sa
        (Ex2.settings_of (Ex2.with_default_values [0; 57; 0]%Z) false)
        Ex2.insert0 Mini.compiler0
      = Return ("INSERT INTO t DEFAULT VALUES", c')).
Proof. eexists. vm_compute. reflexivity. Qed.

(** The two rows of [Ex.insert_rows]: the stack is empty before and
    after. *)
Lemma visit_insert_keeps_stack_witness :
  exists c',
    visit_insert Mini.sa Ex.old_server_sa13 Ex.insert_rows Mini.compiler0
    = Return ("INSERT INTO t (x, y) VALUES (?, ?), (?, ?)", c')
    /\ Compiler.stack c' = [].
Proof.
  evar (c' : Mini.compiler).
  assert (H : visit_insert Mini.sa Ex.old_server_sa13 Ex.insert_rows
                Mini.compiler0
              = Return ("INSERT INTO t (x, y) VALUES (?, ?), (?, ?)", c')).
  { unfold c'. vm_compute. reflexivity. }
  exists c'. split; [exact H|].
  exact (@visit_insert_keeps_stack _ _ _ _ _ Mini.sa Ex.old_server_sa13
           Mini_stack_discipline Ex.insert_rows Mini.compiler0 c'
           "INSERT INTO t (x, y) VALUES (?, ?), (?, ?)" H).
Defined.

(** The UPDATE of the rewritten document, from SQLAlchemy 1.4 on *)
Lemma visit_update_keeps_stack_witness :
  exists c',
    visit_update Mini.sa Ex.new_server_sa14 Ex.update_ab Mini.compiler0
    = Return ("UPDATE t SET doc['a'] = ?, doc['b'] = ?", c')
    /\ Compiler.stack c' = [].
Proof.
  evar (c' : Mini.compiler).
  assert (H : visit_update Mini.sa Ex.new_server_sa14 Ex.update_ab
                Mini.compiler0
              = Return ("UPDATE t SET doc['a'] = ?, doc['b'] = ?", c')).
  { unfold c'. vm_compute. reflexivity. }
  exists c'. split; [exact H|].
  exact (@visit_update_keeps_stack _ _ _ _ _ Mini.sa Ex.new_server_sa14
           Mini_stack_discipline Ex.update_ab Mini.compiler0 c'
           "UPDATE t SET doc['a'] = ?, doc['b'] = ?" H).
Defined.

(** ** The resolvers of crud parameters *)

(** [update(t)] without parameters: a bind for each of [x], [y], [doc] *)
Lemma crud_params_all_columns_witness :
  (exists vs c',
      _get_crud_params Mini.sa Ex.new_server_sa13 Ex.update0 Mini.compiler0
      = Return (Row vs, c')
      /\ List.length vs = 3%nat)
  /\ (exists vs c',
         _get_crud_params_14 Mini.sa Ex.new_server_sa14 Ex.update0
           Ex2.update0_state Mini.compiler0
         = Return (Row vs, c')
         /\ List.length vs = 3%nat).
Proof.
  destruct (@crud_params_all_columns _ _ _ _ _ Mini.sa Ex.new_server_sa13
              Ex.update0 Ex2.update0_state Mini.compiler0 eq_refl)
    as [H13 _].
  destruct (@crud_params_all_columns _ _ _ _ _ Mini.sa Ex.new_server_sa14
              Ex.update0 Ex2.update0_state Mini.compiler0 eq_refl)
    as [_ H14].
  split.
  - destruct H13 as (vs & c' & H & F); [reflexivity| |].
    + intros col c0. eexists. eexists. reflexivity.
    + exists vs, c'. split; [exact H|].
      apply Forall2_length in F. now rewrite <- F.
  - destruct H14 as (vs & c' & H & F); [reflexivity| | |].
    + intros c0. eexists. eexists. reflexivity.
    + intros col c0. eexists. eexists. reflexivity.
    + exists vs, c'. split; [exact H|].
      apply Forall2_length in F. now rewrite <- F.
Defined.

(** [update(t).values({})] compiled for [executemany]: the first column
    with [DEFAULT] *)
Lemma crud_params_14_executemany_witness :
  exists c',
    _get_crud_params_14 Mini.sa
      (Ex2.settings_of (Mini.crate [4; 3; 0]%Z) true)
      Ex2.update_empty Ex2.update_empty_state Mini.compiler0
    = Return (Row [("x", "x", "DEFAULT")], c').
Proof.
  evar (c' : Mini.compiler).
  assert (H : _get_crud_params_14 Mini.sa
                (Ex2.settings_of (Mini.crate [4; 3; 0]%Z) true)
                Ex2.update_empty Ex2.update_empty_state Mini.compiler0
              = Return (Row [("x", "x", "DEFAULT")], c')).
  { unfold c'. vm_compute. reflexivity. }
  exists c'.
  destruct (@crud_params_14_executemany _ _ _ _ _ Mini.sa
              (Ex2.settings_of (Mini.crate [4; 3; 0]%Z) true)
              Ex2.update_empty Ex2.update_empty_state Mini.compiler0 c'
              (Row [("x", "x", "DEFAULT")]) eq_refl eq_refl H)
    as (row & E & _).
  exact H.
Defined.

(** ** post_create_table *)

(** A table with a keyword of another dialect only *)
Lemma post_create_table_other_keywords_witness :
  CrateDDLCompiler.post_create_table "crate" [("mysql_engine", SStr "InnoDB")]
  = "".
Proof.
  apply (proj2 (post_create_table_other_keywords "crate"
                  [("mysql_engine", SStr "InnoDB")])).
  intros k [<-|[]]. reflexivity.
Defined.

(** Two spellings of [partitioned_by]: the second one counts. *)
Lemma table_option_last_keyword_witness :
  str_get "PARTITIONED_BY" (CrateDDLCompiler.opts "crate" Ex2.kwargs_twice)
  = Some (SStr "month")
  /\ CrateDDLCompiler.post_create_table "crate" Ex2.kwargs_twice
     = " PARTITIONED BY (month)".
Proof.
  destruct (table_option_last_keyword "crate"
              [("crate_partitioned_by", SStr "day");
               ("mysql_engine", SStr "InnoDB")]
              [] "crate_PARTITIONED_BY" (SStr "month")) as [H _].
  - reflexivity.
  - intros k' [].
  - split; [exact H | reflexivity].
Defined.

(** ** rewrite_update *)

(** [x] beside the changed document [doc] *)
Lemma rewrite_params_keeps_others_witness :
  str_get "x" (rewrite_params Ex.params_ab) = Some (Ex.int 5).
Proof.
  apply (rewrite_params_keeps_others Ex.params_ab "x" (Ex.int 5)).
  - nodup.
  - intros k [<-|[<-|[]]]; reflexivity.
  - right. now left.
  - reflexivity.
Defined.

(** ** The keys of the rewritten mapping, and the UPDATE it gives *)

(** The key [doc['b']] of the rewritten [Ex.params_ab] *)
Lemma rewrite_params_keys_witness :
  In "doc['b']" (dict_keys Ex.params_ab)
  \/ exists col items _changed_keys _deleted_keys sub,
       In (col, VMutableDict items _changed_keys _deleted_keys) Ex.params_ab
       /\ "doc['b']" = path col sub
       /\ ((In sub (dict_keys items) /\ In sub _changed_keys)
           \/ In sub _deleted_keys).
Proof.
  apply (rewrite_params_keys Ex.params_ab "doc['b']").
  right. now left.
Defined.

(** [Ex.params_ab] through the hook and the compiler, before SQLAlchemy
    1.4 *)
Lemma partial_update_set_clause_witness :
  exists (b : list string) (bind_a bind_b : string),
    In ("doc['a'] = " ++ bind_a) b /\ In ("doc['b'] = " ++ bind_b) b.
Proof.
  evar (c' : Mini.compiler).
  destruct (@partial_update_set_clause _ _ _ _ _ unit Mini.sa
              Ex.new_server_sa13 Ex.update0
              (Mini.statement Ex.t
                 (PDict [(KStr "doc['a']", Ex.int 1);
                         (KStr "doc['b']", VNull);
                         (KStr "x", Ex.int 5)]))
              Ex.params_ab "doc" [("a", Ex.int 1); ("c", Ex.int 3)]
              ["a"] ["b"] Mini.compiler0 c'
              "UPDATE t SET x = ?, doc['a'] = ?, doc['b'] = ?")
    with (_multiparams := @nil (dict value))
         (rest := @nil (list (dict value))) (params := @nil (string * value))
    as (clause' & Hhook & Hset).
  - reflexivity.
  - nodup.
  - intros k [<-|[<-|[]]]; reflexivity.
  - now left.
  - reflexivity.
  - nodup.
  - nodup.
  - reflexivity.
  - reflexivity.
  - assert (E : clause'
                = Stmt.set_crate_specific
                    (Mini.statement Ex.t
                       (PDict [(KStr "doc['a']", Ex.int 1);
                               (KStr "doc['b']", VNull);
                               (KStr "x", Ex.int 5)]))).
    { vm_compute in Hhook. now injection Hhook as <-. }
    subst clause'.
    destruct Hset as (a & b & head & tail & _ & Hdel & Hch).
    { unfold c'. vm_compute. reflexivity. }
    destruct (Hdel "b") as (bind_b & _ & _ & _ & Hb); [now left|].
    destruct (Hch "a" (Ex.int 1)) as (bind_a & _ & _ & _ & Ha);
      [now left | now left | intros [F|[]]; discriminate F |].
    now exists b, bind_a, bind_b.
Defined.

(** An UPDATE with a WHERE clause and no extra-from table, compiled by
    a compiler whose RETURNING clause does not precede the values: the
    text has no FROM clause, no RETURNING clause before it, and its WHERE
    clause is the text of the statement's where clause. *)
Lemma visit_update_clause_order_witness :
  exists (cte head set_ where_ limit_ returning2 : string),
    "UPDATE t SET x = ? WHERE y = 2"
    = cte ++ head ++ " SET " ++ set_ ++ "" ++ "" ++ where_
          ++ limit_ ++ returning2
    /\ extends "UPDATE " head /\ cte = ""
    /\ optional_part " WHERE "
         (fun t => exists w, Stmt._whereclause Ex2.update_where = Some w
                             /\ returns (SA.process Mini.sa w) t)
         where_.
Proof.
  evar (c' : Mini.compiler).
  destruct (@visit_update_clause_order _ _ _ _ _ Mini.sa Ex.new_server_sa13
              Ex2.update_where Mini.compiler0 c'
              "UPDATE t SET x = ? WHERE y = 2")
    as (crud & items & extra_froms & a & b & cte & head & r1 & f & w & l & r2
        & E & Hhead & Hcte & _ & _ & _ & Hr1 & _ & _ & _ & Hf & Hprov).
  - unfold c'. vm_compute. reflexivity.
  - right. left. reflexivity.
  - destruct Hprov as [(_ & -> & _ & _ & _ & Hw & _)|(F & _)];
      [|discriminate F].
    assert (Ef : f = "") by now apply Hf.
    assert (Er : r1 = "").
    { destruct (string_dec r1 "") as [Er|Nr]; [exact Er|].
      discriminate (Hr1 Nr). }
    subst f r1.
    exists cte, head, (Py.join ", " (app a b)), w, l, r2.
    split; [exact E|]. split; [exact Hhead|].
    split; [now apply Hcte | exact Hw].
Defined.

(** ** The hints of an INSERT *)

(** A hint for the dialect, one for another dialect, then one for ['*'] *)
Lemma dialect_hints_selection_witness :
  dict_get (SA.table_eqb Mini.sa) Ex.t
    (dialect_hints_of Mini.sa Ex.old_server_sa13
       [((Ex.t, "crate"), "a"); ((Ex.t, "mysql"), "b"); ((Ex.t, "*"), "c")])
  = Some "c".
Proof.
  apply (proj2 (@dialect_hints_selection _ _ _ _ _ Mini.sa Ex.old_server_sa13
                  [] [((Ex.t, "crate"), "a"); ((Ex.t, "mysql"), "b")] []
                  Ex.t "*" "c"
                  (fun x => String.eqb_refl (fst x))
                  (fun x y => String.eqb_sym (fst x) (fst y))
                  (fun x y z Hxy Hyz =>
                     proj2 (String.eqb_eq (fst x) (fst z))
                       (eq_trans (proj1 (String.eqb_eq _ _) Hxy)
                                 (proj1 (String.eqb_eq _ _) Hyz))))).
  - reflexivity.
  - intros h [].
Defined.
